(** * Verification of [fetch_anniv.py]

    A shallow embedding of [src/data/fetch_anniv.py] (class
    [AnniversaryFetcher] and [main]) and of the library behaviour it
    relies on ([str], [datetime.date], [csv.writer], [json.dumps],
    [requests.Response.raise_for_status], [print], [time.sleep]),
    followed by the properties stated about the program.

    Modelling conventions.
    - A Python [str] is a sequence of Unicode code points: [list N].
    - A Python [dict] is an association list in insertion order.
    - Exceptions are values of [exn]; code that may raise returns
      [result].
    - The network is an oracle giving the outcome of the n-th request.
    - Standard output and the two files are UTF-8 text streams: writing
      a text that holds a surrogate code point raises
      [UnicodeEncodeError], and nothing of that text is written.
    - A method that prints, sleeps or sends requests is an [action]: a
      function from the state it starts in to the state it leaves, the
      way it ends (a value or an exception) and the events it caused,
      in order.  A statement executed before an exception keeps its
      effect. *)

From Stdlib Require Import List ZArith NArith Bool Lia Ascii.
From Stdlib Require String DecimalString.
From Stdlib Require Import SpecFloat.
From Stdlib Require Import Sorted Permutation.
Import ListNotations String.StringSyntax.

Local Open Scope Z_scope.
Local Open Scope string_scope.

(* ================================================================== *)
(** * Python strings                                                   *)
(* ================================================================== *)

Module PyStr.

(** Python [str]: a sequence of code points. *)
Definition pystr : Type := list N.

(** An ASCII literal of the source. *)
Definition lit (s : String.string) : pystr :=
  map N_of_ascii (String.list_ascii_of_string s).

Definition eqb (a b : pystr) : bool :=
  if list_eq_dec N.eq_dec a b then true else false.

(** [sep.join(parts)] *)
Fixpoint join (sep : pystr) (parts : list pystr) : pystr :=
  match parts with
  | [] => []
  | [x] => x
  | x :: rest => x ++ sep ++ join sep rest
  end.

(** [str.isspace] on one code point (the Unicode white space set). *)
Definition isspace (c : N) : bool :=
  (((0x09 <=? c) && (c <=? 0x0d)) || ((0x1c <=? c) && (c <=? 0x20))
   || (c =? 0x85) || (c =? 0xa0) || (c =? 0x1680)
   || ((0x2000 <=? c) && (c <=? 0x200a))
   || (c =? 0x2028) || (c =? 0x2029) || (c =? 0x202f) || (c =? 0x205f)
   || (c =? 0x3000))%N.

Fixpoint lstrip (s : pystr) : pystr :=
  match s with
  | c :: rest => if isspace c then lstrip rest else s
  | [] => []
  end.

Definition rstrip (s : pystr) : pystr := rev (lstrip (rev s)).

(** [s.strip()] *)
Definition strip (s : pystr) : pystr := rstrip (lstrip s).

(** [len(s)] *)
Definition len (s : pystr) : Z := Z.of_nat (length s).

(** Comparison of two [str]: lexicographic on code points. *)
Fixpoint compare (a b : pystr) : comparison :=
  match a, b with
  | [], [] => Eq
  | [], _ :: _ => Lt
  | _ :: _, [] => Gt
  | x :: a', y :: b' =>
      match N.compare x y with
      | Eq => compare a' b'
      | c => c
      end
  end.

(** [a < b] *)
Definition ltb (a b : pystr) : bool :=
  match compare a b with Lt => true | _ => false end.

(** [str(n)] for an [int]. *)
Definition str_of_int (n : Z) : pystr :=
  lit (DecimalString.NilZero.string_of_int (Z.to_int n)).

(** [f"{n:02d}"]: sign-aware zero padding to width two. *)
Definition fmt_02d (n : Z) : pystr :=
  let digits := str_of_int (Z.abs n) in
  let sign := if n <? 0 then lit "-" else [] in
  sign ++ repeat 48%N (2 - length sign - length digits)%nat ++ digits.

End PyStr.
Import PyStr.

(** [seq[:stop]] for a list and an [int], negative [stop] counting from
    the end. *)
Definition slice_to {A} (l : list A) (stop : Z) : list A :=
  if 0 <=? stop then firstn (Z.to_nat stop) l
  else firstn (length l - Z.to_nat (- stop))%nat l.

(** The exceptions the program can meet. *)
Inductive exn :=
| ValueError (msg : pystr)
| OverflowError (msg : pystr)
| ZeroDivisionError
| JSONDecodeError (msg : pystr)
| RequestException (msg : pystr)
| UnicodeEncodeError
| OtherException (msg : pystr).

Inductive result (A : Type) :=
| Ok (a : A)
| Raise (e : exn).
Arguments Ok {A} a.
Arguments Raise {A} e.

Definition bind {A B} (m : result A) (k : A -> result B) : result B :=
  match m with
  | Ok a => k a
  | Raise e => Raise e
  end.

Notation "x <- m ;; k" := (bind m (fun x => k))
  (at level 61, m at next level, right associativity).

Definition raises {A} (m : result A) : bool :=
  match m with Ok _ => false | Raise _ => true end.

(* ================================================================== *)
(** * [datetime.date] and [timedelta]                                  *)
(* ================================================================== *)

Module PyDatetime.

Definition MINYEAR := 1.
Definition MAXYEAR := 9999.

Definition _DAYS_IN_MONTH : list Z :=
  [-1; 31; 28; 31; 30; 31; 30; 31; 31; 30; 31; 30; 31].

Definition _DAYS_BEFORE_MONTH : list Z :=
  [-1; 0; 31; 59; 90; 120; 151; 181; 212; 243; 273; 304; 334].

Definition index (table : list Z) (i : Z) : Z := nth (Z.to_nat i) table (-1).

Definition _is_leap (year : Z) : bool :=
  (year mod 4 =? 0) && (negb (year mod 100 =? 0) || (year mod 400 =? 0)).

Definition _days_before_year (year : Z) : Z :=
  let y := year - 1 in
  y * 365 + y / 4 - y / 100 + y / 400.

Definition _days_in_month (year month : Z) : Z :=
  if (month =? 2) && _is_leap year then 29 else index _DAYS_IN_MONTH month.

Definition _days_before_month (year month : Z) : Z :=
  index _DAYS_BEFORE_MONTH month
  + (if (2 <? month) && _is_leap year then 1 else 0).

Definition _ymd2ord (year month day : Z) : Z :=
  _days_before_year year + _days_before_month year month + day.

Definition _DI400Y := 146097.
Definition _DI100Y := 36524.
Definition _DI4Y := 1461.
Definition _MAXORDINAL := 3652059.

Record date := mkdate { year : Z; month : Z; day : Z }.

Definition _ord2ymd (n0 : Z) : date :=
  let n := n0 - 1 in
  let n400 := n / _DI400Y in
  let n := n mod _DI400Y in
  let year := n400 * 400 + 1 in
  let n100 := n / _DI100Y in
  let n := n mod _DI100Y in
  let n4 := n / _DI4Y in
  let n := n mod _DI4Y in
  let n1 := n / 365 in
  let n := n mod 365 in
  let year := year + n100 * 100 + n4 * 4 + n1 in
  if (n1 =? 4) || (n100 =? 4) then mkdate (year - 1) 12 31
  else
    let leapyear := (n1 =? 3) && (negb (n4 =? 24) || (n100 =? 3)) in
    let month := Z.shiftr (n + 50) 5 in
    let preceding :=
      index _DAYS_BEFORE_MONTH month
      + (if (2 <? month) && leapyear then 1 else 0) in
    if n <? preceding then
      let month := month - 1 in
      let preceding :=
        preceding - (index _DAYS_IN_MONTH month
                     + (if (month =? 2) && leapyear then 1 else 0)) in
      mkdate year month (n - preceding + 1)
    else mkdate year month (n - preceding + 1).

(** [date(year, month, day)] *)
Definition new_date (y m d : Z) : result date :=
  if negb ((MINYEAR <=? y) && (y <=? MAXYEAR)) then
    Raise (ValueError (lit "year is out of range"))
  else if negb ((1 <=? m) && (m <=? 12)) then
    Raise (ValueError (lit "month must be in 1..12"))
  else if negb ((1 <=? d) && (d <=? _days_in_month y m)) then
    Raise (ValueError (lit "day is out of range for month"))
  else Ok (mkdate y m d).

Definition toordinal (d : date) : Z := _ymd2ord (year d) (month d) (day d).

(** [d + timedelta(days=days)] *)
Definition add_days (d : date) (days : Z) : result date :=
  let o := toordinal d + days in
  if (0 <? o) && (o <=? _MAXORDINAL) then Ok (_ord2ymd o)
  else Raise (OverflowError (lit "date value out of range")).

End PyDatetime.
Import PyDatetime.

(* ================================================================== *)
(** * Python values, [dict], [sorted]                                  *)
(* ================================================================== *)

(** A [dict] with [str] keys, in insertion order. *)
Definition dict (V : Type) : Type := list (pystr * V).

(** [d.get(key)]; [key in d] is [dict_get key d <> None]. *)
Fixpoint dict_get {V} (key : pystr) (d : dict V) : option V :=
  match d with
  | [] => None
  | (k, v) :: rest => if PyStr.eqb k key then Some v else dict_get key rest
  end.

Definition dict_contains {V} (key : pystr) (d : dict V) : bool :=
  match dict_get key d with Some _ => true | None => false end.

(** [d[key] = value]: an existing key keeps its position, a new key goes
    to the end. *)
Fixpoint dict_set {V} (key : pystr) (value : V) (d : dict V) : dict V :=
  match d with
  | [] => [(key, value)]
  | (k, v) :: rest =>
      if PyStr.eqb k key then (k, value) :: rest
      else (k, v) :: dict_set key value rest
  end.

Definition dict_keys {V} (d : dict V) : list pystr := map fst d.
Definition dict_values {V} (d : dict V) : list V := map snd d.
Definition dict_items {V} (d : dict V) : list (pystr * V) := d.

(** [dict(pairs)] *)
Definition dict_of_items {V} (pairs : list (pystr * V)) : dict V :=
  fold_left (fun d kv => dict_set (fst kv) (snd kv) d) pairs [].

(** [sorted(l)], a stable sort that only asks [<]. *)
Fixpoint insort {A} (lt : A -> A -> bool) (x : A) (l : list A) : list A :=
  match l with
  | [] => [x]
  | y :: l' => if lt y x then y :: insort lt x l' else x :: l
  end.

Definition sorted {A} (lt : A -> A -> bool) (l : list A) : list A :=
  fold_right (insort lt) [] l.

(** [<] on tuples [(str, str)]: the first component that differs
    decides. *)
Definition tuple_ltb (a b : pystr * pystr) : bool :=
  if PyStr.eqb (fst a) (fst b) then PyStr.ltb (snd a) (snd b)
  else PyStr.ltb (fst a) (fst b).

(** The values [json.loads] produces. *)
#[local] Set Warnings "-register-all".
Inductive pyval :=
| PNone
| PBool (b : bool)
| PInt (z : Z)
| PFloat (f : spec_float)
| PStr (s : pystr)
| PList (items : list pyval)
| PDict (entries : list (pystr * pyval)).

(** Library functions whose output format is not spelled out here: the
    [repr] of a float and of a [str], and the [.1f] rendering of
    [with_data / total * 100]. *)
Class PyRuntime := {
  float_repr : spec_float -> pystr;
  str_repr : pystr -> pystr;
  percent_1f : Z -> Z -> pystr
}.

(** The separator of the source: U+3001. *)
Definition ideographic_comma : pystr := [0x3001%N].

Section Values.
Context {RT : PyRuntime}.

(** Truth value of [if item]. *)
Definition truthy (v : pyval) : bool :=
  match v with
  | PNone => false
  | PBool b => b
  | PInt z => negb (z =? 0)
  | PFloat (S754_zero _) => false
  | PFloat _ => true
  | PStr s => negb (PyStr.eqb s [])
  | PList items => match items with [] => false | _ => true end
  | PDict entries => match entries with [] => false | _ => true end
  end.

Fixpoint py_repr (v : pyval) : pystr :=
  match v with
  | PNone => lit "None"
  | PBool true => lit "True"
  | PBool false => lit "False"
  | PInt z => str_of_int z
  | PFloat f => float_repr f
  | PStr s => str_repr s
  | PList items => lit "[" ++ join (lit ", ") (map py_repr items) ++ lit "]"
  | PDict entries =>
      lit "{"
      ++ join (lit ", ")
           (map (fun kv => let '(k, x) := kv in
                           str_repr k ++ lit ": " ++ py_repr x) entries)
      ++ lit "}"
  end.

(** [str(v)] *)
Definition py_str (v : pyval) : pystr :=
  match v with
  | PStr s => s
  | _ => py_repr v
  end.

(** ** [json.dumps(v, ensure_ascii=False)] *)

Definition hexdigit (n : N) : N := nth (N.to_nat n) (lit "0123456789abcdef") 48%N.

Definition json_escape (c : N) : pystr :=
  if (c =? 0x5c)%N then lit "\\"
  else if (c =? 0x22)%N then [0x5c; 0x22]%N
  else if (c =? 0x08)%N then lit "\b"
  else if (c =? 0x0c)%N then lit "\f"
  else if (c =? 0x0a)%N then lit "\n"
  else if (c =? 0x0d)%N then lit "\r"
  else if (c =? 0x09)%N then lit "\t"
  else if (c <? 0x20)%N then
    lit "\u00" ++ [hexdigit (c / 16); hexdigit (c mod 16)]
  else [c].

Definition json_string (s : pystr) : pystr :=
  [0x22%N] ++ flat_map json_escape s ++ [0x22%N].

Definition json_float (f : spec_float) : pystr :=
  match f with
  | S754_nan => lit "NaN"
  | S754_infinity false => lit "Infinity"
  | S754_infinity true => lit "-Infinity"
  | _ => float_repr f
  end.

Fixpoint json_dumps (v : pyval) : pystr :=
  match v with
  | PNone => lit "null"
  | PBool true => lit "true"
  | PBool false => lit "false"
  | PInt z => str_of_int z
  | PFloat f => json_float f
  | PStr s => json_string s
  | PList [] => lit "[]"
  | PList items => lit "[" ++ join (lit ", ") (map json_dumps items) ++ lit "]"
  | PDict [] => lit "{}"
  | PDict entries =>
      lit "{"
      ++ join (lit ", ")
           (map (fun kv => let '(k, x) := kv in
                           json_string k ++ lit ": " ++ json_dumps x) entries)
      ++ lit "}"
  end.

End Values.

(* ================================================================== *)
(** * [requests]                                                       *)
(* ================================================================== *)

(** A [requests.Response]: [json] is what [response.json()] does, a
    parsed value or an exception. *)
Record Response := {
  status_code : Z;
  reason : pystr;
  url : pystr;
  text : pystr;
  json : result pyval
}.

(** [response.raise_for_status()] *)
Definition raise_for_status (response : Response) : result unit :=
  let http_error_msg :=
    if (400 <=? status_code response) && (status_code response <? 500) then
      str_of_int (status_code response) ++ lit " Client Error: "
      ++ reason response ++ lit " for url: " ++ url response
    else if (500 <=? status_code response) && (status_code response <? 600) then
      str_of_int (status_code response) ++ lit " Server Error: "
      ++ reason response ++ lit " for url: " ++ url response
    else [] in
  match http_error_msg with
  | [] => Ok tt
  | _ => Raise (RequestException http_error_msg)
  end.

(** What [requests.get] meets: an exception of the network layer (a
    [RequestException] with its message) or a response. *)
Inductive net_result :=
| NetError (msg : pystr)
| NetResponse (response : Response).

(** The outside world: the outcome of the n-th request, to a given URL. *)
Definition network : Type := nat -> pystr -> net_result.


(* ================================================================== *)
(** * Standard output, the clock                                       *)
(* ================================================================== *)

(** What the program does to the outside, in order: a line it prints, a
    [time.sleep(self.delay)] that returned, a request it sends. *)
Inductive event :=
| Print (line : pystr)
| Sleep
| Get (target : pystr).

(** A code point that UTF-8 can encode: every one but the surrogates
    U+D800 to U+DFFF. *)
Definition utf8_encodable (c : N) : bool :=
  negb ((0xD800 <=? c) && (c <=? 0xDFFF))%N.

(** A text that a UTF-8 stream accepts. *)
Definition printable (s : pystr) : bool := forallb utf8_encodable s.

(** [str(e)]; a [UnicodeEncodeError] is identified by its class, the
    position it names is not modelled. *)
Definition exn_message (e : exn) : pystr :=
  match e with
  | ValueError msg => msg
  | OverflowError msg => msg
  | ZeroDivisionError => lit "division by zero"
  | JSONDecodeError msg => msg
  | RequestException msg => msg
  | UnicodeEncodeError => lit "surrogates not allowed"
  | OtherException msg => msg
  end.

Module Msg.
(** The literals of the [print] calls, as code points. *)
Definition ok_mark : pystr := [10003; 32]%N.
Definition fail_mark : pystr := [10007; 32]%N.
Definition extract_error : pystr :=
  [12487; 12540; 12479; 25277; 20986; 12456; 12521; 12540; 58; 32]%N.
Definition banner_start : pystr :=
  [61; 61; 61; 32; 51; 54; 53; 26085; 20998; 35352; 24565; 26085; 12487;
   12540; 12479; 21462; 24471; 38283; 22987; 32; 61; 61; 61]%N.
Definition banner_delay : pystr :=
  [12522; 12463; 12456; 12473; 12488; 38291; 38548; 58; 32]%N.
Definition seconds : pystr := [31186]%N.
Definition banner_estimate : pystr :=
  [20104; 24819; 25152; 35201; 26178; 38291; 58; 32; 32004]%N.
Definition minutes : pystr := [20998]%N.
Definition banner_note : pystr :=
  [8251; 32; 22806; 37096; 65; 80; 73; 12408; 12398; 37197; 24942; 12392;
   12375; 12390; 36969; 20999; 12394; 38291; 38548; 12391; 12450; 12463;
   12475; 12473; 12375; 12414; 12377; 10]%N.
Definition progress_head : pystr :=
  [10; 45; 45; 45; 32; 36914; 25431; 58; 32]%N.
Definition of_365_open : pystr := [47; 51; 54; 53; 32; 40]%N.
Definition percent_close : pystr := [37; 41; 32; 45; 45; 45]%N.
Definition success_label : pystr := [25104; 21151; 58; 32]%N.
Definition comma_error_label : pystr := [44; 32; 12456; 12521; 12540; 58; 32]%N.
Definition done_head : pystr :=
  [10; 61; 61; 61; 32; 21462; 24471; 23436; 20102; 32; 61; 61; 61]%N.
Definition of_365 : pystr := [47; 51; 54; 53]%N.
Definition error_label : pystr := [12456; 12521; 12540; 58; 32]%N.
Definition details_head : pystr :=
  [10; 12456; 12521; 12540; 35443; 32048; 65288; 26368; 21021; 12398; 51;
   20214; 65289; 58]%N.
Definition bullet : pystr := [32; 32; 45; 32]%N.
Definition csv_saved : pystr :=
  [10003; 32; 67; 83; 86; 12501; 12449; 12452; 12523; 20445; 23384; 58; 32]%N.
Definition csv_failed : pystr :=
  [10007; 32; 67; 83; 86; 20445; 23384; 12456; 12521; 12540; 58; 32]%N.
Definition json_saved : pystr :=
  [10003; 32; 74; 83; 79; 78; 12501; 12449; 12452; 12523; 20445; 23384; 58;
   32]%N.
Definition json_failed : pystr :=
  [10007; 32; 74; 83; 79; 78; 20445; 23384; 12456; 12521; 12540; 58; 32]%N.
Definition main_title : pystr :=
  [61; 61; 61; 32; 51; 54; 53; 26085; 20998; 35352; 24565; 26085; 12487;
   12540; 12479; 21462; 24471; 12484; 12540; 12523; 32; 61; 61; 61]%N.
Definition main_note : pystr :=
  [8251; 32; 22806; 37096; 65; 80; 73; 12434; 21033; 29992; 12375; 12414;
   12377; 12290; 21033; 29992; 35215; 32004; 12434; 36981; 23432; 12375;
   12289; 36969; 20999; 12394; 38291; 38548; 12391; 12450; 12463; 12475;
   12473; 12375; 12414; 12377; 12290; 10]%N.
Definition main_done : pystr :=
  [10; 10003; 32; 20966; 29702; 23436; 20102; 12375; 12414; 12375; 12383;
   65281]%N.
Definition main_files : pystr :=
  [29983; 25104; 12373; 12428; 12383; 12501; 12449; 12452; 12523; 58]%N.
Definition main_csv : pystr :=
  lit "  - anniversaries.csv (CSV" ++ [24418; 24335; 41]%N.
Definition main_json : pystr :=
  lit "  - anniversaries.json (JSON" ++ [24418; 24335; 41]%N.
End Msg.

(** What depends on the platform: the text of
    [f"{((i + 1) / 365) * 100:.1f}"] for [i + 1], and the finite delays
    that [time.sleep] refuses because they exceed its clock's range. *)
Class Platform := {
  progress_1f : Z -> pystr;
  sleep_too_long : spec_float -> bool
}.

(** Binary64 arithmetic. *)
Definition float_of_int (n : Z) : spec_float :=
  binary_normalize 53 1024 n 0 false.


(** [int(x)] for a float: truncation toward zero. *)
Definition int_of_float (x : spec_float) : result Z :=
  match x with
  | S754_nan => Raise (ValueError (lit "cannot convert float NaN to integer"))
  | S754_infinity _ =>
      Raise (OverflowError (lit "cannot convert float infinity to integer"))
  | S754_zero _ => Ok 0
  | S754_finite s m e =>
      let magnitude :=
        if 0 <=? e then Z.pos m * 2 ^ e else Z.pos m / 2 ^ (- e) in
      Ok (if s then - magnitude else magnitude)
  end.

(** [int(365 * delay / 60)] *)
Definition estimated_minutes (delay : spec_float) : result Z :=
  int_of_float
    (SFdiv 53 1024 (SFmul 53 1024 (float_of_int 365) delay) (float_of_int 60)).

(** [time.sleep(secs)]: a NaN and a negative length are a [ValueError],
    a length outside the clock's range an [OverflowError]. *)
Definition time_sleep {PF : Platform} (secs : spec_float) : result unit :=
  match secs with
  | S754_nan => Raise (ValueError (lit "Invalid value NaN (not a number)"))
  | S754_infinity _ =>
      Raise (OverflowError (lit "timestamp too large to convert to C PyTime_t"))
  | S754_zero _ => Ok tt
  | S754_finite s _ _ =>
      if sleep_too_long secs then
        Raise (OverflowError (lit "timestamp too large to convert to C PyTime_t"))
      else if s then
        Raise (ValueError (lit "sleep length must be non-negative"))
      else Ok tt
  end.

(* ================================================================== *)
(** * [class AnniversaryFetcher]                                       *)
(* ================================================================== *)

(** The fields of the object. *)
Record AnniversaryFetcher := {
  base_url : pystr;
  delay : spec_float;
  data : dict pystr;
  errors : list pystr;
  success_count : Z
}.

(** [AnniversaryFetcher.__init__(delay)] *)
Definition new_fetcher (delay : spec_float) : AnniversaryFetcher := {|
  base_url := lit "https://api.whatistoday.cyou/index.cgi/v3/anniv";
  delay := delay;
  data := [];
  errors := [];
  success_count := 0
|}.

(** [AnniversaryFetcher()], and [AnniversaryFetcher(delay=1.0)]: the
    default of [delay] is [1.0]. *)
Definition init : AnniversaryFetcher := new_fetcher (float_of_int 1).

(** The object together with the requests sent so far. *)
Record world := {
  self : AnniversaryFetcher;
  requested : list pystr
}.

Definition start : world := {| self := init; requested := [] |}.

Definition set_data (key value : pystr) (f : AnniversaryFetcher) :=
  {| base_url := base_url f; delay := delay f;
     data := dict_set key value (data f);
     errors := errors f; success_count := success_count f |}.

Definition append_error (msg : pystr) (f : AnniversaryFetcher) :=
  {| base_url := base_url f; delay := delay f; data := data f;
     errors := errors f ++ [msg]; success_count := success_count f |}.

Definition incr_success (f : AnniversaryFetcher) :=
  {| base_url := base_url f; delay := delay f; data := data f;
     errors := errors f; success_count := success_count f + 1 |}.

(* ================================================================== *)
(** * Actions                                                          *)
(* ================================================================== *)

(** One execution from a given state: the state it leaves, how it ended
    and the events it caused. *)
Record run (A : Type) := mkrun {
  after : world;
  value : result A;
  caused : list event
}.
Arguments mkrun {A} after value caused.
Arguments after {A} r.
Arguments value {A} r.
Arguments caused {A} r.

Definition action (A : Type) : Type := world -> run A.

Definition ret {A} (a : A) : action A := fun w => mkrun w (Ok a) [].

Definition throw {A} (e : exn) : action A := fun w => mkrun w (Raise e) [].

(** Sequencing: an exception ends the sequence, what was done before it
    stays done. *)
Definition and_then {A B} (m : action A) (k : A -> action B) : action B :=
  fun w =>
    let r := m w in
    match value r with
    | Ok a =>
        let r' := k a (after r) in
        mkrun (after r') (value r') (caused r ++ caused r')
    | Raise e => mkrun (after r) (Raise e) (caused r)
    end.

Notation "x <~ m ;; k" := (and_then m (fun x => k))
  (at level 61, m at next level, right associativity).

(** A computation without effect. *)
Definition lift {A} (r : result A) : action A :=
  match r with Ok a => ret a | Raise e => throw e end.

(** Reading and updating [self]. *)
Definition get_self : action AnniversaryFetcher :=
  fun w => mkrun w (Ok (self w)) [].

Definition update (change : AnniversaryFetcher -> AnniversaryFetcher)
  : action unit :=
  fun w => mkrun {| self := change (self w); requested := requested w |}
                 (Ok tt) [].

(** [print(line)] *)
Definition py_print (line : pystr) : action unit :=
  fun w => if printable line then mkrun w (Ok tt) [Print line]
           else mkrun w (Raise UnicodeEncodeError) [].

(** [for line in lines: print(line)] *)
Fixpoint print_each (lines : list pystr) : action unit :=
  match lines with
  | [] => ret tt
  | line :: rest => _ <~ py_print line ;; print_each rest
  end.

(** [time.sleep(secs)] *)
Definition sleep {PF : Platform} (secs : spec_float) : action unit :=
  fun w => match time_sleep secs with
           | Ok _ => mkrun w (Ok tt) [Sleep]
           | Raise e => mkrun w (Raise e) []
           end.

(** [try: body / except requests.exceptions.RequestException as e:
    handler]: the handler starts in the state the body left. *)
Definition try_except_request {A} (body : action A)
  (handler : pystr -> action A) : action A :=
  fun w =>
    let r := body w in
    match value r with
    | Raise (RequestException e) =>
        let r' := handler e (after r) in
        mkrun (after r') (value r') (caused r ++ caused r')
    | _ => r
    end.

(** A call seen from its caller: the state and the value when it
    returns, the exception when it raises. *)
Definition returned {A} (r : run A) : result (world * A) :=
  match value r with
  | Ok a => Ok (after r, a)
  | Raise e => Raise e
  end.

Definition candidate_keys : list pystr :=
  [lit "events"; lit "data"; lit "anniv"; lit "anniversaries"; lit "items"].

Section Fetcher.
Context {RT : PyRuntime} {PF : Platform}.

(** The [for key in [...]] loop of [extract_anniversary_text]; [Some]
    is an early [return]. *)
Fixpoint scan_keys (keys : list pystr) (json_data : dict pyval)
  : option pystr :=
  match keys with
  | [] => None
  | key :: rest =>
      match dict_get key json_data with
      | Some (PList items) =>
          let names := map py_str (filter truthy items) in
          Some (join ideographic_comma names)
      | Some items => Some (py_str items)
      | None => scan_keys rest json_data
      end
  end.

(** The [try] block of [extract_anniversary_text]. *)
Definition extract_try (response : Response) : result pystr :=
  json_data <- json response ;;
  match json_data with
  | PList items =>
      let names := map py_str (filter truthy items) in
      Ok (join ideographic_comma names)
  | PDict entries =>
      match scan_keys candidate_keys entries with
      | Some r => Ok r
      | None => Ok (json_dumps json_data)
      end
  | _ => Ok (py_str json_data)
  end.

(** [extract_anniversary_text]: both handlers return the stripped text
    (the second also prints the exception). *)
Definition extract_anniversary_text (response : Response) : result pystr :=
  match extract_try response with
  | Ok r => Ok r
  | Raise (JSONDecodeError _) => Ok (strip (text response))
  | Raise _ => Ok (strip (text response))
  end.

(** [extract_anniversary_text] with what it prints: the second handler
    prints the exception, whose message is plain text. *)
Definition extract_anniversary_text_io (response : Response)
  : result pystr * list event :=
  match extract_try response with
  | Ok r => (Ok r, [])
  | Raise (JSONDecodeError _) => (Ok (strip (text response)), [])
  | Raise e =>
      (Ok (strip (text response)),
       [Print (Msg.extract_error ++ exn_message e)])
  end.

(** The call [self.extract_anniversary_text(response)]. *)
Definition extract (response : Response) : action pystr :=
  fun w => mkrun w (fst (extract_anniversary_text_io response))
                 (snd (extract_anniversary_text_io response)).

(** [requests.get(url, timeout=15)] *)
Definition requests_get (net : network) (target : pystr) : action Response :=
  fun w =>
    mkrun {| self := self w; requested := requested w ++ [target] |}
          match net (length (requested w)) target with
          | NetError msg => Raise (RequestException msg)
          | NetResponse response => Ok response
          end
          [Get target].

Definition date_key_of (month day : Z) : pystr :=
  fmt_02d month ++ lit "-" ++ fmt_02d day.

(** [display_text] of [fetch_single_date]. *)
Definition preview_of (anniversary_text : pystr) : pystr :=
  if 50 <? PyStr.len anniversary_text
  then firstn 50 anniversary_text ++ lit "..."
  else anniversary_text.

(** [fetch_single_date] *)
Definition fetch_single_date_io (net : network) (month day : Z)
  : action bool :=
  let mmdd := fmt_02d month ++ fmt_02d day in
  let date_key := date_key_of month day in
  f <~ get_self ;;
  let url := base_url f ++ lit "/" ++ mmdd in
  try_except_request
    (response <~ requests_get net url ;;
     _ <~ lift (raise_for_status response) ;;
     anniversary_text <~ extract response ;;
     _ <~ update (set_data date_key anniversary_text) ;;
     let display_text := preview_of anniversary_text in
     _ <~ py_print (Msg.ok_mark ++ date_key ++ lit ": " ++ display_text) ;;
     _ <~ update incr_success ;;
     ret true)
    (fun e =>
       let error_msg := date_key ++ lit ": " ++ e in
       _ <~ update (append_error error_msg) ;;
       _ <~ update (set_data date_key []) ;;
       _ <~ py_print (Msg.fail_mark ++ error_msg) ;;
       ret false).

(** [fetch_single_date] as its caller sees it. *)
Definition fetch_single_date (net : network) (month day : Z) (w : world)
  : result (world * bool) :=
  returned (fetch_single_date_io net month day w).

(** The two lines of the progress block. *)
Definition progress_line (done : Z) : pystr :=
  Msg.progress_head ++ str_of_int done ++ Msg.of_365_open
  ++ progress_1f done ++ Msg.percent_close.

Definition tally_line (f : AnniversaryFetcher) : pystr :=
  Msg.success_label ++ str_of_int (success_count f)
  ++ Msg.comma_error_label
  ++ str_of_int (Z.of_nat (List.length (errors f))) ++ [10%N].

(** The progress block, after [done] dates. *)
Definition progress_block (done : Z) : action unit :=
  _ <~ py_print (progress_line done) ;;
  f <~ get_self ;;
  py_print (tally_line f).

(** [time.sleep(self.delay)] *)
Definition pause : action unit :=
  f <~ get_self ;; sleep (delay f).

(** The body of the [for i in range(365)] loop of [fetch_all_365_days],
    over the loop variable [current_date]. *)
Definition loop_body (net : network) (i : Z) (current_date : date)
  : action date :=
  _ <~ fetch_single_date_io net (month current_date) (day current_date) ;;
  _ <~ (if (i + 1) mod 30 =? 0 then progress_block (i + 1) else ret tt) ;;
  current_date <~ lift (add_days current_date 1) ;;
  current_date <~
    lift (if (month current_date =? 2) && (day current_date =? 29)
          then add_days current_date 1 else Ok current_date) ;;
  _ <~ (if i <? 364 then pause else ret tt) ;;
  ret current_date.

(** [range(n)] *)
Definition range (n : nat) : list Z := map Z.of_nat (seq 0 n).

(** A [for i in ...] loop over one loop variable; an exception ends
    it. *)
Fixpoint for_in {A} (indices : list Z) (body : Z -> A -> action A) (x : A)
  : action A :=
  match indices with
  | [] => ret x
  | i :: rest => x' <~ body i x ;; for_in rest body x'
  end.

(** The lines printed before the loop. *)
Definition banner : action unit :=
  _ <~ py_print Msg.banner_start ;;
  f <~ get_self ;;
  _ <~ py_print (Msg.banner_delay ++ float_repr (delay f) ++ Msg.seconds) ;;
  minutes <~ lift (estimated_minutes (delay f)) ;;
  _ <~ py_print (Msg.banner_estimate ++ str_of_int minutes ++ Msg.minutes) ;;
  py_print Msg.banner_note.

(** The lines printed after the loop. *)
Definition summary : action unit :=
  _ <~ py_print Msg.done_head ;;
  f <~ get_self ;;
  _ <~ py_print (Msg.success_label ++ str_of_int (success_count f)
                 ++ Msg.of_365) ;;
  _ <~ py_print (Msg.error_label
                 ++ str_of_int (Z.of_nat (List.length (errors f)))) ;;
  match errors f with
  | [] => ret tt
  | _ =>
      _ <~ py_print Msg.details_head ;;
      print_each (map (fun error => Msg.bullet ++ error)
                      (slice_to (errors f) 3))
  end.

(** [fetch_all_365_days] *)
Definition fetch_all_365_days_io (net : network) : action unit :=
  _ <~ banner ;;
  start_date <~ lift (new_date 2024 1 1) ;;
  _ <~ for_in (range 365) (loop_body net) start_date ;;
  summary.

(** [fetch_all_365_days] as its caller sees it: the state it leaves
    when it returns. *)
Definition fetch_all_365_days (net : network) (w : world) : result world :=
  r <- returned (fetch_all_365_days_io net w) ;; Ok (fst r).

End Fetcher.


(* ================================================================== *)
(** * Exporters                                                        *)
(* ================================================================== *)

Module Csv.

(** [csv.writer(f)] with the default dialect: comma delimiter, double
    quote as quote character, doubled quotes, minimal quoting, line
    terminator CR LF. *)
Definition delimiter : N := 0x2c%N.
Definition quotechar : N := 0x22%N.
Definition CR : N := 0x0d%N.
Definition LF : N := 0x0a%N.
Definition lineterminator : pystr := [CR; LF].

Definition special (c : N) : bool :=
  (c =? delimiter)%N || (c =? quotechar)%N || existsb (N.eqb c) lineterminator.

Definition write_field (field : pystr) : pystr :=
  let body := flat_map (fun c => if (c =? quotechar)%N then [c; c] else [c])
                       field in
  if existsb special field then [quotechar] ++ body ++ [quotechar] else body.

(** [writer.writerow(fields)] *)
Definition writerow (fields : list pystr) : pystr :=
  let rec := join [delimiter] (map write_field fields) in
  let rec := match fields, rec with
             | _ :: _, [] => [quotechar; quotechar]
             | _, _ => rec
             end in
  rec ++ lineterminator.

(** Number of lines of a text: its line feeds. *)
Definition line_count (content : pystr) : nat :=
  List.length (filter (N.eqb LF) content).

End Csv.

(** [self.data[date_key]] for a key taken from [self.data] itself. *)
Definition getitem (d : dict pystr) (key : pystr) : pystr :=
  match dict_get key d with Some v => v | None => [] end.

(** The rows [save_to_csv] hands to [writer.writerow], in order. *)
Definition csv_rows (f : AnniversaryFetcher) : list (list pystr) :=
  [lit "date"; lit "name"]
  :: map (fun date_key => [date_key; getitem (data f) date_key])
         (sorted PyStr.ltb (dict_keys (data f))).

(** What [save_to_csv] writes to the file. *)
Definition csv_content (f : AnniversaryFetcher) : pystr :=
  concat (map Csv.writerow (csv_rows f)).

(** What a call leaves of its file: the whole content; no file, when
    [open] raised [IOError]; or a file cut short by the exception that a
    write raised. *)
Inductive file_outcome :=
| Written (content : pystr)
| NotWritten
| Interrupted (e : exn).

(** Writing a whole text to a file opened with [encoding='utf-8']. *)
Definition write_utf8 (content : pystr) : file_outcome :=
  if printable content then Written content
  else Interrupted UnicodeEncodeError.

(** [save_to_csv()], to the default file name; [io_ok] tells whether
    the file system lets the file be written. *)
Definition save_to_csv (io_ok : bool) (f : AnniversaryFetcher)
  : file_outcome :=
  if io_ok then write_utf8 (csv_content f) else NotWritten.

(** [sorted_data = dict(sorted(self.data.items()))] *)
Definition sorted_data (f : AnniversaryFetcher) : dict pystr :=
  dict_of_items (sorted tuple_ltb (dict_items (data f))).

(** [json.dump(d, f, ensure_ascii=False, indent=2)] on a flat
    [Dict[str, str]]. *)
Definition json_dump_indent2 {RT : PyRuntime} (d : dict pystr) : pystr :=
  match d with
  | [] => lit "{}"
  | _ =>
      lit "{" ++ [Csv.LF] ++ lit "  "
      ++ join (lit "," ++ [Csv.LF] ++ lit "  ")
           (map (fun kv => json_string (fst kv) ++ lit ": "
                           ++ json_string (snd kv)) d)
      ++ [Csv.LF] ++ lit "}"
  end.

(** [save_to_json()], with the same convention as [save_to_csv]. *)
Definition save_to_json {RT : PyRuntime} (io_ok : bool)
  (f : AnniversaryFetcher) : file_outcome :=
  if io_ok then write_utf8 (json_dump_indent2 (sorted_data f))
  else NotWritten.

(** The lines of a sequence of [print] calls that reach the output, and
    how the sequence ends. *)
Fixpoint print_lines (lines : list pystr) : list pystr * result unit :=
  match lines with
  | [] => ([], Ok tt)
  | line :: rest =>
      if printable line then
        (line :: fst (print_lines rest), snd (print_lines rest))
      else ([], Raise UnicodeEncodeError)
  end.

(** The outcome of opening and writing a file: [None] when the file
    system lets it be written, the message of the [IOError] otherwise. *)
Definition io_outcome : Type := option pystr.

Definition io_worked (io : io_outcome) : bool :=
  match io with None => true | Some _ => false end.

(** What an exporter leaves: the file, the lines it printed, and how
    the call ended. *)
Record export := {
  file : file_outcome;
  reported : list pystr;
  finished : result unit
}.

(** An exporter with the line it prints: the file is written, then the
    confirmation is printed; an [IOError] is caught and printed; any
    other exception leaves the method. *)
Definition export_to (saved failed filename : pystr) (content : pystr)
  (io : io_outcome) : export :=
  match io with
  | Some e =>
      {| file := NotWritten;
         reported := fst (print_lines [failed ++ e]);
         finished := snd (print_lines [failed ++ e]) |}
  | None =>
      if printable content then
        {| file := Written content;
           reported := fst (print_lines [saved ++ filename]);
           finished := snd (print_lines [saved ++ filename]) |}
      else
        {| file := Interrupted UnicodeEncodeError;
           reported := [];
           finished := Raise UnicodeEncodeError |}
  end.

(** [save_to_csv()] and [save_to_json()] with the line they print. *)
Definition save_to_csv_io (io : io_outcome) (f : AnniversaryFetcher)
  : export :=
  export_to Msg.csv_saved Msg.csv_failed (lit "anniversaries.csv")
            (csv_content f) io.

Definition save_to_json_io {RT : PyRuntime} (io : io_outcome)
  (f : AnniversaryFetcher) : export :=
  export_to Msg.json_saved Msg.json_failed (lit "anniversaries.json")
            (json_dump_indent2 (sorted_data f)) io.

(* ================================================================== *)
(** * Reporter                                                         *)
(* ================================================================== *)

(** [print_statistics]: the lines printed, and how the call ends. *)
Definition print_statistics {RT : PyRuntime} (f : AnniversaryFetcher)
  : list pystr * result unit :=
  let total := Z.of_nat (List.length (data f)) in
  let with_data :=
    Z.of_nat (List.length
      (filter (fun v => negb (PyStr.eqb (strip v) [])) (dict_values (data f)))) in
  let printed :=
    [ [10; 61; 61; 61; 32; 32113; 35336; 24773; 22577; 32; 61; 61; 61]%N;
      [32207; 26085; 25968; 58; 32]%N ++ str_of_int total ++ [26085%N];
      [12487; 12540; 12479; 21462; 24471; 25104; 21151; 58; 32]%N
        ++ str_of_int with_data ++ [26085%N];
      [12487; 12540; 12479; 12394; 12375; 58; 32]%N
        ++ str_of_int (total - with_data) ++ [26085%N] ] in
  if total =? 0 then (printed, Raise ZeroDivisionError)
  else
    (printed ++ [ [21462; 24471; 29575; 58; 32]%N
                  ++ percent_1f with_data total ++ lit "%" ],
     Ok tt).

(** The default of [show_sample]'s parameter [count]. *)
Definition show_sample_default_count : Z := 10.

(** What [show_sample] shows of one text. *)
Definition display_of (name : pystr) : pystr :=
  if 80 <? PyStr.len name then firstn 80 name ++ lit "..." else name.

(** The heading of [show_sample(count)]. *)
Definition sample_heading (count : Z) : pystr :=
  [10; 61; 61; 61; 32; 12469; 12531; 12503; 12523; 12487; 12540; 12479;
   65288; 26368; 21021; 12398]%N
  ++ str_of_int count ++ [20214; 65289; 61; 61; 61]%N.

(** The line [show_sample] prints for one entry. *)
Definition sample_line (item : pystr * pystr) : pystr :=
  let '(date_key, name) := item in date_key ++ lit ": " ++ display_of name.

(** [show_sample(count)]; [None] is a call without the argument.  The
    result is the lines printed, and how the call ends. *)
Definition show_sample (count : option Z) (f : AnniversaryFetcher)
  : list pystr * result unit :=
  let count := match count with
               | Some c => c
               | None => show_sample_default_count
               end in
  print_lines
    (sample_heading count
     :: map sample_line
            (slice_to (sorted tuple_ltb (dict_items (data f))) count)).

(* ================================================================== *)
(** * [main]                                                           *)
(* ================================================================== *)

(** A reporting method called on [self]. *)
Definition report (method : AnniversaryFetcher -> list pystr * result unit)
  : action unit :=
  fun w => mkrun w (snd (method (self w))) (map Print (fst (method (self w)))).

(** What a run of [main] leaves: how it ended, its events, and what
    became of the two files ([None]: the exporter was not called). *)
Record outcome := {
  ended : result unit;
  events : list event;
  csv_file : option file_outcome;
  json_file : option file_outcome
}.

(** [main], up to the exports: the fetcher is
    [AnniversaryFetcher(delay=1.0)]. *)
Definition main_fetch_and_report {RT : PyRuntime} {PF : Platform}
  (net : network) : action unit :=
  _ <~ py_print Msg.main_title ;;
  _ <~ py_print Msg.main_note ;;
  _ <~ fetch_all_365_days_io net ;;
  _ <~ report print_statistics ;;
  report (show_sample (Some 15)).

(** The four lines that end [main]. *)
Definition main_closing : list pystr :=
  [Msg.main_done; Msg.main_files; Msg.main_csv; Msg.main_json].

(** [main] *)
Definition main {RT : PyRuntime} {PF : Platform} (net : network)
  (csv_io json_io : io_outcome) : outcome :=
  let r := main_fetch_and_report net start in
  match value r with
  | Raise e => {| ended := Raise e; events := caused r;
                  csv_file := None; json_file := None |}
  | Ok _ =>
      let fetcher := self (after r) in
      let csv := save_to_csv_io csv_io fetcher in
      match finished csv with
      | Raise e =>
          {| ended := Raise e;
             events := caused r ++ map Print (reported csv);
             csv_file := Some (file csv); json_file := None |}
      | Ok _ =>
          let json := save_to_json_io json_io fetcher in
          match finished json with
          | Raise e =>
              {| ended := Raise e;
                 events := caused r ++ map Print (reported csv)
                           ++ map Print (reported json);
                 csv_file := Some (file csv);
                 json_file := Some (file json) |}
          | Ok _ =>
              {| ended := snd (print_lines main_closing);
                 events := caused r ++ map Print (reported csv)
                           ++ map Print (reported json)
                           ++ map Print (fst (print_lines main_closing));
                 csv_file := Some (file csv);
                 json_file := Some (file json) |}
          end
      end
  end.


(* ================================================================== *)
(** * Definitions used to state the properties                         *)
(* ================================================================== *)

(** ** The calendar of a non-leap year, written out independently of
    [datetime] *)

Definition nonleap_month_lengths : list (nat * nat) :=
  [(1, 31); (2, 28); (3, 31); (4, 30); (5, 31); (6, 30);
   (7, 31); (8, 31); (9, 30); (10, 31); (11, 30); (12, 31)]%nat.

(** Every (month, day) from January 1 to December 31, in calendar
    order. *)
Definition nonleap_calendar : list (Z * Z) :=
  flat_map (fun ml => map (fun d => (Z.of_nat (fst ml), Z.of_nat d))
                        (seq 1 (snd ml)))
           nonleap_month_lengths.

Definition is_digit (c : N) : bool := (48 <=? c)%N && (c <=? 57)%N.

(** The shape [MM-DD]: two digits, a hyphen, two digits. *)
Definition is_mm_dd (key : pystr) : bool :=
  match key with
  | [m1; m2; h; d1; d2] =>
      is_digit m1 && is_digit m2 && (h =? 45)%N && is_digit d1 && is_digit d2
  | _ => false
  end.

(** A number below 100 written with two decimal digits. *)
Definition two_digits (n : Z) : pystr :=
  [Z.to_N (48 + n / 10); Z.to_N (48 + n mod 10)].

(** The key MM-DD of a (month, day), and the four digits MMDD that end
    the address requested for it, written without the program's
    formatting. *)
Definition mm_dd (md : Z * Z) : pystr :=
  two_digits (fst md) ++ [45%N] ++ two_digits (snd md).

Definition mmdd (md : Z * Z) : pystr :=
  two_digits (fst md) ++ two_digits (snd md).

Definition calendar_keys : list pystr :=
  map (fun md => date_key_of (fst md) (snd md)) nonleap_calendar.

(** The dates the loop of [fetch_all_365_days] goes through: its own
    stepping of [current_date], without the fetches. *)
Definition next_date (current_date : date) : result date :=
  current_date <- add_days current_date 1 ;;
  (if (month current_date =? 2) && (day current_date =? 29)
   then add_days current_date 1 else Ok current_date).

Fixpoint dates_visited (n : nat) (current_date : date)
  : result (list (Z * Z) * date) :=
  match n with
  | O => Ok ([], current_date)
  | S n' =>
      d' <- next_date current_date ;;
      r <- dates_visited n' d' ;;
      Ok ((month current_date, day current_date) :: fst r, snd r)
  end.

(** ** The extractor *)

(** String forms of the truthy elements, joined with U+3001. *)
Definition stringify_and_join {RT : PyRuntime} (items : list pyval) : pystr :=
  join ideographic_comma
       (map py_str (filter (fun item => truthy item) items)).

(** ** The decision procedure of the specification, in its own terms *)

(** The candidate keys, in the order the specification gives them. *)
Definition spec_keys : list pystr :=
  [[101; 118; 101; 110; 116; 115];
   [100; 97; 116; 97];
   [97; 110; 110; 105; 118];
   [97; 110; 110; 105; 118; 101; 114; 115; 97; 114; 105; 101; 115];
   [105; 116; 101; 109; 115]]%N.

(** The separator of the specification: the ideographic comma, code
    point 12289. *)
Definition spec_separator : N := 12289%N.

(** An empty or falsy element: null, false, zero, the empty string, the
    empty array, the empty object. *)
Definition is_falsy (v : pyval) : bool :=
  match v with
  | PNone => true
  | PBool b => negb b
  | PInt z => z =? 0
  | PFloat x => match x with S754_zero _ => true | _ => false end
  | PStr s => match s with [] => true | _ => false end
  | PList items => match items with [] => true | _ => false end
  | PDict entries => match entries with [] => true | _ => false end
  end.

(** [sep] between every two consecutive elements. *)
Fixpoint intersperse {A} (sep : A) (l : list A) : list A :=
  match l with
  | [] => []
  | [x] => [x]
  | x :: rest => x :: sep :: intersperse sep rest
  end.

(** The join rule: the string forms of the elements that are not falsy,
    with the separator between every two of them. *)
Definition join_rule {RT : PyRuntime} (items : list pyval) : pystr :=
  concat (intersperse [spec_separator]
            (map py_str (filter (fun item => negb (is_falsy item)) items))).

(** The value of the first of the given keys that the object has. *)
Fixpoint first_present (keys : list pystr) (entries : dict pyval)
  : option pyval :=
  match keys with
  | [] => None
  | key :: rest =>
      if existsb (fun kv => PyStr.eqb (fst kv) key) entries
      then dict_get key entries
      else first_present rest entries
  end.

(** [result] is [body] without the white space at its two ends. *)
Definition trimmed (body result : pystr) : Prop :=
  exists lead trail,
    body = lead ++ result ++ trail
    /\ forallb isspace lead = true
    /\ forallb isspace trail = true
    /\ isspace (hd 0%N result) = false
    /\ isspace (last result 0%N) = false.

(** What the specification asks of the text extracted from a
    response. *)
Definition follows_decision_procedure {RT : PyRuntime} (response : Response)
  (result : pystr) : Prop :=
  match json response with
  | Ok (PList items) => result = join_rule items
  | Ok (PDict entries) =>
      match first_present spec_keys entries with
      | Some (PList items) => result = join_rule items
      | Some value => result = py_str value
      | None => result = json_dumps (PDict entries)
      end
  | Ok scalar => result = py_str scalar
  | Raise _ => trimmed (text response) result
  end.

(** ** Outcomes of a request *)

(** The request raises a [RequestException]: a failure of the network
    layer, or a status that [raise_for_status] rejects. *)
Definition request_fails (outcome : net_result) : bool :=
  match outcome with
  | NetError _ => true
  | NetResponse r => (400 <=? status_code r) && (status_code r <? 600)
  end.

(** The message of that exception, [str(e)]. *)
Definition failure_message (outcome : net_result) : pystr :=
  match outcome with
  | NetError msg => msg
  | NetResponse r =>
      match raise_for_status r with
      | Raise (RequestException msg) => msg
      | _ => []
      end
  end.

(** The text stored for a date, given the outcome of its request. *)
Definition stored_text {RT : PyRuntime} (outcome : net_result) : pystr :=
  match outcome with
  | NetError _ => []
  | NetResponse r =>
      if request_fails outcome then []
      else match extract_anniversary_text r with
           | Ok s => s
           | Raise _ => []
           end
  end.

(** The object when [fetch_single_date] reaches its [print], given the
    outcome of its request. *)
Definition recorded {RT : PyRuntime} (outcome : net_result)
  (date_key : pystr) (f : AnniversaryFetcher) : AnniversaryFetcher :=
  if request_fails outcome then
    set_data date_key []
      (append_error (date_key ++ lit ": " ++ failure_message outcome) f)
  else set_data date_key (stored_text outcome) f.

(** The object after [fetch_single_date] has returned, given the
    outcome of its request. *)
Definition after_fetch {RT : PyRuntime} (outcome : net_result)
  (date_key : pystr) (f : AnniversaryFetcher) : AnniversaryFetcher :=
  if request_fails outcome then
    set_data date_key []
      (append_error (date_key ++ lit ": " ++ failure_message outcome) f)
  else incr_success (set_data date_key (stored_text outcome) f).

(** The line [fetch_single_date] prints, given the outcome of its
    request. *)
Definition fetch_line {RT : PyRuntime} (outcome : net_result)
  (date_key : pystr) : pystr :=
  if request_fails outcome then
    Msg.fail_mark ++ date_key ++ lit ": " ++ failure_message outcome
  else Msg.ok_mark ++ date_key ++ lit ": " ++ preview_of (stored_text outcome).

(** What [extract_anniversary_text] prints during a fetch. *)
Definition diagnostic {RT : PyRuntime} (outcome : net_result) : list event :=
  match outcome with
  | NetError _ => []
  | NetResponse r =>
      if request_fails outcome then []
      else snd (extract_anniversary_text_io r)
  end.

Definition is_2xx (status : Z) : bool := (200 <=? status) && (status <? 300).

(** The target of the request for a date. *)
Definition url_of (f : AnniversaryFetcher) (md : Z * Z) : pystr :=
  base_url f ++ lit "/" ++ fmt_02d (fst md) ++ fmt_02d (snd md).

(** One call of [fetch_single_date] that returns, as a function on the
    world. *)
Definition fetch_step {RT : PyRuntime} (net : network) (w : world)
  (md : Z * Z) : world :=
  let target := url_of (self w) md in
  {| self := after_fetch (net (List.length (requested w)) target)
                         (date_key_of (fst md) (snd md)) (self w);
     requested := requested w ++ [target] |}.

(** The world that a call of [fetch_single_date] leaves when its
    [print] raises. *)
Definition fetch_cut {RT : PyRuntime} (net : network) (w : world)
  (md : Z * Z) : world :=
  let target := url_of (self w) md in
  {| self := recorded (net (List.length (requested w)) target)
                      (date_key_of (fst md) (snd md)) (self w);
     requested := requested w ++ [target] |}.

(** The entries written for the dates [ds] when their requests are the
    n-th, (n+1)-th, ... *)
Fixpoint entries_from {RT : PyRuntime} (net : network)
  (f : AnniversaryFetcher) (n : nat) (ds : list (Z * Z)) : dict pystr :=
  match ds with
  | [] => []
  | md :: rest =>
      (date_key_of (fst md) (snd md), stored_text (net n (url_of f md)))
      :: entries_from net f (S n) rest
  end.

(** The outcome of the i-th request of a run that starts with no
    request sent. *)
Definition outcome_at (net : network) (f : AnniversaryFetcher) (i : nat)
  : net_result :=
  net i (url_of f (nth i nonleap_calendar (0, 0))).

(** The invariant between the counters and the mapping. *)
Definition counters_match (f : AnniversaryFetcher) : Prop :=
  success_count f + Z.of_nat (List.length (errors f))
  = Z.of_nat (List.length (data f)).

(** A [dict] has each key once. *)
Definition dict_wf {V} (d : dict V) : Prop := NoDup (dict_keys d).

(** Two dicts with the same contents. *)
Definition same_contents {V} (d1 d2 : dict V) : Prop :=
  forall key, dict_get key d1 = dict_get key d2.

(** Strictly ascending keys. *)
Definition ascending (keys : list pystr) : Prop :=
  StronglySorted (fun a b => PyStr.ltb a b = true) keys.

(** Decidable checks for closed lists. *)
Fixpoint all_distinct (l : list pystr) : bool :=
  match l with
  | [] => true
  | x :: rest => negb (existsb (PyStr.eqb x) rest) && all_distinct rest
  end.

Fixpoint chain_ascending (l : list pystr) : bool :=
  match l with
  | x :: ((y :: _) as rest) => PyStr.ltb x y && chain_ascending rest
  | _ => true
  end.

(** ** Views of a list of events *)

Definition is_print (e : event) : bool :=
  match e with Print _ => true | _ => false end.

Definition is_sleep (e : event) : bool :=
  match e with Sleep => true | _ => false end.

(** The requests and the sleeps, without the printed lines. *)
Definition pacing (events : list event) : list event :=
  filter (fun e => negb (is_print e)) events.

(** The printed lines. *)
Definition printed_lines (events : list event) : list pystr :=
  flat_map (fun e => match e with Print line => [line] | _ => [] end) events.

(** [s.startswith(prefix)] *)
Fixpoint starts_with (prefix s : pystr) : bool :=
  match prefix, s with
  | [], _ => true
  | p :: prefix', c :: s' => (p =? c)%N && starts_with prefix' s'
  | _ :: _, [] => false
  end.

(** ** The events of a run that returns *)

(** The events of one call of [fetch_single_date] that returns, given
    the outcome of its request. *)
Definition fetch_events {RT : PyRuntime} (o : net_result)
  (date_key target : pystr) : list event :=
  Get target :: diagnostic o ++ [Print (fetch_line o date_key)].

(** The events of the progress block after [done] dates. *)
Definition progress_events {PF : Platform} (done : Z) (f : AnniversaryFetcher)
  : list event :=
  [Print (progress_line done); Print (tally_line f)].

(** The events of the loop's iteration [i], for the date [md], from the
    world [w]. *)
Definition iteration_events {RT : PyRuntime} {PF : Platform}
  (net : network) (i : Z) (w : world) (md : Z * Z) : list event :=
  fetch_events (net (List.length (requested w)) (url_of (self w) md))
               (date_key_of (fst md) (snd md)) (url_of (self w) md)
  ++ (if (i + 1) mod 30 =? 0
      then progress_events (i + 1) (self (fetch_step net w md)) else [])
  ++ (if i <? 364 then [Sleep] else []).

Fixpoint trace_of {RT : PyRuntime} {PF : Platform} (net : network)
  (indices : list Z) (ds : list (Z * Z)) (w : world) : list event :=
  match indices, ds with
  | i :: indices', md :: ds' =>
      iteration_events net i w md
      ++ trace_of net indices' ds' (fetch_step net w md)
  | _, _ => []
  end.

(** ** When a run returns *)

Definition sleep_accepted {PF : Platform} (secs : spec_float) : bool :=
  match time_sleep secs with Ok _ => true | Raise _ => false end.

(** The iteration [i] gets through: the line of its fetch and, when it
    prints them, the two lines of the progress block can be printed, and
    [time.sleep] accepts the delay when the iteration sleeps. *)
Definition iteration_passes {RT : PyRuntime} {PF : Platform}
  (net : network) (i : Z) (w : world) (md : Z * Z) : bool :=
  printable (fetch_line (net (List.length (requested w)) (url_of (self w) md))
                        (date_key_of (fst md) (snd md)))
  && (if (i + 1) mod 30 =? 0
      then printable (progress_line (i + 1))
           && printable (tally_line (self (fetch_step net w md)))
      else true)
  && (if i <? 364 then sleep_accepted (delay (self w)) else true).

Fixpoint loop_passes {RT : PyRuntime} {PF : Platform} (net : network)
  (indices : list Z) (ds : list (Z * Z)) (w : world) : bool :=
  match indices, ds with
  | i :: indices', md :: ds' =>
      iteration_passes net i w md
      && loop_passes net indices' ds' (fetch_step net w md)
  | _, _ => true
  end.

(** The lines printed before the loop, for an estimate of [minutes]. *)
Definition banner_lines {RT : PyRuntime} (f : AnniversaryFetcher)
  (minutes : Z) : list pystr :=
  [Msg.banner_start;
   Msg.banner_delay ++ float_repr (delay f) ++ Msg.seconds;
   Msg.banner_estimate ++ str_of_int minutes ++ Msg.minutes;
   Msg.banner_note].

(** The lines printed after the loop. *)
Definition summary_lines (f : AnniversaryFetcher) : list pystr :=
  [Msg.done_head;
   Msg.success_label ++ str_of_int (success_count f) ++ Msg.of_365;
   Msg.error_label ++ str_of_int (Z.of_nat (List.length (errors f)))]
  ++ match errors f with
     | [] => []
     | _ => Msg.details_head
            :: map (fun error => Msg.bullet ++ error) (slice_to (errors f) 3)
     end.

(** The whole run gets through: the estimate can be computed, every
    line of the banner, of the iterations and of the summary can be
    printed, and the delay is accepted. *)
Definition run_passes {RT : PyRuntime} {PF : Platform} (net : network)
  (w : world) : bool :=
  match estimated_minutes (delay (self w)) with
  | Ok minutes => forallb printable (banner_lines (self w) minutes)
  | Raise _ => false
  end
  && loop_passes net (range 365) nonleap_calendar w
  && forallb printable
       (summary_lines (self (fold_left (fetch_step net) nonleap_calendar w))).

(** The requests of a run that fail, by their index. *)
Definition failed_indices (net : network) (f : AnniversaryFetcher) (n : nat)
  : list nat :=
  filter (fun i => request_fails (outcome_at net f i)) (seq 0 n).

(** The description recorded for the i-th date when its request fails. *)
Definition failure_description (net : network) (f : AnniversaryFetcher)
  (i : nat) : pystr :=
  nth i calendar_keys [] ++ lit ": " ++ failure_message (outcome_at net f i).

(** Whether [print_statistics] counts a text as data. *)
Definition has_data (v : pystr) : bool := negb (PyStr.eqb (strip v) []).

(** Number of line feeds in the keys and texts of a store. *)
Definition line_feeds_in (d : dict pystr) : nat :=
  list_sum (map (fun kv => (Csv.line_count (fst kv)
                            + Csv.line_count (snd kv))%nat) d).

(** Every (month, day) with a month from 1 to 12 and a day from 1 to
    31. *)
Definition month_day_grid : list (Z * Z) :=
  flat_map (fun m => map (fun d => (Z.of_nat m, Z.of_nat d)) (seq 1 31))
           (seq 1 12).

(** The world after the first [k] dates of a run on a fresh object. *)
Definition world_at {RT : PyRuntime} (net : network) (k : nat) : world :=
  fold_left (fetch_step net) (firstn k nonleap_calendar) start.

(** Number of failed requests among the first [n] of a run. *)
Definition failures_in (net : network) (n : nat) : Z :=
  Z.of_nat (List.length (failed_indices net init n)).

(** The second line of the progress block after [done] dates. *)
Definition counts_line (net : network) (done : nat) : pystr :=
  Msg.success_label ++ str_of_int (Z.of_nat done - failures_in net done)
  ++ Msg.comma_error_label ++ str_of_int (failures_in net done) ++ [10%N].

(** The text of one entry in the JSON file. *)
Definition json_entry {RT : PyRuntime} (kv : pystr * pystr) : pystr :=
  json_string (fst kv) ++ lit ": " ++ json_string (snd kv).

(** ** Closed inputs for examples *)

(** A runtime for closed examples: [repr] of the float [1.0], and of a
    [str] as for plain printable text without quotes or backslashes. *)
Definition sample_runtime : PyRuntime := {|
  float_repr := fun x =>
    match x with
    | S754_finite false 4503599627370496 (-52) => lit "1.0"
    | _ => lit "nan"
    end;
  str_repr := fun s => lit "'" ++ s ++ lit "'";
  percent_1f := fun _ _ => lit "0.0"
|}.

(** A platform for closed examples: the percentage is rounded to the
    nearest tenth; [time.sleep] accepts lengths below 2^33 seconds. *)
Definition sample_platform : Platform := {|
  progress_1f := fun done =>
    let tenths := (done * 2000 + 365) / 730 in
    str_of_int (tenths / 10) ++ lit "." ++ str_of_int (tenths mod 10);
  sleep_too_long := fun secs =>
    match secs with
    | S754_finite _ m e =>
        2 ^ 33 <=? (if 0 <=? e then Z.pos m * 2 ^ e else Z.pos m / 2 ^ (- e))
    | _ => false
    end
|}.

Definition plain_response (status : Z) (why : String.string) (body : pystr)
  (parsed : result pyval) : Response :=
  {| status_code := status; reason := lit why; url := [];
     text := body; json := parsed |}.

(** Every request times out. *)
Definition net_down : network := fun _ _ => NetError (lit "timed out").

(** The first request is answered 200 with the two-line plain text
    [a LF b]; every other request times out. *)
Definition net_two_lines : network :=
  fun n _ =>
    if Nat.eqb n 0 then
      NetResponse (plain_response 200 "OK" [97; 10; 98]%N
                                  (Raise (JSONDecodeError [])))
    else NetError (lit "timed out").

(** Every request is answered 300 with a plain text body. *)
Definition net_multiple_choices : network :=
  fun _ _ =>
    NetResponse (plain_response 300 "Multiple Choices" (lit "pick one")
                                (Raise (JSONDecodeError []))).

(** Every request is answered 200 with a JSON array of the two strings
    A and B. *)
Definition net_ok : network :=
  fun _ _ =>
    NetResponse (plain_response 200 "OK"
                   [91; 34; 65; 34; 44; 32; 34; 66; 34; 93]%N
                   (Ok (PList [PStr (lit "A"); PStr (lit "B")]))).

(** Every request is answered 200 with an array of falsy elements. *)
Definition net_falsy : network :=
  fun _ _ =>
    NetResponse (plain_response 200 "OK" []
                   (Ok (PList [PNone; PStr []; PInt 0; PBool false]))).


(** The first request is answered 200 with the JSON string of ninety
    letters [a] followed by the surrogate U+D800; every other request
    times out. *)
Definition net_late_surrogate : network :=
  fun n _ =>
    if Nat.eqb n 0 then
      NetResponse (plain_response 200 "OK"
                     ([34%N] ++ repeat 97%N 90
                      ++ [92; 117; 100; 56; 48; 48; 34]%N)
                     (Ok (PStr (repeat 97%N 90 ++ [0xD800%N]))))
    else NetError (lit "timed out").

(** Two objects holding the same two entries, inserted in opposite
    orders. *)
Definition with_data (d : dict pystr) : AnniversaryFetcher :=
  {| base_url := base_url init; delay := delay init; data := d; errors := [];
     success_count := Z.of_nat (List.length d) |}.

Definition store_a : AnniversaryFetcher :=
  with_data (dict_set (lit "01-01") (lit "a") (dict_set (lit "02-01") (lit "b") [])).

Definition store_b : AnniversaryFetcher :=
  with_data (dict_set (lit "02-01") (lit "b") (dict_set (lit "01-01") (lit "a") [])).

(** An object that already holds an entry for January 1. *)
Definition store_jan1 : world :=
  {| self := {| base_url := base_url init; delay := delay init;
                data := [(lit "01-01", lit "old"); (lit "xx", lit "kept")];
                errors := []; success_count := 2 |};
     requested := [] |}.

(** A response answered 200 whose object has an empty [events] array
    beside a [data] array with one name. *)
Definition response_empty_events : Response :=
  plain_response 200 "OK" []
    (Ok (PDict [(lit "data", PList [PStr (lit "X")]);
                (lit "events", PList [])])).

(** The worlds that runs on a fresh object leave for three of these
    networks. *)
Definition world_down : world :=
  fold_left (fetch_step (RT := sample_runtime) net_down) nonleap_calendar start.

Definition world_ok : world :=
  fold_left (fetch_step (RT := sample_runtime) net_ok) nonleap_calendar start.

Definition world_two_lines : world :=
  fold_left (fetch_step (RT := sample_runtime) net_two_lines)
            nonleap_calendar start.

Definition world_late_surrogate : world :=
  fold_left (fetch_step (RT := sample_runtime) net_late_surrogate)
            nonleap_calendar start.

(* ================================================================== *)
(** * Strings and their order                                          *)
(* ================================================================== *)

Lemma eqb_eq (a b : pystr) : PyStr.eqb a b = true <-> a = b.
Proof.
  unfold PyStr.eqb. destruct (list_eq_dec N.eq_dec a b); split; congruence.
Qed.

Lemma eqb_neq (a b : pystr) : PyStr.eqb a b = false <-> a <> b.
Proof.
  unfold PyStr.eqb. destruct (list_eq_dec N.eq_dec a b); split; congruence.
Qed.

Lemma eqb_refl (a : pystr) : PyStr.eqb a a = true.
Proof. now apply eqb_eq. Qed.

Lemma compare_eq (a b : pystr) : PyStr.compare a b = Eq <-> a = b.
Proof.
  revert b. induction a as [|x a IH]; intros [|y b]; simpl;
    try (split; congruence).
  destruct (N.compare_spec x y) as [E | L | L].
  - subst. rewrite IH. split; congruence.
  - split; [discriminate | intros H; injection H as -> _; lia].
  - split; [discriminate | intros H; injection H as -> _; lia].
Qed.

Lemma compare_antisym (a b : pystr) :
  PyStr.compare b a = CompOpp (PyStr.compare a b).
Proof.
  revert b. induction a as [|x a IH]; intros [|y b]; simpl; trivial.
  rewrite (N.compare_antisym x y).
  destruct (N.compare x y); simpl; auto.
Qed.

Lemma compare_lt_trans (a b c : pystr) :
  PyStr.compare a b = Lt -> PyStr.compare b c = Lt -> PyStr.compare a c = Lt.
Proof.
  revert b c.
  induction a as [|x a IH]; intros [|y b] [|z c]; simpl; try congruence.
  destruct (N.compare_spec x y) as [E | L | L]; try discriminate.
  - subst y. destruct (N.compare x z); try congruence. apply IH.
  - intros _. destruct (N.compare_spec y z) as [E | L' | L']; try discriminate.
    + subst z. intros _. apply N.compare_lt_iff in L. now rewrite L.
    + intros _. assert (H : (x < z)%N) by lia.
      apply N.compare_lt_iff in H. now rewrite H.
Qed.

Lemma ltb_irrefl (a : pystr) : PyStr.ltb a a = false.
Proof.
  unfold PyStr.ltb. now rewrite (proj2 (compare_eq a a) eq_refl).
Qed.

Lemma ltb_trans (a b c : pystr) :
  PyStr.ltb a b = true -> PyStr.ltb b c = true -> PyStr.ltb a c = true.
Proof.
  unfold PyStr.ltb. intros H1 H2.
  destruct (PyStr.compare a b) eqn:E1; try discriminate.
  destruct (PyStr.compare b c) eqn:E2; try discriminate.
  now rewrite (compare_lt_trans _ _ _ E1 E2).
Qed.

Lemma ltb_total (a b : pystr) :
  PyStr.ltb a b = false -> PyStr.ltb b a = false -> a = b.
Proof.
  unfold PyStr.ltb. rewrite (compare_antisym a b).
  destruct (PyStr.compare a b) eqn:E; simpl; try discriminate.
  intros _ _. now apply compare_eq.
Qed.

(* ================================================================== *)
(** * [sorted]                                                         *)
(* ================================================================== *)

Section Sorting.
Variable A : Type.
Variable lt : A -> A -> bool.
Hypothesis lt_irrefl : forall a, lt a a = false.
Hypothesis lt_trans : forall a b c, lt a b = true -> lt b c = true -> lt a c = true.
Hypothesis lt_total : forall a b, lt a b = false -> lt b a = false -> a = b.

Let le (a b : A) : Prop := lt b a = false.
Let slt (a b : A) : Prop := lt a b = true.

Lemma insort_perm (x : A) (l : list A) : Permutation (x :: l) (insort lt x l).
Proof.
  induction l as [|y l IH]; simpl; auto.
  destruct (lt y x); auto.
  rewrite perm_swap. now constructor.
Qed.

Lemma sorted_perm (l : list A) : Permutation l (sorted lt l).
Proof.
  induction l as [|x l IH]; simpl; auto.
  rewrite <- insort_perm. now constructor.
Qed.

Lemma le_trans (a b c : A) : le a b -> le b c -> le a c.
Proof.
  unfold le. intros H1 H2.
  destruct (lt c a) eqn:E; trivial.
  destruct (lt b c) eqn:E2.
  - now rewrite (lt_trans _ _ _ E2 E) in H1.
  - rewrite (lt_total _ _ E2 H2) in H1. congruence.
Qed.

Lemma insort_sorted (x : A) (l : list A) :
  StronglySorted le l -> StronglySorted le (insort lt x l).
Proof.
  induction 1 as [|y l Hs IH Hall]; simpl.
  - repeat constructor.
  - destruct (lt y x) eqn:E.
    + constructor; trivial.
      apply (Permutation_Forall (insort_perm x l)).
      constructor; trivial.
      unfold le. destruct (lt x y) eqn:E'; trivial.
      pose proof (lt_trans _ _ _ E E') as C.
      rewrite lt_irrefl in C. discriminate.
    + constructor; [now constructor|].
      constructor; [exact E|].
      eapply Forall_impl; [|exact Hall].
      intros z Hz. now apply (le_trans x y z).
Qed.

Lemma sorted_sorted (l : list A) : StronglySorted le (sorted lt l).
Proof.
  induction l; simpl; [constructor | now apply insort_sorted].
Qed.

Lemma le_nodup_strict (l : list A) :
  NoDup l -> StronglySorted le l -> StronglySorted slt l.
Proof.
  induction 1 as [|x l Hx Hnd IH]; intros Hs; [constructor|].
  inversion Hs as [|? ? Hs' Hall]; subst.
  constructor; [now apply IH|].
  rewrite Forall_forall in Hall |- *.
  intros y Hy. unfold slt. destruct (lt x y) eqn:E; trivial.
  rewrite (lt_total _ _ E (Hall y Hy)) in Hx. contradiction.
Qed.

Lemma sorted_strict (l : list A) : NoDup l -> StronglySorted slt (sorted lt l).
Proof.
  intros H. apply le_nodup_strict; [|apply sorted_sorted].
  apply (Permutation_NoDup (sorted_perm l) H).
Qed.

(** A strictly ascending list is determined by its elements. *)
Lemma strict_unique (l1 l2 : list A) :
  StronglySorted slt l1 -> StronglySorted slt l2 ->
  (forall x, In x l1 <-> In x l2) -> l1 = l2.
Proof.
  intros H1. revert l2.
  induction H1 as [|x l1 Hs1 IH Hall1]; intros l2 H2 Hin.
  - destruct l2 as [|y l2]; trivial.
    destruct (proj2 (Hin y) (or_introl eq_refl)).
  - destruct H2 as [|y l2 Hs2 Hall2].
    + destruct (proj1 (Hin x) (or_introl eq_refl)).
    + rewrite Forall_forall in Hall1, Hall2.
      assert (x = y) as ->.
      { destruct (proj1 (Hin x) (or_introl eq_refl)) as [E | Hx]; [auto|].
        destruct (proj2 (Hin y) (or_introl eq_refl)) as [E | Hy]; [auto|].
        pose proof (Hall2 x Hx) as L1. pose proof (Hall1 y Hy) as L2.
        unfold slt in L1, L2.
        pose proof (lt_trans _ _ _ L1 L2) as C.
        rewrite lt_irrefl in C. discriminate. }
      f_equal. apply IH; trivial.
      intros z; split; intros Hz.
      * destruct (proj1 (Hin z) (or_intror Hz)) as [E | ?]; trivial.
        subst z. pose proof (Hall1 y Hz) as L. unfold slt in L.
        now rewrite lt_irrefl in L.
      * destruct (proj2 (Hin z) (or_intror Hz)) as [E | ?]; trivial.
        subst z. pose proof (Hall2 y Hz) as L. unfold slt in L.
        now rewrite lt_irrefl in L.
Qed.

Lemma sorted_unique (l1 l2 : list A) :
  NoDup l1 -> NoDup l2 -> (forall x, In x l1 <-> In x l2) ->
  sorted lt l1 = sorted lt l2.
Proof.
  intros N1 N2 Hin.
  apply strict_unique; try now apply sorted_strict.
  intros x.
  rewrite <- (Permutation_in' eq_refl (sorted_perm l1)).
  rewrite <- (Permutation_in' eq_refl (sorted_perm l2)).
  apply Hin.
Qed.

End Sorting.

(* ================================================================== *)
(** * [dict]                                                           *)
(* ================================================================== *)

Section Dict.
Context {V : Type}.
Implicit Types (d : dict V) (key : pystr).

Lemma dict_get_none key d : dict_get key d = None <-> ~ In key (dict_keys d).
Proof.
  induction d as [|[k v] d IH]; simpl; [tauto|].
  destruct (PyStr.eqb k key) eqn:E.
  - apply eqb_eq in E. split; [discriminate | tauto].
  - apply eqb_neq in E. rewrite IH. tauto.
Qed.

Lemma dict_get_some key d v : dict_get key d = Some v -> In (key, v) d.
Proof.
  induction d as [|[k x] d IH]; simpl; [discriminate|].
  destruct (PyStr.eqb k key) eqn:E.
  - apply eqb_eq in E. intros [= ->]. subst. now left.
  - auto.
Qed.

Lemma dict_get_in key d v : dict_wf d -> In (key, v) d -> dict_get key d = Some v.
Proof.
  unfold dict_wf.
  induction d as [|[k x] d IH]; simpl; [tauto|].
  intros Hnd [E | Hin].
  - injection E as -> ->. now rewrite eqb_refl.
  - inversion Hnd as [|? ? Hk Hnd']; subst.
    destruct (PyStr.eqb k key) eqn:E; [|auto].
    apply eqb_eq in E. subst k.
    destruct Hk. apply (in_map fst) in Hin. exact Hin.
Qed.

Lemma dict_set_new key v d :
  dict_get key d = None -> dict_set key v d = d ++ [(key, v)].
Proof.
  induction d as [|[k x] d IH]; simpl; trivial.
  destruct (PyStr.eqb k key); [discriminate|].
  intros H. now rewrite IH.
Qed.

Lemma dict_set_keys key v d :
  dict_keys (dict_set key v d)
  = if dict_contains key d then dict_keys d else dict_keys d ++ [key].
Proof.
  unfold dict_contains.
  induction d as [|[k x] d IH]; simpl; trivial.
  destruct (PyStr.eqb k key) eqn:E; simpl; trivial.
  rewrite IH. now destruct (dict_get key d).
Qed.

Lemma dict_set_wf key v d : dict_wf d -> dict_wf (dict_set key v d).
Proof.
  unfold dict_wf. rewrite dict_set_keys. unfold dict_contains.
  destruct (dict_get key d) eqn:E; trivial.
  intros H. apply dict_get_none in E.
  apply NoDup_rev in H. rewrite <- (rev_involutive (_ ++ _)).
  apply NoDup_rev. rewrite rev_app_distr. simpl.
  constructor; trivial. now rewrite <- in_rev.
Qed.

Lemma dict_get_set key v d : dict_get key (dict_set key v d) = Some v.
Proof.
  induction d as [|[k x] d IH]; simpl.
  - now rewrite eqb_refl.
  - destruct (PyStr.eqb k key) eqn:E; simpl; now rewrite E.
Qed.

Lemma dict_of_items_acc (l acc : list (pystr * V)) :
  NoDup (map fst (acc ++ l)) ->
  fold_left (fun d kv => dict_set (fst kv) (snd kv) d) l acc = acc ++ l.
Proof.
  revert acc. induction l as [|[k v] l IH]; intros acc H; simpl.
  - now rewrite app_nil_r.
  - rewrite dict_set_new.
    + rewrite IH; rewrite <- app_assoc; trivial.
    + apply dict_get_none. unfold dict_keys.
      rewrite map_app in H. apply NoDup_remove_2 in H.
      intros Hin. apply H. apply in_or_app. now left.
Qed.

Lemma dict_of_items_nodup (l : list (pystr * V)) :
  NoDup (map fst l) -> dict_of_items l = l.
Proof. intros H. unfold dict_of_items. now rewrite dict_of_items_acc. Qed.

(** Every dict built by insertions has each key once. *)
Lemma dict_of_items_wf (l : list (pystr * V)) : dict_wf (dict_of_items l).
Proof.
  unfold dict_of_items.
  assert (G : forall acc, dict_wf acc ->
                dict_wf (fold_left (fun d kv => dict_set (fst kv) (snd kv) d)
                                   l acc)).
  { induction l as [|kv l IH]; intros acc W; simpl; trivial.
    apply IH. now apply dict_set_wf. }
  apply G. constructor.
Qed.

Lemma same_contents_items d1 d2 :
  dict_wf d1 -> dict_wf d2 -> same_contents d1 d2 ->
  forall item, In item d1 <-> In item d2.
Proof.
  intros W1 W2 H [k v]; split; intros Hin.
  - apply dict_get_some. rewrite <- H. now apply dict_get_in.
  - apply dict_get_some. rewrite H. now apply dict_get_in.
Qed.

Lemma same_contents_keys d1 d2 :
  same_contents d1 d2 ->
  forall key, In key (dict_keys d1) <-> In key (dict_keys d2).
Proof.
  intros H key.
  pose proof (dict_get_none key d1) as H1.
  pose proof (dict_get_none key d2) as H2.
  rewrite (H key) in H1.
  destruct (in_dec (list_eq_dec N.eq_dec) key (dict_keys d1));
    destruct (in_dec (list_eq_dec N.eq_dec) key (dict_keys d2)); tauto.
Qed.

Lemma wf_items_nodup d : dict_wf d -> NoDup d.
Proof. apply NoDup_map_inv. Qed.

End Dict.

(* ================================================================== *)
(** * Order on items                                                   *)
(* ================================================================== *)

Lemma tuple_ltb_irrefl a : tuple_ltb a a = false.
Proof. unfold tuple_ltb. rewrite eqb_refl. apply ltb_irrefl. Qed.

Lemma tuple_ltb_trans a b c :
  tuple_ltb a b = true -> tuple_ltb b c = true -> tuple_ltb a c = true.
Proof.
  unfold tuple_ltb.
  destruct (PyStr.eqb (fst a) (fst b)) eqn:E1;
    destruct (PyStr.eqb (fst b) (fst c)) eqn:E2;
    try (apply eqb_eq in E1; rewrite E1);
    try (apply eqb_eq in E2; rewrite <- E2).
  - rewrite eqb_refl. apply ltb_trans.
  - rewrite E2. auto.
  - rewrite E1. auto.
  - intros L1 L2. pose proof (ltb_trans _ _ _ L1 L2) as L.
    destruct (PyStr.eqb (fst a) (fst c)) eqn:E3; trivial.
    apply eqb_eq in E3. rewrite E3 in L1.
    pose proof (ltb_trans _ _ _ L1 L2) as C.
    now rewrite ltb_irrefl in C.
Qed.

Lemma tuple_ltb_total a b :
  tuple_ltb a b = false -> tuple_ltb b a = false -> a = b.
Proof.
  unfold tuple_ltb. destruct a as [k1 v1], b as [k2 v2]; simpl.
  destruct (PyStr.eqb k1 k2) eqn:E.
  - apply eqb_eq in E. subst k2. rewrite eqb_refl.
    intros H1 H2. now rewrite (ltb_total _ _ H1 H2).
  - assert (E' : PyStr.eqb k2 k1 = false).
    { apply eqb_neq. apply eqb_neq in E. congruence. }
    rewrite E'. intros H1 H2. apply eqb_neq in E.
    destruct E. now apply ltb_total.
Qed.

Lemma items_sorted_keys_ascending (l : list (pystr * pystr)) :
  NoDup (map fst l) ->
  StronglySorted (fun a b => tuple_ltb a b = true) l ->
  ascending (map fst l).
Proof.
  unfold ascending.
  induction l as [|x l IH]; simpl; intros Hnd Hs; [constructor|].
  inversion Hnd as [|? ? Hx Hnd']; subst.
  inversion Hs as [|? ? Hs' Hall]; subst.
  constructor; [auto|].
  rewrite Forall_forall in Hall |- *.
  intros k Hk. apply in_map_iff in Hk as [y [<- Hy]].
  specialize (Hall y Hy). unfold tuple_ltb in Hall.
  destruct (PyStr.eqb (fst x) (fst y)) eqn:E; trivial.
  apply eqb_eq in E. destruct Hx. rewrite E. now apply in_map.
Qed.

Lemma sorted_items_nodup_keys (d : dict pystr) :
  dict_wf d -> NoDup (map fst (sorted tuple_ltb d)).
Proof.
  intros W. eapply Permutation_NoDup; [|exact W].
  apply Permutation_map. apply sorted_perm.
Qed.

(** Sorting the items of a dict is sorting its keys. *)
Lemma sorted_items_keys (d : dict pystr) :
  dict_wf d ->
  map fst (sorted tuple_ltb (dict_items d)) = sorted PyStr.ltb (dict_keys d).
Proof.
  intros W. unfold dict_items.
  apply (strict_unique _ PyStr.ltb ltb_irrefl ltb_trans).
  - apply items_sorted_keys_ascending; [now apply sorted_items_nodup_keys|].
    apply (sorted_strict _ tuple_ltb tuple_ltb_irrefl tuple_ltb_trans
             tuple_ltb_total).
    now apply wf_items_nodup.
  - now apply (sorted_strict _ PyStr.ltb ltb_irrefl ltb_trans ltb_total).
  - intros k. unfold dict_keys.
    rewrite <- (Permutation_in' eq_refl (sorted_perm _ PyStr.ltb (map fst d))).
    apply Permutation_in'; trivial.
    apply Permutation_map, Permutation_sym, sorted_perm.
Qed.

Lemma sorted_items_by_key (d : dict pystr) :
  dict_wf d ->
  sorted tuple_ltb (dict_items d)
  = map (fun key => (key, getitem d key)) (sorted PyStr.ltb (dict_keys d)).
Proof.
  intros W. rewrite <- (sorted_items_keys d W). rewrite map_map.
  unfold dict_items. rewrite <- (map_id (sorted tuple_ltb d)) at 1.
  apply map_ext_in. intros [k v] Hin. simpl. unfold getitem.
  rewrite (dict_get_in k d v W); trivial.
  apply (Permutation_in _ (Permutation_sym (sorted_perm _ tuple_ltb d)) Hin).
Qed.

Lemma sorted_data_items (f : AnniversaryFetcher) :
  dict_wf (data f) -> sorted_data f = sorted tuple_ltb (dict_items (data f)).
Proof.
  intros W. unfold sorted_data. apply dict_of_items_nodup.
  now apply sorted_items_nodup_keys.
Qed.

(* ================================================================== *)
(** * The extractor and one fetch                                      *)
(* ================================================================== *)


(* ================================================================== *)
(** * Sequencing                                                       *)
(* ================================================================== *)

Lemma and_then_step {A B} (m : action A) (k : A -> action B) (w w1 : world)
  (a : A) (evs : list event) :
  m w = mkrun w1 (Ok a) evs ->
  and_then m k w
  = mkrun (after (k a w1)) (value (k a w1)) (evs ++ caused (k a w1)).
Proof. unfold and_then. intros ->. reflexivity. Qed.

Lemma and_then_raise {A B} (m : action A) (k : A -> action B) (w w1 : world)
  (e : exn) (evs : list event) :
  m w = mkrun w1 (Raise e) evs ->
  and_then m k w = mkrun w1 (Raise e) evs.
Proof. unfold and_then. intros ->. reflexivity. Qed.

Lemma and_then_print {B} (line : pystr) (k : unit -> action B) (w : world) :
  and_then (py_print line) k w
  = if printable line
    then mkrun (after (k tt w)) (value (k tt w)) (Print line :: caused (k tt w))
    else mkrun w (Raise UnicodeEncodeError) [].
Proof. unfold and_then, py_print. destruct (printable line); reflexivity. Qed.

Ltac run_step :=
  erewrite and_then_step by reflexivity; cbn [after value caused app].

(* ================================================================== *)
(** * Actions that return                                              *)
(* ================================================================== *)

Lemma and_then_ok {A B} (m : action A) (k : A -> action B) (w : world) (b : B) :
  value (and_then m k w) = Ok b ->
  exists a,
    value (m w) = Ok a
    /\ value (k a (after (m w))) = Ok b
    /\ after (and_then m k w) = after (k a (after (m w)))
    /\ caused (and_then m k w) = caused (m w) ++ caused (k a (after (m w))).
Proof.
  unfold and_then. destruct (value (m w)) as [a | e]; cbn [value after caused].
  - intros H. exists a. repeat split. exact H.
  - discriminate.
Qed.

Lemma py_print_ok (line : pystr) (w : world) (u : unit) :
  value (py_print line w) = Ok u ->
  printable line = true
  /\ after (py_print line w) = w
  /\ caused (py_print line w) = [Print line].
Proof.
  unfold py_print. destruct (printable line); cbn; [|discriminate].
  repeat split.
Qed.

Lemma print_each_ok (lines : list pystr) :
  forall (w : world) (u : unit),
    value (print_each lines w) = Ok u ->
    forallb printable lines = true
    /\ after (print_each lines w) = w
    /\ caused (print_each lines w) = map Print lines.
Proof.
  induction lines as [|line lines IH]; intros w u; cbn [print_each].
  - repeat split.
  - intros H. apply and_then_ok in H as (a & H1 & H2 & -> & ->).
    apply IH in H2 as (Q & -> & ->).
    apply py_print_ok in H1 as (P & -> & ->).
    cbn [forallb map app]. rewrite P, Q. repeat split.
Qed.

Lemma lift_ok {A} (r : result A) (w : world) (a : A) :
  value (lift r w) = Ok a ->
  r = Ok a /\ after (lift r w) = w /\ caused (lift r w) = [].
Proof.
  destruct r as [x | e]; cbn; [|discriminate].
  intros [= ->]. repeat split.
Qed.

Lemma sleep_ok {PF : Platform} (secs : spec_float) (w : world) (u : unit) :
  value (sleep secs w) = Ok u ->
  time_sleep secs = Ok tt
  /\ after (sleep secs w) = w
  /\ caused (sleep secs w) = [Sleep].
Proof.
  unfold sleep. destruct (time_sleep secs) as [[] | e]; cbn; [|discriminate].
  repeat split.
Qed.

(** Inversion of a sequence that returns, and of its first action. *)
Ltac then_inv H a H1 :=
  let Ea := fresh "Ea" in
  let Ec := fresh "Ec" in
  apply and_then_ok in H as (a & H1 & H & Ea & Ec);
  rewrite ?Ea, ?Ec in *; clear Ea Ec.

Ltac first_inv lemma H1 P :=
  let Ea := fresh "Ea" in
  let Ec := fresh "Ec" in
  apply lemma in H1 as (P & Ea & Ec);
  rewrite ?Ea, ?Ec in *; clear Ea Ec.

Lemma get_self_ok (w : world) (f : AnniversaryFetcher) :
  value (get_self w) = Ok f ->
  f = self w /\ after (get_self w) = w /\ caused (get_self w) = [].
Proof. cbn. intros [= <-]. repeat split. Qed.


Section Run.
Context {RT : PyRuntime} {PF : Platform}.

Lemma extract_total (r : Response) :
  extract_anniversary_text r
  = Ok (match extract_try r with Ok s => s | Raise _ => strip (text r) end).
Proof.
  unfold extract_anniversary_text.
  destruct (extract_try r) as [s | []]; reflexivity.
Qed.

Lemma extract_io_fst (r : Response) :
  fst (extract_anniversary_text_io r) = extract_anniversary_text r.
Proof.
  unfold extract_anniversary_text_io, extract_anniversary_text.
  destruct (extract_try r) as [s | []]; reflexivity.
Qed.

Lemma extract_try_raise (r : Response) (e : exn) :
  extract_try r = Raise e <-> json r = Raise e.
Proof.
  unfold extract_try. destruct (json r) as [v | e']; cbn [bind].
  - split; [|discriminate].
    destruct v; try discriminate.
    now destruct (scan_keys candidate_keys entries).
  - split; intros [= ->]; reflexivity.
Qed.

Lemma raise_for_status_eq (r : Response) :
  raise_for_status r
  = if request_fails (NetResponse r)
    then Raise (RequestException (failure_message (NetResponse r)))
    else Ok tt.
Proof.
  unfold failure_message, request_fails, raise_for_status.
  destruct (400 <=? status_code r) eqn:E1;
    destruct (status_code r <? 500) eqn:E2;
    destruct (status_code r <? 600) eqn:E3;
    destruct (500 <=? status_code r) eqn:E4; simpl; try lia;
    try reflexivity;
    destruct (str_of_int (status_code r)); reflexivity.
Qed.


(** One call of [fetch_single_date], in closed form: it returns when
    its line can be printed, and raises from [print] otherwise. *)
Lemma fetch_single_date_io_eq (net : network) (m d : Z) (w : world) :
  fetch_single_date_io net m d w
  = if printable (fetch_line (net (List.length (requested w))
                                  (url_of (self w) (m, d)))
                             (date_key_of m d))
    then mkrun (fetch_step net w (m, d))
               (Ok (negb (request_fails
                            (net (List.length (requested w))
                                 (url_of (self w) (m, d))))))
               (fetch_events (net (List.length (requested w))
                                  (url_of (self w) (m, d)))
                             (date_key_of m d) (url_of (self w) (m, d)))
    else mkrun (fetch_cut net w (m, d)) (Raise UnicodeEncodeError)
               (Get (url_of (self w) (m, d))
                :: diagnostic (net (List.length (requested w))
                                   (url_of (self w) (m, d)))).
Proof.
  unfold fetch_single_date_io, fetch_step, fetch_cut, fetch_events, fetch_line,
    diagnostic, url_of, after_fetch, recorded.
  run_step. cbn [fst snd]. unfold try_except_request.
  destruct (net _ _) as [msg | r] eqn:E; cbn [request_fails].
  - rewrite (and_then_raise (requests_get net _) _ w _ (RequestException msg)
               [Get _]) by (unfold requests_get; now rewrite E).
    cbn [value after caused]. do 2 run_step. rewrite and_then_print.
    cbn [failure_message self requested].
    destruct (printable _); reflexivity.
  - rewrite (and_then_step (requests_get net _) _ w _ r [Get _])
      by (unfold requests_get; now rewrite E).
    rewrite raise_for_status_eq.
    destruct (request_fails (NetResponse r)) eqn:F;
      cbn [request_fails] in F; rewrite F.
    + rewrite (and_then_raise (lift _) _ _ _ _ []) by reflexivity.
      cbn [value after caused]. do 2 run_step. rewrite and_then_print.
      cbn [self requested].
      destruct (printable _); reflexivity.
    + run_step.
      rewrite (and_then_step (extract r) _ _ _
                 (match extract_try r with
                  | Ok s => s
                  | Raise _ => strip (text r)
                  end) (snd (extract_anniversary_text_io r)))
        by (unfold extract; now rewrite extract_io_fst, extract_total).
      run_step. rewrite and_then_print.
      unfold stored_text. cbn [request_fails]. rewrite F, extract_total.
      cbn [self requested].
      destruct (printable _); cbn [after value caused].
      * run_step. cbn [ret after value caused]. reflexivity.
      * now rewrite app_nil_r.
Qed.

Lemma fetch_single_date_returns (net : network) (m d : Z) (w w' : world)
  (ok : bool) :
  fetch_single_date net m d w = Ok (w', ok) ->
  printable (fetch_line (net (List.length (requested w))
                             (url_of (self w) (m, d)))
                        (date_key_of m d)) = true
  /\ w' = fetch_step net w (m, d)
  /\ ok = negb (request_fails
                  (net (List.length (requested w)) (url_of (self w) (m, d)))).
Proof.
  unfold fetch_single_date, returned. rewrite fetch_single_date_io_eq.
  destruct (printable _); cbn [value after]; [|discriminate].
  intros [= <- <-]. repeat split.
Qed.

Lemma fetch_single_date_printable (net : network) (m d : Z) (w : world) :
  printable (fetch_line (net (List.length (requested w))
                             (url_of (self w) (m, d)))
                        (date_key_of m d)) = true ->
  fetch_single_date net m d w
  = Ok (fetch_step net w (m, d),
        negb (request_fails
                (net (List.length (requested w)) (url_of (self w) (m, d))))).
Proof.
  intros P. unfold fetch_single_date, returned.
  rewrite fetch_single_date_io_eq, P. reflexivity.
Qed.

Lemma after_fetch_data o key f :
  data (after_fetch o key f) = dict_set key (stored_text o) (data f).
Proof.
  unfold after_fetch, stored_text.
  destruct (request_fails o) eqn:F; simpl; trivial.
  destruct o; simpl in *; congruence.
Qed.

Lemma recorded_data o key f :
  data (recorded o key f) = dict_set key (stored_text o) (data f).
Proof.
  unfold recorded, stored_text.
  destruct (request_fails o) eqn:F; simpl; trivial.
  destruct o; simpl in *; congruence.
Qed.

Lemma after_fetch_base_url o key f :
  base_url (after_fetch o key f) = base_url f.
Proof. unfold after_fetch. now destruct (request_fails o). Qed.

Lemma after_fetch_delay o key f : delay (after_fetch o key f) = delay f.
Proof. unfold after_fetch. now destruct (request_fails o). Qed.

Lemma after_fetch_counters o key f :
  (success_count (after_fetch o key f) = success_count f + 1
   /\ errors (after_fetch o key f) = errors f
   /\ request_fails o = false)
  \/ (success_count (after_fetch o key f) = success_count f
      /\ errors (after_fetch o key f)
         = errors f ++ [key ++ lit ": " ++ failure_message o]
      /\ request_fails o = true).
Proof.
  unfold after_fetch. destruct (request_fails o); simpl; auto.
Qed.

(* ================================================================== *)
(** * The loop                                                         *)
(* ================================================================== *)

Lemma progress_block_ok (done : Z) (w : world) (u : unit) :
  value (progress_block done w) = Ok u ->
  printable (progress_line done) = true
  /\ printable (tally_line (self w)) = true
  /\ after (progress_block done w) = w
  /\ caused (progress_block done w)
     = [Print (progress_line done); Print (tally_line (self w))].
Proof.
  unfold progress_block. intros H.
  then_inv H u1 H1. first_inv py_print_ok H1 P1.
  then_inv H f H2. first_inv get_self_ok H2 P2. subst f.
  first_inv py_print_ok H P3.
  repeat split; assumption.
Qed.

Lemma pause_ok (w : world) (u : unit) :
  value (pause w) = Ok u ->
  time_sleep (delay (self w)) = Ok tt
  /\ after (pause w) = w
  /\ caused (pause w) = [Sleep].
Proof.
  unfold pause. intros H.
  then_inv H f H1. first_inv get_self_ok H1 P1. subst f.
  first_inv sleep_ok H P2.
  repeat split. exact P2.
Qed.

(** An iteration that returns has fetched its date, stepped to the
    next date, and caused the events of [iteration_events]. *)
Lemma loop_body_ok (net : network) (i : Z) (d d' : date) (w : world) :
  value (loop_body net i d w) = Ok d' ->
  next_date d = Ok d'
  /\ after (loop_body net i d w) = fetch_step net w (month d, day d)
  /\ caused (loop_body net i d w) = iteration_events net i w (month d, day d)
  /\ iteration_passes net i w (month d, day d) = true.
Proof.
  unfold loop_body, iteration_events, iteration_passes. intros H.
  then_inv H ok H1.
  rewrite fetch_single_date_io_eq in *. cbn [fst snd].
  destruct (printable (fetch_line _ _)); cbn [value after caused andb] in *;
    [|discriminate].
  clear H1.
  set (w1 := fetch_step net w (month d, day d)) in *.
  then_inv H u1 H1.
  assert (B : after ((if (i + 1) mod 30 =? 0 then progress_block (i + 1)
                      else ret tt) w1) = w1
              /\ caused ((if (i + 1) mod 30 =? 0 then progress_block (i + 1)
                          else ret tt) w1)
                 = (if (i + 1) mod 30 =? 0
                    then progress_events (i + 1) (self w1) else [])
              /\ (if (i + 1) mod 30 =? 0
                  then printable (progress_line (i + 1))
                       && printable (tally_line (self w1))
                  else true) = true).
  { destruct ((i + 1) mod 30 =? 0); [|repeat split; reflexivity].
    apply progress_block_ok in H1 as (P1 & P2 & Ea & Ec).
    rewrite P1, P2. now repeat split. }
  destruct B as (Ea & Ec & ->). rewrite Ea, Ec in *. clear Ea Ec H1.
  then_inv H d1 H1. first_inv (@lift_ok date) H1 D1.
  then_inv H d2 H1. first_inv (@lift_ok date) H1 D2.
  then_inv H u2 H1.
  assert (B : after ((if i <? 364 then pause else ret tt) w1) = w1
              /\ caused ((if i <? 364 then pause else ret tt) w1)
                 = (if i <? 364 then [Sleep] else [])
              /\ (if i <? 364 then sleep_accepted (delay (self w)) else true)
                 = true).
  { destruct (i <? 364); [|repeat split; discriminate].
    apply pause_ok in H1 as (T & Ea & Ec). repeat split; trivial.
    unfold w1, fetch_step in T. cbn [self] in T.
    rewrite after_fetch_delay in T. unfold sleep_accepted. now rewrite T. }
  destruct B as (Ea & Ec & ->). rewrite Ea, Ec in *. clear Ea Ec H1.
  cbn [ret value after caused] in *. injection H as <-.
  split; [|split; [|split]].
  - unfold next_date. rewrite D1. cbn [bind]. exact D2.
  - reflexivity.
  - now rewrite !app_nil_r.
  - reflexivity.
Qed.

Lemma for_in_ok (net : network) (indices : list Z) :
  forall (d d' : date) (w : world),
    value (for_in indices (loop_body net) d w) = Ok d' ->
    exists ds,
      dates_visited (List.length indices) d = Ok (ds, d')
      /\ after (for_in indices (loop_body net) d w)
         = fold_left (fetch_step net) ds w
      /\ caused (for_in indices (loop_body net) d w)
         = trace_of net indices ds w
      /\ loop_passes net indices ds w = true.
Proof.
  induction indices as [|i indices IH]; intros d d' w H;
    cbn [for_in dates_visited List.length] in *.
  - cbn in H. injection H as <-. exists []. repeat split.
  - then_inv H d1 H1.
    apply IH in H as (ds & V & Ea & Ec & L). rewrite Ea, Ec. clear Ea Ec.
    apply loop_body_ok in H1 as (N1 & Ea & Ec & T).
    rewrite Ea, Ec in *. clear Ea Ec.
    exists ((month d, day d) :: ds). rewrite N1. cbn [bind]. rewrite V.
    cbn [loop_passes]. rewrite T, L. repeat split.
Qed.

Lemma dates_visited_365 :
  dates_visited 365 (mkdate 2024 1 1) = Ok (nonleap_calendar, mkdate 2025 1 1).
Proof. vm_compute. reflexivity. Qed.

Lemma range_length (n : nat) : List.length (range n) = n.
Proof. unfold range. now rewrite length_map, length_seq. Qed.

Lemma banner_ok (w : world) (u : unit) :
  value (banner w) = Ok u ->
  exists minutes,
    estimated_minutes (delay (self w)) = Ok minutes
    /\ after (banner w) = w
    /\ caused (banner w) = map Print (banner_lines (self w) minutes)
    /\ forallb printable (banner_lines (self w) minutes) = true.
Proof.
  unfold banner. intros H.
  then_inv H u1 H1. first_inv py_print_ok H1 P1.
  then_inv H f H1. first_inv get_self_ok H1 P2. subst f.
  then_inv H u2 H1. first_inv py_print_ok H1 P3.
  then_inv H minutes H1. first_inv (@lift_ok Z) H1 E.
  then_inv H u3 H1. first_inv py_print_ok H1 P4.
  first_inv py_print_ok H P5.
  exists minutes. split; [exact E|]. split; [reflexivity|].
  split; [reflexivity|].
  unfold banner_lines. cbn [forallb]. now rewrite P1, P3, P4, P5.
Qed.

Lemma summary_ok (w : world) (u : unit) :
  value (summary w) = Ok u ->
  after (summary w) = w
  /\ caused (summary w) = map Print (summary_lines (self w))
  /\ forallb printable (summary_lines (self w)) = true.
Proof.
  unfold summary, summary_lines. intros H.
  then_inv H u1 H1. first_inv py_print_ok H1 P1.
  then_inv H f H1. first_inv get_self_ok H1 P2. subst f.
  then_inv H u2 H1. first_inv py_print_ok H1 P3.
  then_inv H u3 H1. first_inv py_print_ok H1 P4.
  cbn [app forallb]. rewrite P1, P3, P4. cbn [andb].
  destruct (errors (self w)) as [|e es].
  - repeat split.
  - then_inv H u4 H1. first_inv py_print_ok H1 P5.
    apply print_each_ok in H as (Q & Ea & Ec). rewrite Ea, Ec.
    split; [reflexivity|].
    cbn [app map forallb]. rewrite map_map, P5, Q. now split.
Qed.

(** A run of [fetch_all_365_days] that returns leaves the world of 365
    returning fetches, one per date of the calendar, and has caused the
    events of the banner, of the 365 iterations and of the summary. *)
Lemma fetch_all_io_ok (net : network) (w : world) (u : unit) :
  value (fetch_all_365_days_io net w) = Ok u ->
  exists minutes,
    estimated_minutes (delay (self w)) = Ok minutes
    /\ after (fetch_all_365_days_io net w)
       = fold_left (fetch_step net) nonleap_calendar w
    /\ caused (fetch_all_365_days_io net w)
       = map Print (banner_lines (self w) minutes)
         ++ trace_of net (range 365) nonleap_calendar w
         ++ map Print
              (summary_lines
                 (self (fold_left (fetch_step net) nonleap_calendar w)))
    /\ run_passes net w = true.
Proof.
  unfold fetch_all_365_days_io, run_passes. intros H.
  then_inv H u1 H1.
  apply banner_ok in H1 as (minutes & E & Ea & Ec & B).
  rewrite Ea, Ec in *. clear Ea Ec.
  then_inv H d0 H1. first_inv (@lift_ok date) H1 D0.
  change (new_date 2024 1 1) with (Ok (mkdate 2024 1 1)) in D0.
  injection D0 as <-.
  then_inv H d1 H1.
  apply for_in_ok in H1 as (ds & V & Ea & Ec & L).
  rewrite Ea, Ec in *. clear Ea Ec.
  rewrite range_length, dates_visited_365 in V. injection V as <- <-.
  apply summary_ok in H as (Ea & Ec & S). rewrite Ea, Ec.
  exists minutes. rewrite E, B, L, S. repeat split.
Qed.

Lemma fetch_all_value (net : network) (w w' : world) :
  fetch_all_365_days net w = Ok w' ->
  value (fetch_all_365_days_io net w) = Ok tt
  /\ after (fetch_all_365_days_io net w) = w'.
Proof.
  unfold fetch_all_365_days, returned.
  destruct (value (fetch_all_365_days_io net w)) as [[] |] eqn:H;
    cbn [bind fst]; [|discriminate].
  intros [= <-]. now split.
Qed.

Lemma fetch_all_returns (net : network) (w w' : world) :
  fetch_all_365_days net w = Ok w' ->
  w' = fold_left (fetch_step net) nonleap_calendar w.
Proof.
  intros H. apply fetch_all_value in H as [H <-].
  now apply fetch_all_io_ok in H as (_ & _ & -> & _).
Qed.

Lemma fetch_all_passes (net : network) (w w' : world) :
  fetch_all_365_days net w = Ok w' -> run_passes net w = true.
Proof.
  intros H. apply fetch_all_value in H as [H _].
  now apply fetch_all_io_ok in H as (_ & _ & _ & _ & P).
Qed.

Lemma run_passes_sleep (net : network) (w : world) :
  run_passes net w = true -> time_sleep (delay (self w)) = Ok tt.
Proof.
  unfold run_passes. intros H.
  apply andb_true_iff in H as [H _]. apply andb_true_iff in H as [_ H].
  change (range 365) with (0 :: map Z.of_nat (seq 1 364)) in H.
  change nonleap_calendar with ((1, 1) :: tl nonleap_calendar) in H.
  cbn [loop_passes] in H. apply andb_true_iff in H as [H _].
  unfold iteration_passes in H. apply andb_true_iff in H as [_ H].
  change (0 <? 364) with true in H. cbv iota in H.
  unfold sleep_accepted in H.
  now destruct (time_sleep (delay (self w))) as [[] |].
Qed.

Lemma fetch_all_sleeps (net : network) (w w' : world) :
  fetch_all_365_days net w = Ok w' -> time_sleep (delay (self w)) = Ok tt.
Proof. intros H. eapply run_passes_sleep, fetch_all_passes, H. Qed.

(* ================================================================== *)
(** * Actions that are known to return                                 *)
(* ================================================================== *)












(** ** What a sequence of fetches leaves in the world *)

Lemma fold_base_url net ds :
  forall w, base_url (self (fold_left (fetch_step net) ds w)) = base_url (self w).
Proof.
  induction ds as [|md ds IH]; intros w; simpl; trivial.
  rewrite IH. unfold fetch_step. simpl. apply after_fetch_base_url.
Qed.

Lemma fold_requested net ds :
  forall w, requested (fold_left (fetch_step net) ds w)
            = requested w ++ map (url_of (self w)) ds.
Proof.
  induction ds as [|md ds IH]; intros w; simpl.
  - now rewrite app_nil_r.
  - rewrite IH. unfold fetch_step at 1 2. simpl.
    rewrite <- app_assoc. simpl. do 2 f_equal.
    apply map_ext. intros x. unfold url_of.
    now rewrite after_fetch_base_url.
Qed.

Lemma entries_from_keys net f n ds :
  dict_keys (entries_from net f n ds)
  = map (fun md => date_key_of (fst md) (snd md)) ds.
Proof.
  revert n. induction ds as [|md ds IH]; intros n; simpl; trivial.
  now rewrite IH.
Qed.

Lemma entries_from_ext net f g n ds :
  base_url f = base_url g -> entries_from net f n ds = entries_from net g n ds.
Proof.
  intros E. revert n. induction ds as [|md ds IH]; intros n; simpl; trivial.
  rewrite IH. unfold url_of. now rewrite E.
Qed.

Lemma fold_data net ds :
  forall w,
    NoDup (dict_keys (data (self w))
           ++ map (fun md => date_key_of (fst md) (snd md)) ds) ->
    data (self (fold_left (fetch_step net) ds w))
    = data (self w)
      ++ entries_from net (self w) (List.length (requested w)) ds.
Proof.
  induction ds as [|md ds IH]; intros w H; simpl.
  - now rewrite app_nil_r.
  - assert (Hnew : dict_get (date_key_of (fst md) (snd md)) (data (self w))
                   = None).
    { apply dict_get_none. apply NoDup_remove_2 in H.
      intros Hin. apply H. apply in_or_app. now left. }
    rewrite IH.
    + unfold fetch_step at 1 2 3. simpl.
      rewrite after_fetch_data, (dict_set_new _ _ _ Hnew).
      rewrite <- app_assoc. simpl. do 2 f_equal.
      rewrite length_app. simpl. rewrite Nat.add_1_r.
      apply entries_from_ext. apply after_fetch_base_url.
    + unfold fetch_step. simpl.
      rewrite after_fetch_data, (dict_set_new _ _ _ Hnew).
      unfold dict_keys in *. rewrite map_app. simpl.
      rewrite <- app_assoc. exact H.
Qed.

Lemma fold_counters net ds :
  forall w,
    success_count (self (fold_left (fetch_step net) ds w))
    + Z.of_nat (List.length (errors (self (fold_left (fetch_step net) ds w))))
    = success_count (self w) + Z.of_nat (List.length (errors (self w)))
      + Z.of_nat (List.length ds).
Proof.
  induction ds as [|md ds IH]; intros w; simpl List.length; simpl fold_left.
  - lia.
  - rewrite IH. unfold fetch_step. simpl self.
    destruct (after_fetch_counters
                (net (List.length (requested w)) (url_of (self w) md))
                (date_key_of (fst md) (snd md)) (self w))
      as [(-> & -> & _) | (-> & -> & _)].
    + lia.
    + rewrite length_app. simpl. lia.
Qed.


End Run.

(* ================================================================== *)
(** * The calendar                                                     *)
(* ================================================================== *)

Lemma all_distinct_sound (l : list pystr) : all_distinct l = true -> NoDup l.
Proof.
  induction l as [|x l IH]; simpl; [constructor|].
  intros H. apply andb_true_iff in H as [H1 H2].
  constructor; [|auto].
  intros Hin. apply negb_true_iff in H1.
  assert (C : existsb (PyStr.eqb x) l = true).
  { apply existsb_exists. exists x. split; [exact Hin | apply eqb_refl]. }
  congruence.
Qed.

Lemma chain_ascending_sound (l : list pystr) :
  chain_ascending l = true -> ascending l.
Proof.
  intros H. apply Sorted_StronglySorted.
  - intros a b c. apply ltb_trans.
  - induction l as [|x l IH]; [constructor|].
    destruct l as [|y l]; [repeat constructor|].
    simpl in H. apply andb_true_iff in H as [H1 H2].
    constructor; [now apply IH | now constructor].
Qed.

Lemma ascending_nodup (l : list pystr) : ascending l -> NoDup l.
Proof.
  induction 1 as [|x l Hs IH Hall]; constructor; trivial.
  intros Hin. rewrite Forall_forall in Hall.
  specialize (Hall x Hin). now rewrite ltb_irrefl in Hall.
Qed.

Lemma calendar_keys_length : List.length calendar_keys = 365%nat.
Proof. reflexivity. Qed.

Lemma calendar_keys_ascending : ascending calendar_keys.
Proof. apply chain_ascending_sound. vm_compute. reflexivity. Qed.

Lemma calendar_keys_nodup : NoDup calendar_keys.
Proof. apply ascending_nodup, calendar_keys_ascending. Qed.

(** The dates of the calendar are the valid dates of a year that is not
    a leap year. *)
Lemma nonleap_calendar_covers (m d : Z) :
  In (m, d) nonleap_calendar
  <-> 1 <= m <= 12 /\ 1 <= d <= _days_in_month 2023 m.
Proof.
  unfold nonleap_calendar. rewrite in_flat_map. split.
  - intros [[mm len] [Hml Hin]]. apply in_map_iff in Hin as [k [E Hk]].
    apply in_seq in Hk. simpl in E. injection E as <- <-.
    simpl in Hml.
    repeat (destruct Hml as [Hml | Hml];
            [injection Hml as <- <-; vm_compute _days_in_month; simpl in Hk; lia|]).
    destruct Hml.
  - intros [Hm Hd].
    assert (Hcases : m = 1 \/ m = 2 \/ m = 3 \/ m = 4 \/ m = 5 \/ m = 6 \/
                     m = 7 \/ m = 8 \/ m = 9 \/ m = 10 \/ m = 11 \/ m = 12)
      by lia.
    exists (Z.to_nat m, Z.to_nat (_days_in_month 2023 m)).
    split.
    + repeat (destruct Hcases as [-> | Hcases]; [vm_compute; tauto|]).
      subst m. vm_compute. tauto.
    + apply in_map_iff. exists (Z.to_nat d). simpl. split.
      * f_equal; lia.
      * apply in_seq. lia.
Qed.

(* ================================================================== *)
(** * The date sequence                                                *)
(* ================================================================== *)

Lemma nonleap_calendar_length : List.length nonleap_calendar = 365%nat.
Proof. reflexivity. Qed.

Lemma calendar_keys_mm_dd : calendar_keys = map mm_dd nonleap_calendar.
Proof. vm_compute. reflexivity. Qed.

Lemma calendar_urls (base : pystr) :
  map (fun md => base ++ lit "/" ++ fmt_02d (fst md) ++ fmt_02d (snd md))
      nonleap_calendar
  = map (fun md => base ++ lit "/" ++ mmdd md) nonleap_calendar.
Proof.
  apply map_ext_in. intros md Hin. do 2 f_equal.
  assert (C : forallb (fun md => PyStr.eqb (fmt_02d (fst md) ++ fmt_02d (snd md))
                                           (mmdd md)) nonleap_calendar = true)
    by (vm_compute; reflexivity).
  rewrite forallb_forall in C. now apply eqb_eq, C.
Qed.

Lemma not_in_check (key : pystr) (l : list pystr) :
  existsb (PyStr.eqb key) l = false -> ~ In key l.
Proof.
  intros H Hin.
  assert (C : existsb (PyStr.eqb key) l = true).
  { apply existsb_exists. exists key. split; [exact Hin | apply eqb_refl]. }
  congruence.
Qed.

(** What a run that returns leaves, from a world whose mapping is
    empty. *)
Lemma run_from_empty {RT : PyRuntime} {PF : Platform} (net : network)
  (w0 w : world) :
  fetch_all_365_days net w0 = Ok w ->
  data (self w0) = [] ->
  data (self w) = entries_from net (self w0) (List.length (requested w0))
                               nonleap_calendar
  /\ dict_keys (data (self w)) = calendar_keys
  /\ requested w = requested w0 ++ map (url_of (self w0)) nonleap_calendar.
Proof.
  intros H E. apply fetch_all_returns in H. subst w.
  assert (D : data (self (fold_left (fetch_step net) nonleap_calendar w0))
              = entries_from net (self w0) (List.length (requested w0))
                             nonleap_calendar).
  { rewrite fold_data; rewrite E; [reflexivity|]. exact calendar_keys_nodup. }
  split; [exact D|]. split.
  - rewrite D. apply entries_from_keys.
  - apply fold_requested.
Qed.

(** The store after a run from a fresh object. *)
Lemma run_data {RT : PyRuntime} {PF : Platform} (net : network) (w : world) :
  fetch_all_365_days net start = Ok w ->
  data (self w) = entries_from net init 0 nonleap_calendar
  /\ dict_keys (data (self w)) = calendar_keys
  /\ requested w = map (url_of init) nonleap_calendar
  /\ success_count (self w) + Z.of_nat (List.length (errors (self w))) = 365.
Proof.
  intros H. destruct (run_from_empty net start w H eq_refl) as (D & K & R).
  split; [exact D|]. split; [exact K|]. split; [exact R|].
  apply fetch_all_returns in H. subst w.
  rewrite fold_counters. reflexivity.
Qed.

(** C1: when the loop of [fetch_all_365_days] runs to completion on an
    object whose mapping is empty, the keys it has stored, in the order
    of their insertion, and the addresses it has requested, in order,
    are those of the 365 days of a non-leap year from January 1 to
    December 31: each key is the month and the day written with two
    digits each, zero-padded, around a hyphen, each address ends with
    the same four digits; the keys are distinct, in ascending order,
    from 01-01 to 12-31, none is 02-29, and the days are the valid dates
    of a year that is not a leap year, consecutive in chronological
    order. *)
Theorem date_sequence_is_nonleap_calendar {RT : PyRuntime} {PF : Platform}
  (net : network) (w0 w : world) :
  fetch_all_365_days net w0 = Ok w ->
  data (self w0) = [] ->
  dict_keys (data (self w)) = map mm_dd nonleap_calendar
  /\ requested w
     = requested w0
       ++ map (fun md => base_url (self w0) ++ lit "/" ++ mmdd md)
              nonleap_calendar
  /\ List.length (dict_keys (data (self w))) = 365%nat
  /\ NoDup (dict_keys (data (self w)))
  /\ Forall (fun key => is_mm_dd key = true) (dict_keys (data (self w)))
  /\ ~ In (lit "02-29") (dict_keys (data (self w)))
  /\ ascending (dict_keys (data (self w)))
  /\ hd [] (dict_keys (data (self w))) = lit "01-01"
  /\ last (dict_keys (data (self w))) [] = lit "12-31"
  /\ (forall m d, In (m, d) nonleap_calendar
                  <-> 1 <= m <= 12 /\ 1 <= d <= _days_in_month 2023 m)
  /\ map (fun md => _ymd2ord 2023 (fst md) (snd md)) nonleap_calendar
     = map (fun i => _ymd2ord 2023 1 1 + Z.of_nat i) (seq 0 365).
Proof.
  intros H E. destruct (run_from_empty net w0 w H E) as (_ & K & R).
  rewrite K.
  split; [exact calendar_keys_mm_dd|].
  split; [rewrite R; unfold url_of; now rewrite calendar_urls|].
  split; [exact calendar_keys_length|].
  split; [exact calendar_keys_nodup|].
  split; [apply Forall_forall, forallb_forall; vm_compute; reflexivity|].
  split; [apply not_in_check; vm_compute; reflexivity|].
  split; [exact calendar_keys_ascending|].
  split; [vm_compute; reflexivity|].
  split; [vm_compute; reflexivity|].
  split; [exact nonleap_calendar_covers|].
  vm_compute. reflexivity.
Qed.

Lemma date_sequence_is_nonleap_calendar_witness :
  fetch_all_365_days (RT := sample_runtime) (PF := sample_platform)
    net_down start = Ok world_down
  /\ dict_keys (data (self world_down)) = map mm_dd nonleap_calendar
  /\ List.length (requested world_down) = 365%nat.
Proof.
  assert (H : fetch_all_365_days (RT := sample_runtime) (PF := sample_platform)
                net_down start = Ok world_down) by (vm_compute; reflexivity).
  split; [exact H|].
  destruct (date_sequence_is_nonleap_calendar (RT := sample_runtime)
              (PF := sample_platform) net_down start world_down H eq_refl)
    as (K & R & _).
  split; [exact K|]. rewrite R. reflexivity.
Defined.

(* ================================================================== *)
(** * The result mapping after the loop                                *)
(* ================================================================== *)

(** C2: after the loop has completed on a fresh object, the mapping has
    exactly the 365 keys of the calendar, each once, in whatever way the
    requests ended; and every call of [fetch_single_date], whether its
    request succeeds or fails and whether the call returns or raises
    from its [print], writes one entry, under its date key. *)
Theorem store_has_one_entry_per_date {RT : PyRuntime} {PF : Platform}
  (net : network) (w : world) :
  fetch_all_365_days net start = Ok w ->
  dict_keys (data (self w)) = map mm_dd nonleap_calendar
  /\ List.length (data (self w)) = 365%nat
  /\ dict_wf (data (self w))
  /\ (forall key, In key (map mm_dd nonleap_calendar)
                  <-> dict_contains key (data (self w)) = true)
  /\ (forall m d w0,
         data (self (after (fetch_single_date_io net m d w0)))
         = dict_set (date_key_of m d)
                    (stored_text (net (List.length (requested w0))
                                      (url_of (self w0) (m, d))))
                    (data (self w0)))
  /\ (forall m d, 1 <= m <= 12 -> 1 <= d <= 31 -> date_key_of m d = mm_dd (m, d)).
Proof.
  intros H. destruct (run_data net w H) as (_ & K & _).
  rewrite <- calendar_keys_mm_dd.
  split; [exact K|]. split; [|split; [|split; [|split]]].
  - rewrite <- (length_map fst). fold (dict_keys (data (self w))).
    rewrite K. exact calendar_keys_length.
  - unfold dict_wf. rewrite K. exact calendar_keys_nodup.
  - intros key. rewrite <- K. unfold dict_contains.
    pose proof (dict_get_none key (data (self w))) as N.
    destruct (dict_get key (data (self w))).
    + split; trivial. intros _.
      destruct (in_dec (list_eq_dec N.eq_dec) key
                       (dict_keys (data (self w)))); trivial.
      now apply N in n.
    + split; [|discriminate]. intros Hin. now apply N in Hin.
  - intros m d w0. rewrite fetch_single_date_io_eq.
    destruct (printable _); cbn [after]; unfold fetch_step, fetch_cut;
      cbn [self fst snd]; [apply after_fetch_data | apply recorded_data].
  - intros m d Hm Hd.
    assert (Hm' : m = 1 \/ m = 2 \/ m = 3 \/ m = 4 \/ m = 5 \/ m = 6 \/ m = 7
                  \/ m = 8 \/ m = 9 \/ m = 10 \/ m = 11 \/ m = 12) by lia.
    assert (C : forall m, forallb (fun k => PyStr.eqb (date_key_of m (Z.of_nat k))
                                              (mm_dd (m, Z.of_nat k)))
                                  (seq 1 31) = true ->
                          date_key_of m d = mm_dd (m, d)).
    { intros m0 F. rewrite forallb_forall in F.
      specialize (F (Z.to_nat d)). rewrite Z2Nat.id in F by lia.
      apply eqb_eq, F, in_seq. lia. }
    repeat (destruct Hm' as [-> | Hm']; [apply C; vm_compute; reflexivity|]).
    subst m. apply C. vm_compute. reflexivity.
Qed.

Lemma store_has_one_entry_per_date_witness :
  fetch_all_365_days (RT := sample_runtime) (PF := sample_platform)
    net_ok start = Ok world_ok
  /\ List.length (data (self world_ok)) = 365%nat.
Proof.
  assert (H : fetch_all_365_days (RT := sample_runtime) (PF := sample_platform)
                net_ok start = Ok world_ok) by (vm_compute; reflexivity).
  split; [exact H|].
  exact (proj1 (proj2 (store_has_one_entry_per_date (RT := sample_runtime)
                         (PF := sample_platform) net_ok world_ok H))).
Defined.

(* ================================================================== *)
(** * The extractor                                                    *)
(* ================================================================== *)

Lemma lstrip_split (s : pystr) :
  exists lead, s = lead ++ lstrip s /\ forallb isspace lead = true.
Proof.
  induction s as [|c s [lead [E W]]]; simpl.
  - now exists [].
  - destruct (isspace c) eqn:S.
    + exists (c :: lead). simpl. rewrite S, W. split; [now f_equal | reflexivity].
    + now exists [].
Qed.

Lemma lstrip_head (s : pystr) : isspace (hd 0%N (lstrip s)) = false.
Proof.
  induction s as [|c s IH]; simpl; trivial.
  destruct (isspace c) eqn:S; [exact IH | exact S].
Qed.

Lemma lstrip_snoc (s : pystr) (c : N) :
  isspace c = false -> lstrip (s ++ [c]) = lstrip s ++ [c].
Proof.
  intros S. induction s as [|x s IH]; simpl.
  - now rewrite S.
  - destruct (isspace x); [exact IH | reflexivity].
Qed.

Lemma rstrip_split (s : pystr) :
  exists trail, s = rstrip s ++ trail /\ forallb isspace trail = true.
Proof.
  unfold rstrip. destruct (lstrip_split (rev s)) as [lead [E W]].
  exists (rev lead). split.
  - rewrite <- rev_app_distr, <- E. now rewrite rev_involutive.
  - rewrite forallb_forall in *. intros x Hx. apply W. now apply in_rev.
Qed.

Lemma rstrip_last (s : pystr) : isspace (last (rstrip s) 0%N) = false.
Proof.
  unfold rstrip. pose proof (lstrip_head (rev s)) as H.
  destruct (lstrip (rev s)) as [|c l]; trivial.
  simpl in *. now rewrite last_last.
Qed.

Lemma rstrip_head (s : pystr) :
  isspace (hd 0%N s) = false -> isspace (hd 0%N (rstrip s)) = false.
Proof.
  destruct s as [|c s]; trivial. simpl. intros S.
  unfold rstrip. simpl. rewrite (lstrip_snoc _ _ S), rev_app_distr.
  exact S.
Qed.

Lemma strip_trimmed (body : pystr) : trimmed body (strip body).
Proof.
  unfold trimmed, strip.
  destruct (lstrip_split body) as [lead [E1 W1]].
  destruct (rstrip_split (lstrip body)) as [trail [E2 W2]].
  exists lead, trail.
  split; [now rewrite <- E2|].
  split; [exact W1|]. split; [exact W2|].
  split; [apply rstrip_head, lstrip_head | apply rstrip_last].
Qed.

Lemma join_intersperse (sep : pystr) (parts : list pystr) :
  join sep parts = concat (intersperse sep parts).
Proof.
  induction parts as [|x parts IH]; trivial.
  destruct parts as [|y parts].
  - simpl. now rewrite app_nil_r.
  - change (join sep (x :: y :: parts)) with (x ++ sep ++ join sep (y :: parts)).
    rewrite IH. reflexivity.
Qed.

Lemma truthy_not_falsy (v : pyval) : truthy v = negb (is_falsy v).
Proof.
  destruct v as [| b | z | x | s | items | entries]; cbn.
  - reflexivity.
  - now destruct b.
  - reflexivity.
  - now destruct x.
  - now destruct s.
  - now destruct items.
  - now destruct entries.
Qed.

Lemma stringify_and_join_rule {RT : PyRuntime} (items : list pyval) :
  join ideographic_comma (map py_str (filter truthy items)) = join_rule items.
Proof.
  unfold join_rule. rewrite join_intersperse. do 3 f_equal.
  apply filter_ext. apply truthy_not_falsy.
Qed.

Lemma dict_get_exists {V} (key : pystr) (entries : dict V) :
  existsb (fun kv => PyStr.eqb (fst kv) key) entries
  = match dict_get key entries with Some _ => true | None => false end.
Proof.
  induction entries as [|[k v] entries IH]; trivial.
  cbn [existsb dict_get fst]. destruct (PyStr.eqb k key); trivial.
Qed.

Lemma scan_keys_first_present {RT : PyRuntime} (keys : list pystr)
  (entries : dict pyval) :
  scan_keys keys entries
  = match first_present keys entries with
    | Some (PList items) => Some (join_rule items)
    | Some value => Some (py_str value)
    | None => None
    end.
Proof.
  induction keys as [|key keys IH]; trivial.
  cbn [scan_keys first_present]. rewrite dict_get_exists.
  destruct (dict_get key entries) as [v|]; [|exact IH].
  destruct v; trivial. now rewrite stringify_and_join_rule.
Qed.

Lemma json_escape_non_ascii {RT : PyRuntime} (c : N) :
  json_escape (0x80 + c) = [(0x80 + c)%N].
Proof.
  unfold json_escape.
  repeat match goal with
         | |- context [(?a =? ?b)%N] =>
             destruct (N.eqb_spec a b); [lia|]
         end.
  destruct (N.ltb_spec (128 + c) 32); [lia | reflexivity].
Qed.

(** C3: [extract_anniversary_text] returns the text that the decision
    procedure of the specification asks for: for an array, the string
    forms of the elements that are not falsy with U+3001 between them;
    for an object, the same rule or the string form applied to the value
    of the first of events, data, anniv, anniversaries, items that the
    object has, and its JSON text when it has none of them; for a scalar
    its string form; for a body that does not parse, the body without
    the white space at its ends.  The JSON text keeps code points above
    ASCII as they are.  Five closed responses show the separator, the
    skipping, the order of the keys, the JSON text and the trimming. *)
Theorem extract_follows_decision_procedure {RT : PyRuntime}
  (response : Response) :
  (exists result,
      extract_anniversary_text response = Ok result
      /\ follows_decision_procedure response result)
  /\ (forall c, json_escape (0x80 + c) = [(0x80 + c)%N])
  /\ extract_anniversary_text
       (plain_response 200 "OK" []
          (Ok (PList [PStr (lit "A"); PStr []; PNone; PStr (lit "B");
                      PList []; PBool false; PStr (lit "C")])))
     = Ok [65; 12289; 66; 12289; 67]%N
  /\ extract_anniversary_text
       (plain_response 200 "OK" []
          (Ok (PDict [(lit "items", PStr (lit "i"));
                      (lit "anniversaries", PStr (lit "s"));
                      (lit "anniv", PStr (lit "a"));
                      (lit "data", PStr (lit "d"));
                      (lit "events", PList [PStr (lit "e"); PStr (lit "f")])])))
     = Ok [101; 12289; 102]%N
  /\ extract_anniversary_text
       (plain_response 200 "OK" []
          (Ok (PDict [(lit "items", PStr (lit "i"));
                      (lit "anniversaries", PStr (lit "s"));
                      (lit "anniv", PStr (lit "a"))])))
     = Ok (lit "a")
  /\ extract_anniversary_text
       (plain_response 200 "OK" []
          (Ok (PDict [([21517; 21069]%N, PStr [31069; 26085]%N)])))
     = Ok [123; 34; 21517; 21069; 34; 58; 32; 34; 31069; 26085; 34; 125]%N
  /\ extract_anniversary_text
       (plain_response 200 "OK" [32; 10; 31069; 32; 26085; 9; 10]%N
          (Raise (JSONDecodeError [])))
     = Ok [31069; 32; 26085]%N.
Proof.
  split; [|split; [apply json_escape_non_ascii | repeat split]].
  rewrite extract_total. eexists. split; [reflexivity|].
  unfold follows_decision_procedure, extract_try.
  destruct (json response) as [v | e]; cbn [bind]; [|apply strip_trimmed].
  destruct v as [| b | z | f | s | items | entries]; trivial.
  - apply stringify_and_join_rule.
  - change candidate_keys with spec_keys.
    rewrite scan_keys_first_present.
    destruct (first_present spec_keys entries) as [value|]; trivial.
    now destruct value.
Qed.


(* ================================================================== *)
(** * Failed fetches                                                   *)
(* ================================================================== *)

(** A response whose status is neither 2xx nor rejected by
    [raise_for_status] is handled as a success: nothing is recorded as
    failed and the extracted text is stored. *)
Lemma non_2xx_status_counted_as_success :
  exists r w',
    net_multiple_choices 0%nat (url_of init (1, 1)) = NetResponse r
    /\ is_2xx (status_code r) = false
    /\ fetch_single_date (RT := sample_runtime) net_multiple_choices 1 1 start
       = Ok (w', true)
    /\ errors (self w') = []
    /\ success_count (self w') = 1
    /\ data (self w') = [(lit "01-01", lit "pick one")].
Proof. do 2 eexists. repeat split. Qed.

(** C5, amended: a call of [fetch_single_date] that returns has sent one
    request and returns False exactly when that request raised in the
    network layer or was answered with a status from 400 to 599.  In
    that case it has stored the empty string under the date key,
    appended the date key, a colon and the message of the exception to
    the error list and left the success counter as it is.  With any
    other status it returns True, has stored the extracted text, added
    one to the success counter and recorded no error.  A run of the loop
    that returns has sent 365 requests, one per date, failed or not. *)
Theorem failed_fetch_is_recorded {RT : PyRuntime} {PF : Platform}
  (net : network) (m d : Z) (w w' : world) (ok : bool) :
  fetch_single_date net m d w = Ok (w', ok) ->
  ok = negb (request_fails
               (net (List.length (requested w)) (url_of (self w) (m, d))))
  /\ requested w' = requested w ++ [url_of (self w) (m, d)]
  /\ (request_fails
        (net (List.length (requested w)) (url_of (self w) (m, d))) = true ->
      data (self w') = dict_set (date_key_of m d) [] (data (self w))
      /\ errors (self w')
         = errors (self w)
           ++ [date_key_of m d ++ lit ": "
               ++ failure_message
                    (net (List.length (requested w)) (url_of (self w) (m, d)))]
      /\ success_count (self w') = success_count (self w))
  /\ (forall r,
         net (List.length (requested w)) (url_of (self w) (m, d))
         = NetResponse r ->
         (400 <=? status_code r) && (status_code r <? 600) = false ->
         ok = true
         /\ extract_anniversary_text r
            = Ok (stored_text (NetResponse r))
         /\ data (self w')
            = dict_set (date_key_of m d) (stored_text (NetResponse r))
                       (data (self w))
         /\ errors (self w') = errors (self w)
         /\ success_count (self w') = success_count (self w) + 1)
  /\ (forall w_end,
         fetch_all_365_days net start = Ok w_end ->
         requested w_end = map (url_of init) nonleap_calendar
         /\ List.length (requested w_end) = 365%nat).
Proof.
  intros H. apply fetch_single_date_returns in H as (_ & -> & ->).
  split; [reflexivity|]. split; [reflexivity|].
  unfold fetch_step, after_fetch. cbn [self requested fst snd].
  split; [|split].
  - intros F. rewrite F. repeat split.
  - intros r E F. rewrite E. cbn [request_fails]. rewrite F.
    split; [reflexivity|]. split; [|repeat split].
    unfold stored_text. cbn [request_fails]. rewrite F.
    now rewrite extract_total.
  - intros w_end Hrun. destruct (run_data net w_end Hrun) as (_ & _ & R & _).
    split; [exact R|]. rewrite R. now rewrite length_map.
Qed.

Lemma failed_fetch_is_recorded_witness :
  fetch_single_date (RT := sample_runtime) net_down 1 1 start
  = Ok (fetch_step (RT := sample_runtime) net_down start (1, 1), false)
  /\ data (self (fetch_step (RT := sample_runtime) net_down start (1, 1)))
     = [(lit "01-01", [])]
  /\ errors (self (fetch_step (RT := sample_runtime) net_down start (1, 1)))
     = [lit "01-01: timed out"].
Proof.
  assert (H : fetch_single_date (RT := sample_runtime) net_down 1 1 start
              = Ok (fetch_step (RT := sample_runtime) net_down start (1, 1),
                    false)) by (vm_compute; reflexivity).
  split; [exact H|].
  destruct (failed_fetch_is_recorded (RT := sample_runtime)
              (PF := sample_platform) net_down 1 1 start _ _ H)
    as (_ & _ & F & _).
  destruct (F eq_refl) as (D & E & _).
  split; [exact D | exact E].
Defined.

(* ================================================================== *)
(** * Counters                                                         *)
(* ================================================================== *)




(* ================================================================== *)
(** * The statistics                                                   *)
(* ================================================================== *)

Lemma print_statistics_snd {RT : PyRuntime} (f : AnniversaryFetcher) :
  snd (print_statistics f)
  = if (List.length (data f) =? 0)%nat then Raise ZeroDivisionError else Ok tt.
Proof.
  unfold print_statistics. destruct (List.length (data f)); reflexivity.
Qed.

Lemma run_length {RT : PyRuntime} {PF : Platform} (net : network) (w : world) :
  fetch_all_365_days net start = Ok w -> List.length (data (self w)) = 365%nat.
Proof.
  intros H. destruct (run_data net w H) as (_ & K & _).
  rewrite <- (length_map fst). fold (dict_keys (data (self w))).
  now rewrite K.
Qed.

(** C10: [print_statistics] divides by the number of entries of the
    mapping without a guard: it raises ZeroDivisionError exactly when
    the mapping is empty, as on a fresh object, after it has printed its
    first four lines; once the loop has completed on a fresh object the
    mapping has 365 entries and the call returns. *)
Theorem print_statistics_division {RT : PyRuntime} {PF : Platform}
  (net : network) (w : world) :
  fetch_all_365_days net start = Ok w ->
  snd (print_statistics init) = Raise ZeroDivisionError
  /\ List.length (fst (print_statistics init)) = 4%nat
  /\ (forall f : AnniversaryFetcher,
         snd (print_statistics f)
         = if (List.length (data f) =? 0)%nat then Raise ZeroDivisionError
           else Ok tt)
  /\ List.length (data (self w)) = 365%nat
  /\ snd (print_statistics (self w)) = Ok tt.
Proof.
  intros H. pose proof (run_length net w H) as L.
  split; [reflexivity|]. split; [reflexivity|].
  split; [exact print_statistics_snd|]. split; [exact L|].
  now rewrite print_statistics_snd, L.
Qed.

Lemma print_statistics_division_witness :
  fetch_all_365_days (RT := sample_runtime) (PF := sample_platform)
    net_down start = Ok world_down
  /\ snd (print_statistics (RT := sample_runtime) (self world_down)) = Ok tt.
Proof.
  assert (H : fetch_all_365_days (RT := sample_runtime) (PF := sample_platform)
                net_down start = Ok world_down) by (vm_compute; reflexivity).
  split; [exact H|].
  exact (proj2 (proj2 (proj2 (proj2
           (print_statistics_division (RT := sample_runtime)
              (PF := sample_platform) net_down world_down H))))).
Defined.

(* ================================================================== *)
(** * The exported files                                               *)
(* ================================================================== *)

Lemma line_count_app (a b : pystr) :
  Csv.line_count (a ++ b) = (Csv.line_count a + Csv.line_count b)%nat.
Proof. unfold Csv.line_count. now rewrite filter_app, length_app. Qed.

Lemma line_count_write_field (field : pystr) :
  Csv.line_count (Csv.write_field field) = Csv.line_count field.
Proof.
  unfold Csv.write_field.
  assert (B : Csv.line_count
                (flat_map (fun c => if (c =? Csv.quotechar)%N then [c; c] else [c])
                          field)
              = Csv.line_count field).
  { induction field as [|c field IH]; trivial.
    simpl flat_map. rewrite line_count_app.
    change (c :: field) with ([c] ++ field). rewrite line_count_app, IH.
    f_equal. destruct (N.eqb_spec c Csv.quotechar) as [-> | _]; reflexivity. }
  destruct (existsb Csv.special field); trivial.
  now rewrite !line_count_app, B.
Qed.

Lemma line_count_join (parts : list pystr) :
  Csv.line_count (join [Csv.delimiter] parts)
  = list_sum (map Csv.line_count parts).
Proof.
  induction parts as [|x parts IH]; trivial.
  destruct parts as [|y parts].
  - unfold list_sum. cbn [join map fold_right]. lia.
  - change (join [Csv.delimiter] (x :: y :: parts))
      with (x ++ [Csv.delimiter] ++ join [Csv.delimiter] (y :: parts)).
    rewrite !line_count_app, IH. reflexivity.
Qed.

Lemma line_count_writerow (fields : list pystr) :
  Csv.line_count (Csv.writerow fields)
  = S (list_sum (map Csv.line_count fields)).
Proof.
  unfold Csv.writerow. rewrite line_count_app.
  assert (J : Csv.line_count (join [Csv.delimiter] (map Csv.write_field fields))
              = list_sum (map Csv.line_count fields)).
  { rewrite line_count_join, map_map. f_equal.
    apply map_ext. apply line_count_write_field. }
  change (Csv.line_count Csv.lineterminator) with 1%nat.
  destruct fields as [|f fields].
  - simpl. reflexivity.
  - rewrite <- J.
    destruct (join [Csv.delimiter] (map Csv.write_field (f :: fields)));
      [reflexivity | lia].
Qed.

Lemma line_count_rows (rows : list (list pystr)) :
  Forall (Forall (fun field => Csv.line_count field = 0%nat)) rows ->
  Csv.line_count (concat (map Csv.writerow rows)) = List.length rows.
Proof.
  induction 1 as [|r rows Hr _ IH]; trivial.
  cbn [map concat List.length].
  rewrite line_count_app, line_count_writerow, IH.
  assert (Z0 : list_sum (map Csv.line_count r) = 0%nat).
  { clear IH. induction Hr as [|x r Hx _ IHr]; trivial.
    cbn [map list_sum fold_right] in *. unfold list_sum in IHr.
    now rewrite Hx, IHr. }
  now rewrite Z0.
Qed.

Lemma sorted_ascending (l : list pystr) : ascending l -> sorted PyStr.ltb l = l.
Proof.
  intros H.
  apply (strict_unique _ PyStr.ltb ltb_irrefl ltb_trans); trivial.
  - apply (sorted_strict _ PyStr.ltb ltb_irrefl ltb_trans ltb_total).
    now apply ascending_nodup.
  - intros x. apply Permutation_in'; trivial.
    apply Permutation_sym, sorted_perm.
Qed.

Lemma items_by_key_id (d : dict pystr) :
  dict_wf d -> map (fun key => (key, getitem d key)) (dict_keys d) = d.
Proof.
  intros W. unfold dict_keys. rewrite map_map.
  rewrite <- (map_id d) at 2. apply map_ext_in.
  intros [k v] Hin. simpl. unfold getitem.
  now rewrite (dict_get_in k d v W Hin).
Qed.

Lemma entries_from_nth {RT : PyRuntime} net f ds :
  forall n i dflt,
    (i < List.length ds)%nat ->
    nth i (entries_from net f n ds) dflt
    = (date_key_of (fst (nth i ds (0, 0))) (snd (nth i ds (0, 0))),
       stored_text (net (n + i)%nat (url_of f (nth i ds (0, 0))))).
Proof.
  induction ds as [|md ds IH]; intros n i dflt Hi; simpl in Hi; [lia|].
  destruct i as [|i]; simpl.
  - now rewrite Nat.add_0_r.
  - rewrite IH by lia. now rewrite Nat.add_succ_r.
Qed.

Lemma calendar_keys_nth (i : nat) :
  (i < 365)%nat ->
  nth i calendar_keys []
  = date_key_of (fst (nth i nonleap_calendar (0, 0)))
                (snd (nth i nonleap_calendar (0, 0))).
Proof.
  intros Hi. unfold calendar_keys.
  rewrite (nth_indep _ [] (date_key_of (fst (0, 0)) (snd (0, 0)))).
  - apply (map_nth (fun md => date_key_of (fst md) (snd md))).
  - rewrite length_map. exact Hi.
Qed.

(** The two exports after a run are the store itself, which is already
    in key order. *)
Lemma run_exports {RT : PyRuntime} {PF : Platform} (net : network) (w : world) :
  fetch_all_365_days net start = Ok w ->
  data (self w) = entries_from net init 0 nonleap_calendar
  /\ dict_keys (data (self w)) = calendar_keys
  /\ sorted_data (self w) = data (self w)
  /\ csv_rows (self w)
     = [lit "date"; lit "name"]
       :: map (fun item => [fst item; snd item]) (data (self w)).
Proof.
  intros H. destruct (run_data net w H) as (D & K & _).
  split; [exact D|]. split; [exact K|].
  assert (W : dict_wf (data (self w))).
  { unfold dict_wf. rewrite K. exact calendar_keys_nodup. }
  assert (S : sorted PyStr.ltb (dict_keys (data (self w)))
              = dict_keys (data (self w))).
  { apply sorted_ascending. rewrite K. exact calendar_keys_ascending. }
  split.
  - rewrite (sorted_data_items _ W), (sorted_items_by_key _ W), S.
    now apply items_by_key_id.
  - unfold csv_rows. rewrite S. f_equal.
    rewrite <- (items_by_key_id _ W) at 2. now rewrite map_map.
Qed.

Lemma write_utf8_written (content written : pystr) :
  write_utf8 content = Written written ->
  written = content /\ printable content = true.
Proof.
  unfold write_utf8. destruct (printable content); [|discriminate].
  intros [= <-]. now split.
Qed.

(** A run whose first text has two lines gives a CSV file of 367 lines
    for its 366 rows. *)
Lemma csv_line_count_counterexample :
  fetch_all_365_days (RT := sample_runtime) (PF := sample_platform)
    net_two_lines start = Ok world_two_lines
  /\ dict_get (lit "01-01") (data (self world_two_lines)) = Some [97; 10; 98]%N
  /\ List.length (csv_rows (self world_two_lines)) = 366%nat
  /\ save_to_csv true (self world_two_lines)
     = Written (csv_content (self world_two_lines))
  /\ Csv.line_count (csv_content (self world_two_lines)) = 367%nat
  /\ Csv.line_count (csv_content (self world_two_lines)) <> 366%nat.
Proof.
  split; [vm_compute; reflexivity|].
  split; [vm_compute; reflexivity|].
  split; [vm_compute; reflexivity|].
  split; [vm_compute; reflexivity|].
  split; [vm_compute; reflexivity|].
  vm_compute. discriminate.
Qed.

Lemma line_feed_free_check (l : list pystr) :
  forallb (fun text => Nat.eqb (Csv.line_count text) 0) l = true ->
  forall text, In text l -> Csv.line_count text = 0%nat.
Proof.
  intros H text Hin. rewrite forallb_forall in H. now apply Nat.eqb_eq, H.
Qed.

Lemma stored_text_failed {RT : PyRuntime} (o : net_result) :
  request_fails o = true -> stored_text o = [].
Proof. destruct o as [msg | r]; simpl; trivial. now intros ->. Qed.

(** C6, amended: after a run that has completed on a fresh object, with
    N failures and 365 - N successes, when [save_to_csv] and
    [save_to_json] write their files, the CSV file is the text of 366
    rows, the header [date,name] and one row per date in calendar order
    with the key and the stored text, and the JSON file is the text of
    an object of 365 entries in the same order; a date whose fetch
    failed has the empty string in both, its row being the key and a
    comma and its entry the key and an empty string.  The CSV file has
    366 lines when no stored text contains a line feed. *)
Theorem exports_after_run {RT : PyRuntime} {PF : Platform} (net : network)
  (w : world) (csv json : pystr) :
  fetch_all_365_days net start = Ok w ->
  save_to_csv true (self w) = Written csv ->
  save_to_json true (self w) = Written json ->
  success_count (self w) + Z.of_nat (List.length (errors (self w))) = 365
  /\ dict_keys (data (self w)) = map mm_dd nonleap_calendar
  /\ List.length (data (self w)) = 365%nat
  /\ csv = concat (map Csv.writerow
                       ([lit "date"; lit "name"]
                        :: map (fun item => [fst item; snd item])
                               (data (self w))))
  /\ Csv.writerow [lit "date"; lit "name"] = lit "date,name" ++ [13; 10]%N
  /\ json = lit "{" ++ [10%N] ++ lit "  "
            ++ join (lit "," ++ [10%N] ++ lit "  ")
                    (map json_entry (data (self w)))
            ++ [10%N] ++ lit "}"
  /\ (forall i, (i < 365)%nat ->
                request_fails (outcome_at net init i) = true ->
                nth i (data (self w)) ([], [])
                = (mm_dd (nth i nonleap_calendar (0, 0)), [])
                /\ Csv.writerow [mm_dd (nth i nonleap_calendar (0, 0)); []]
                   = mm_dd (nth i nonleap_calendar (0, 0)) ++ lit ","
                     ++ [13; 10]%N
                /\ json_entry (mm_dd (nth i nonleap_calendar (0, 0)), [])
                   = [34%N] ++ mm_dd (nth i nonleap_calendar (0, 0))
                     ++ [34; 58; 32; 34; 34]%N)
  /\ ((forall text, In text (dict_values (data (self w))) ->
                    Csv.line_count text = 0%nat) ->
      Csv.line_count csv = 366%nat).
Proof.
  intros H Hcsv Hjson.
  destruct (run_exports net w H) as (D & K & S & R).
  destruct (run_data net w H) as (_ & _ & _ & C).
  pose proof (run_length net w H) as L.
  unfold save_to_csv in Hcsv. apply write_utf8_written in Hcsv as [-> _].
  unfold save_to_json in Hjson. apply write_utf8_written in Hjson as [-> _].
  unfold csv_content. rewrite R, S.
  split; [exact C|]. split; [rewrite K; exact calendar_keys_mm_dd|].
  split; [exact L|]. split; [reflexivity|]. split; [reflexivity|].
  split; [|split].
  - unfold json_dump_indent2, Csv.LF.
    destruct (data (self w)); [discriminate | reflexivity].
  - intros i Hi F.
    assert (Ki : date_key_of (fst (nth i nonleap_calendar (0, 0)))
                             (snd (nth i nonleap_calendar (0, 0)))
                 = mm_dd (nth i nonleap_calendar (0, 0))).
    { rewrite <- (calendar_keys_nth i Hi), calendar_keys_mm_dd.
      rewrite (nth_indep _ [] (mm_dd (0, 0)))
        by (now rewrite length_map).
      apply (map_nth mm_dd). }
    assert (Di : forallb (fun md => is_digit (hd 0%N (mm_dd md))
                                    && negb (existsb Csv.special (mm_dd md))
                                    && forallb (fun c => N.eqb c (hd 0%N (json_escape c))
                                                   && Nat.eqb (List.length (json_escape c)) 1)
                                               (mm_dd md))
                         nonleap_calendar = true) by (vm_compute; reflexivity).
    rewrite forallb_forall in Di.
    specialize (Di (nth i nonleap_calendar (0, 0))
                   (nth_In _ _ ltac:(rewrite nonleap_calendar_length; exact Hi))).
    split; [|split].
    + rewrite D, entries_from_nth by exact Hi. rewrite Ki. f_equal.
      now apply stored_text_failed.
    + revert Di. generalize (nth i nonleap_calendar (0, 0)). intros md Di.
      apply andb_true_iff in Di as [Di _]. apply andb_true_iff in Di as [_ Di].
      apply negb_true_iff in Di.
      unfold Csv.writerow, Csv.write_field. cbn [map]. rewrite Di.
      assert (Q : flat_map (fun c => if (c =? Csv.quotechar)%N then [c; c] else [c])
                           (mm_dd md) = mm_dd md).
      { clear - Di. induction (mm_dd md) as [|c s IH]; trivial.
        cbn [existsb] in Di. apply orb_false_iff in Di as [Dc Ds].
        cbn [flat_map]. rewrite IH by exact Ds.
        unfold Csv.special in Dc. apply orb_false_iff in Dc as [Dc _].
        apply orb_false_iff in Dc as [_ Dc]. now rewrite Dc. }
      rewrite Q. cbn [existsb flat_map join app].
      unfold mm_dd, two_digits. reflexivity.
    + revert Di. generalize (nth i nonleap_calendar (0, 0)). intros md Di.
      apply andb_true_iff in Di as [_ Di].
      unfold json_entry, json_string. cbn [fst snd flat_map app].
      assert (Q : flat_map json_escape (mm_dd md) = mm_dd md).
      { clear - Di. induction (mm_dd md) as [|c s IH]; trivial.
        cbn [forallb] in Di. apply andb_true_iff in Di as [Dc Ds].
        cbn [flat_map]. rewrite IH by exact Ds.
        apply andb_true_iff in Dc as [Dc1 Dc2].
        apply N.eqb_eq in Dc1. apply Nat.eqb_eq in Dc2.
        destruct (json_escape c) as [|x [|y l]]; try discriminate.
        cbn in Dc1. now subst x. }
      rewrite Q. now rewrite <- !app_assoc.
  - intros Hlines.
    rewrite line_count_rows; [simpl; now rewrite length_map, L|].
    constructor; [repeat constructor|].
    apply Forall_forall. intros row Hrow.
    apply in_map_iff in Hrow as [[k v] [<- Hkv]]. simpl.
    constructor; [|constructor; [|constructor]].
    + apply (line_feed_free_check calendar_keys); [vm_compute; reflexivity|].
      rewrite <- K. apply (in_map fst) in Hkv. exact Hkv.
    + apply Hlines. apply (in_map snd) in Hkv. exact Hkv.
Qed.

Lemma exports_after_run_witness :
  fetch_all_365_days (RT := sample_runtime) (PF := sample_platform)
    net_down start = Ok world_down
  /\ save_to_csv true (self world_down) = Written (csv_content (self world_down))
  /\ nth 0 (data (self world_down)) ([], []) = (lit "01-01", [])
  /\ Csv.line_count (csv_content (self world_down)) = 366%nat.
Proof.
  assert (H : fetch_all_365_days (RT := sample_runtime) (PF := sample_platform)
                net_down start = Ok world_down) by (vm_compute; reflexivity).
  assert (Hc : save_to_csv true (self world_down)
               = Written (csv_content (self world_down)))
    by (vm_compute; reflexivity).
  assert (Hj : save_to_json (RT := sample_runtime) true (self world_down)
               = Written (json_dump_indent2 (RT := sample_runtime)
                            (sorted_data (self world_down))))
    by (vm_compute; reflexivity).
  destruct (exports_after_run (RT := sample_runtime) (PF := sample_platform)
              net_down world_down _ _ H Hc Hj)
    as (_ & _ & _ & _ & _ & _ & Hfail & Hlines).
  split; [exact H|]. split; [exact Hc|].
  destruct (Hfail 0%nat ltac:(lia) eq_refl) as (Hrow & _).
  split; [exact Hrow|].
  apply Hlines. apply line_feed_free_check. vm_compute. reflexivity.
Defined.

(** C7: two stores with the same contents, whatever the order in which
    their keys were inserted, are exported to the same CSV rows and file
    content and to the same JSON object and text, and in both exports
    the keys are in strictly ascending order. *)
Theorem exports_ignore_insertion_order {RT : PyRuntime}
  (f1 f2 : AnniversaryFetcher) :
  dict_wf (data f1) -> dict_wf (data f2) ->
  same_contents (data f1) (data f2) ->
  csv_rows f1 = csv_rows f2
  /\ sorted_data f1 = sorted_data f2
  /\ (forall io_ok, save_to_csv io_ok f1 = save_to_csv io_ok f2
                    /\ save_to_json io_ok f1 = save_to_json io_ok f2)
  /\ map (hd []) (tl (csv_rows f1)) = sorted PyStr.ltb (dict_keys (data f1))
  /\ dict_keys (sorted_data f1) = sorted PyStr.ltb (dict_keys (data f1))
  /\ ascending (sorted PyStr.ltb (dict_keys (data f1)))
  /\ Permutation (dict_keys (data f1)) (sorted PyStr.ltb (dict_keys (data f1))).
Proof.
  intros W1 W2 Same.
  assert (Keys : sorted PyStr.ltb (dict_keys (data f1))
                 = sorted PyStr.ltb (dict_keys (data f2))).
  { apply (sorted_unique _ PyStr.ltb ltb_irrefl ltb_trans ltb_total); trivial.
    now apply same_contents_keys. }
  assert (Rows : csv_rows f1 = csv_rows f2).
  { unfold csv_rows. rewrite Keys. f_equal. apply map_ext.
    intros key. unfold getitem. now rewrite (Same key). }
  assert (Json : sorted_data f1 = sorted_data f2).
  { rewrite !sorted_data_items by trivial. unfold dict_items.
    apply (sorted_unique _ tuple_ltb tuple_ltb_irrefl tuple_ltb_trans
             tuple_ltb_total); try now apply wf_items_nodup.
    now apply same_contents_items. }
  split; [exact Rows|]. split; [exact Json|]. split; [|split; [|split; [|split]]].
  - intros io_ok. unfold save_to_csv, save_to_json, csv_content.
    now rewrite Rows, Json.
  - unfold csv_rows. simpl. rewrite map_map. simpl. apply map_id.
  - rewrite sorted_data_items by trivial. now apply sorted_items_keys.
  - now apply (sorted_strict _ PyStr.ltb ltb_irrefl ltb_trans ltb_total).
  - apply sorted_perm.
Qed.

Lemma exports_ignore_insertion_order_witness :
  data store_a <> data store_b
  /\ csv_rows store_a = csv_rows store_b
  /\ sorted_data store_a = sorted_data store_b.
Proof.
  split; [vm_compute; discriminate|].
  assert (Wa : dict_wf (data store_a))
    by (apply all_distinct_sound; vm_compute; reflexivity).
  assert (Wb : dict_wf (data store_b))
    by (apply all_distinct_sound; vm_compute; reflexivity).
  assert (Same : same_contents (data store_a) (data store_b)).
  { intros key. unfold store_a, store_b, with_data. simpl.
    destruct (PyStr.eqb (lit "02-01") key) eqn:E1;
      destruct (PyStr.eqb (lit "01-01") key) eqn:E2; trivial.
    apply eqb_eq in E1, E2. rewrite <- E2 in E1. discriminate. }
  destruct (exports_ignore_insertion_order (RT := sample_runtime)
              store_a store_b Wa Wb Same) as (R & J & _).
  split; [exact R | exact J].
Defined.

(* ================================================================== *)
(** * The reporter                                                     *)
(* ================================================================== *)

Lemma print_lines_ok (lines printed : list pystr) :
  print_lines lines = (printed, Ok tt) ->
  printed = lines /\ forallb printable lines = true.
Proof.
  revert printed. induction lines as [|line lines IH]; intros printed;
    cbn [print_lines forallb].
  - intros [= <-]. now split.
  - destruct (printable line); [|discriminate].
    destruct (print_lines lines) as [ls r]. cbn [fst snd].
    intros [= <- ->]. destruct (IH ls eq_refl) as [-> ->]. now split.
Qed.

Lemma print_lines_printable (lines : list pystr) :
  forallb printable lines = true -> print_lines lines = (lines, Ok tt).
Proof.
  induction lines as [|line lines IH]; cbn [print_lines forallb]; trivial.
  intros H. apply andb_true_iff in H as [P Q]. rewrite P, (IH Q). reflexivity.
Qed.

(** Called without its argument, [show_sample] lists ten entries of a
    store of 365, not fifteen. *)
Lemma show_sample_default_counterexample :
  fetch_all_365_days (RT := sample_runtime) (PF := sample_platform)
    net_down start = Ok world_down
  /\ List.length (data (self world_down)) = 365%nat
  /\ snd (show_sample None (self world_down)) = Ok tt
  /\ List.length (tl (fst (show_sample None (self world_down)))) = 10%nat
  /\ List.length (tl (fst (show_sample None (self world_down)))) <> 15%nat.
Proof.
  split; [vm_compute; reflexivity|].
  split; [vm_compute; reflexivity|].
  split; [vm_compute; reflexivity|].
  split; [vm_compute; reflexivity|].
  vm_compute. discriminate.
Qed.

Lemma display_of_short (name : pystr) :
  PyStr.len name <= 80 -> display_of name = name.
Proof.
  intros H. unfold display_of.
  destruct (Z.ltb_spec 80 (PyStr.len name)); [lia | reflexivity].
Qed.

Lemma display_of_long (name : pystr) :
  80 < PyStr.len name -> display_of name = firstn 80 name ++ lit "...".
Proof.
  intros H. unfold display_of.
  destruct (Z.ltb_spec 80 (PyStr.len name)); [reflexivity | lia].
Qed.

Lemma printed_lines_app (a b : list event) :
  printed_lines (a ++ b) = printed_lines a ++ printed_lines b.
Proof. apply flat_map_app. Qed.

Lemma printed_lines_prints {A} (f : A -> pystr) (l : list A) :
  printed_lines (map (fun x => Print (f x)) l) = map f l.
Proof. induction l as [|x l IH]; simpl; [|rewrite IH]; reflexivity. Qed.

Lemma printed_lines_print (lines : list pystr) :
  printed_lines (map Print lines) = lines.
Proof.
  rewrite <- (map_id lines) at 2. apply (printed_lines_prints (fun x => x)).
Qed.

Lemma report_ok (method : AnniversaryFetcher -> list pystr * result unit)
  (w : world) (u : unit) :
  value (report method w) = Ok u ->
  snd (method (self w)) = Ok tt
  /\ after (report method w) = w
  /\ caused (report method w) = map Print (fst (method (self w))).
Proof.
  unfold report. cbn [value after caused]. destruct u. intros ->.
  repeat split.
Qed.

(** The first part of [main], when it returns. *)
Lemma main_fetch_and_report_ok {RT : PyRuntime} {PF : Platform}
  (net : network) (u : unit) :
  value (main_fetch_and_report net start) = Ok u ->
  exists w,
    fetch_all_365_days net start = Ok w
    /\ after (main_fetch_and_report net start) = w
    /\ snd (print_statistics (self w)) = Ok tt
    /\ snd (show_sample (Some 15) (self w)) = Ok tt
    /\ caused (main_fetch_and_report net start)
       = [Print Msg.main_title; Print Msg.main_note]
         ++ caused (fetch_all_365_days_io net start)
         ++ map Print (fst (print_statistics (self w)))
         ++ map Print (fst (show_sample (Some 15) (self w))).
Proof.
  unfold main_fetch_and_report. intros H.
  then_inv H u1 H1. first_inv py_print_ok H1 P1.
  then_inv H u2 H1. first_inv py_print_ok H1 P2.
  then_inv H u3 H1.
  assert (R : fetch_all_365_days net start
              = Ok (after (fetch_all_365_days_io net start))).
  { unfold fetch_all_365_days, returned. now rewrite H1. }
  set (w := after (fetch_all_365_days_io net start)) in *. clearbody w.
  set (fetching := caused (fetch_all_365_days_io net start)) in *.
  clearbody fetching. clear H1.
  then_inv H u4 H1. first_inv report_ok H1 P4.
  first_inv report_ok H P5.
  exists w. repeat split; trivial; cbn [app]; now rewrite <- !app_assoc.
Qed.

(** A run of [main] that reaches its end. *)
Lemma main_ok {RT : PyRuntime} {PF : Platform} (net : network)
  (csv_io json_io : io_outcome) :
  ended (main net csv_io json_io) = Ok tt ->
  exists w,
    fetch_all_365_days net start = Ok w
    /\ snd (print_statistics (self w)) = Ok tt
    /\ snd (show_sample (Some 15) (self w)) = Ok tt
    /\ finished (save_to_csv_io csv_io (self w)) = Ok tt
    /\ finished (save_to_json_io json_io (self w)) = Ok tt
    /\ csv_file (main net csv_io json_io)
       = Some (file (save_to_csv_io csv_io (self w)))
    /\ json_file (main net csv_io json_io)
       = Some (file (save_to_json_io json_io (self w)))
    /\ events (main net csv_io json_io)
       = [Print Msg.main_title; Print Msg.main_note]
         ++ caused (fetch_all_365_days_io net start)
         ++ map Print (fst (print_statistics (self w)))
         ++ map Print (fst (show_sample (Some 15) (self w)))
         ++ map Print (reported (save_to_csv_io csv_io (self w)))
         ++ map Print (reported (save_to_json_io json_io (self w)))
         ++ map Print main_closing.
Proof.
  unfold main.
  destruct (value (main_fetch_and_report net start)) as [[] | e] eqn:H;
    [|discriminate].
  apply main_fetch_and_report_ok in H as (w & R & -> & S1 & S2 & ->).
  destruct (finished (save_to_csv_io csv_io (self w))) as [[] | e] eqn:F1;
    [|discriminate].
  destruct (finished (save_to_json_io json_io (self w))) as [[] | e] eqn:F2;
    [|discriminate].
  cbn [ended events csv_file json_file]. intros _.
  exists w. repeat split; trivial; now rewrite <- !app_assoc.
Qed.

(** C8, amended: for a count N that is not negative, a call of
    [show_sample] that returns has printed, after its heading, one line
    for each of the first N date keys in ascending order, with the key,
    a colon and the text, a text longer than 80 characters being cut to
    its first 80 characters followed by three dots; the count defaults
    to 10 when not supplied, and a run of [main] that reaches its end
    has called it with 15, on the 365 entries of the run, and so printed
    a heading and fifteen lines. *)
Theorem show_sample_lists_first_entries {RT : PyRuntime} {PF : Platform}
  (f : AnniversaryFetcher) (count : Z) (lines : list pystr)
  (net : network) (csv_io json_io : io_outcome) :
  dict_wf (data f) -> 0 <= count ->
  show_sample (Some count) f = (lines, Ok tt) ->
  ended (main net csv_io json_io) = Ok tt ->
  lines
  = sample_heading count
    :: map (fun key => key ++ lit ": " ++ display_of (getitem (data f) key))
           (firstn (Z.to_nat count) (sorted PyStr.ltb (dict_keys (data f))))
  /\ ascending (sorted PyStr.ltb (dict_keys (data f)))
  /\ (forall name, PyStr.len name <= 80 -> display_of name = name)
  /\ (forall name, 80 < PyStr.len name ->
                   display_of name = firstn 80 name ++ lit "...")
  /\ show_sample None f = show_sample (Some 10) f
  /\ exists w shown before behind,
       fetch_all_365_days net start = Ok w
       /\ show_sample (Some 15) (self w) = (shown, Ok tt)
       /\ List.length shown = 16%nat
       /\ printed_lines (events (main net csv_io json_io))
          = before ++ shown ++ behind.
Proof.
  intros W Hc Hshow Hmain.
  split; [|split; [|split; [|split; [|split]]]].
  - unfold show_sample in Hshow. apply print_lines_ok in Hshow as [-> _].
    f_equal. unfold slice_to.
    destruct (Z.leb_spec 0 count); [|lia].
    rewrite (sorted_items_by_key _ W), firstn_map, map_map.
    reflexivity.
  - now apply (sorted_strict _ PyStr.ltb ltb_irrefl ltb_trans ltb_total).
  - exact display_of_short.
  - exact display_of_long.
  - reflexivity.
  - apply main_ok in Hmain as (w & R & _ & S2 & _ & _ & _ & _ & E).
    pose proof (run_length net w R) as L.
    exists w, (fst (show_sample (Some 15) (self w))),
      (printed_lines ([Print Msg.main_title; Print Msg.main_note]
                      ++ caused (fetch_all_365_days_io net start))
       ++ fst (print_statistics (self w))),
      (reported (save_to_csv_io csv_io (self w))
       ++ reported (save_to_json_io json_io (self w)) ++ main_closing).
    split; [exact R|]. split; [|split].
    + rewrite (surjective_pairing (show_sample (Some 15) (self w))).
      now rewrite S2.
    + rewrite (surjective_pairing (show_sample (Some 15) (self w))) in S2.
      cbn [snd] in S2.
      assert (P : show_sample (Some 15) (self w)
                  = (fst (show_sample (Some 15) (self w)), Ok tt)).
      { rewrite (surjective_pairing (show_sample (Some 15) (self w))) at 1.
        now rewrite S2. }
      unfold show_sample in P at 1. apply print_lines_ok in P as [-> _].
      cbn [List.length]. rewrite length_map. unfold slice_to.
      change (0 <=? 15) with true. cbv iota.
      change (Z.to_nat 15) with 15%nat. rewrite length_firstn.
      rewrite <- (Permutation_length (sorted_perm _ tuple_ltb _)).
      unfold dict_items. now rewrite L.
    + rewrite E. rewrite app_assoc.
      rewrite !printed_lines_app, !printed_lines_print.
      now rewrite <- !app_assoc.
Qed.

Lemma show_sample_lists_first_entries_witness :
  show_sample (Some 1) store_a = ([sample_heading 1; lit "01-01: a"], Ok tt)
  /\ ascending (sorted PyStr.ltb (dict_keys (data store_a))).
Proof.
  assert (W : dict_wf (data store_a))
    by (apply all_distinct_sound; vm_compute; reflexivity).
  assert (S : show_sample (Some 1) store_a
              = ([sample_heading 1; lit "01-01: a"], Ok tt))
    by (vm_compute; reflexivity).
  assert (M : ended (main (RT := sample_runtime) (PF := sample_platform)
                       net_down None None) = Ok tt)
    by (vm_compute; reflexivity).
  destruct (show_sample_lists_first_entries (RT := sample_runtime)
              (PF := sample_platform) store_a 1 _ net_down None None
              W ltac:(lia) S M) as (_ & A & _).
  split; [exact S | exact A].
Defined.
(* ================================================================== *)
(** * Examples                                                         *)
(* ================================================================== *)

Example extract_array :
  extract_anniversary_text (RT := sample_runtime)
    (plain_response 200 "OK" []
       (Ok (PList [PStr (lit "A"); PStr []; PNone; PStr (lit "B");
                   PStr (lit "C")])))
  = Ok ([65] ++ ideographic_comma ++ [66] ++ ideographic_comma ++ [67])%N.
Proof. reflexivity. Qed.

Example extract_events :
  extract_anniversary_text (RT := sample_runtime)
    (plain_response 200 "OK" []
       (Ok (PDict [(lit "items", PStr (lit "later"));
                   (lit "events", PList [PStr (lit "X"); PStr (lit "Y")])])))
  = Ok ([88] ++ ideographic_comma ++ [89])%N.
Proof. reflexivity. Qed.

Example extract_other_object :
  extract_anniversary_text (RT := sample_runtime)
    (plain_response 200 "OK" []
       (Ok (PDict [(lit "foo", PStr (lit "bar"))])))
  = Ok [123; 34; 102; 111; 111; 34; 58; 32; 34; 98; 97; 114; 34; 125]%N.
Proof. reflexivity. Qed.

Example extract_plain_text :
  extract_anniversary_text (RT := sample_runtime)
    (plain_response 200 "OK" (lit "  hello world ")
       (Raise (JSONDecodeError [])))
  = Ok (lit "hello world").
Proof. reflexivity. Qed.

Example writerow_quotes_line_feed :
  Csv.writerow [lit "01-01"; [97; 10; 98]%N]
  = (lit "01-01," ++ [34; 97; 10; 98; 34; 13; 10])%N.
Proof. reflexivity. Qed.

(* ================================================================== *)
(** * Further properties of one fetch                                  *)
(* ================================================================== *)

Lemma dict_get_set_other {V} (key k : pystr) (v : V) (d : dict V) :
  key <> k -> dict_get key (dict_set k v d) = dict_get key d.
Proof.
  intros N. induction d as [|[k' x] d IH]; simpl.
  - apply eqb_neq in N.
    assert (E : PyStr.eqb k key = false)
      by (apply eqb_neq; apply eqb_neq in N; congruence).
    now rewrite E.
  - destruct (PyStr.eqb k' k) eqn:E1; simpl.
    + destruct (PyStr.eqb k' key) eqn:E2; trivial.
      apply eqb_eq in E1, E2. congruence.
    + now rewrite IH.
Qed.

Lemma dict_set_length_present {V} (key : pystr) (v : V) (d : dict V) :
  dict_contains key d = true ->
  List.length (dict_set key v d) = List.length d.
Proof.
  intros H. rewrite <- !(length_map fst).
  change (List.length (dict_keys (dict_set key v d))
          = List.length (dict_keys d)).
  now rewrite dict_set_keys, H.
Qed.



(** X2: a call that returns, for a date key that the mapping already
    has, has replaced the text of that entry in place: the keys and
    their order stay, the other entries keep their texts, and the
    counters run ahead of the number of entries by one. *)
Theorem refetch_overwrites_in_place {RT : PyRuntime} (net : network)
  (m d : Z) (w w' : world) (ok : bool) :
  fetch_single_date net m d w = Ok (w', ok) ->
  dict_contains (date_key_of m d) (data (self w)) = true ->
  counters_match (self w) ->
  dict_keys (data (self w')) = dict_keys (data (self w))
  /\ dict_get (date_key_of m d) (data (self w'))
     = Some (stored_text
               (net (List.length (requested w)) (url_of (self w) (m, d))))
  /\ (forall key, key <> date_key_of m d ->
                  dict_get key (data (self w'))
                  = dict_get key (data (self w)))
  /\ success_count (self w') + Z.of_nat (List.length (errors (self w')))
     = Z.of_nat (List.length (data (self w'))) + 1.
Proof.
  unfold counters_match. intros H Has Inv.
  apply fetch_single_date_returns in H as (_ & -> & _).
  unfold fetch_step. cbn [self fst snd].
  set (o := net _ _). rewrite after_fetch_data.
  split; [now rewrite dict_set_keys, Has|].
  split; [apply dict_get_set|].
  split; [intros key N; now apply dict_get_set_other|].
  rewrite (dict_set_length_present _ _ _ Has).
  destruct (after_fetch_counters o (date_key_of m d) (self w))
    as [(-> & -> & _) | (-> & -> & _)].
  - lia.
  - rewrite length_app. simpl. lia.
Qed.

Lemma refetch_overwrites_in_place_witness :
  fetch_single_date (RT := sample_runtime) net_down 1 1 store_jan1
  = Ok (fetch_step (RT := sample_runtime) net_down store_jan1 (1, 1), false)
  /\ dict_keys (data (self (fetch_step (RT := sample_runtime) net_down
                              store_jan1 (1, 1))))
     = [lit "01-01"; lit "xx"]
  /\ dict_get (lit "01-01")
       (data (self (fetch_step (RT := sample_runtime) net_down store_jan1
                      (1, 1)))) = Some [].
Proof.
  assert (H : fetch_single_date (RT := sample_runtime) net_down 1 1 store_jan1
              = Ok (fetch_step (RT := sample_runtime) net_down store_jan1
                      (1, 1), false)) by (vm_compute; reflexivity).
  destruct (refetch_overwrites_in_place (RT := sample_runtime) net_down 1 1
              store_jan1 _ _ H eq_refl eq_refl) as (K & G & _).
  split; [exact H|]. split; [exact K | exact G].
Defined.

(* ================================================================== *)
(** * Further properties of the loop                                   *)
(* ================================================================== *)

Section MoreRun.
Context {RT : PyRuntime}.

Lemma fetch_step_requested net w md :
  requested (fetch_step net w md) = requested w ++ [url_of (self w) md].
Proof. reflexivity. Qed.

Lemma fetch_step_url net w md md' :
  url_of (self (fetch_step net w md)) md' = url_of (self w) md'.
Proof. unfold url_of, fetch_step. simpl. now rewrite after_fetch_base_url. Qed.

Lemma fold_get_other net ds :
  forall w key,
    ~ In key (map (fun md => date_key_of (fst md) (snd md)) ds) ->
    dict_get key (data (self (fold_left (fetch_step net) ds w)))
    = dict_get key (data (self w)).
Proof.
  induction ds as [|md ds IH]; intros w key N; simpl; trivial.
  simpl in N. rewrite IH by tauto.
  unfold fetch_step. simpl. rewrite after_fetch_data.
  apply dict_get_set_other. intros E. apply N. now left.
Qed.

Lemma fold_get_nth net ds :
  forall w i,
    NoDup (map (fun md => date_key_of (fst md) (snd md)) ds) ->
    (i < List.length ds)%nat ->
    dict_get (date_key_of (fst (nth i ds (0, 0))) (snd (nth i ds (0, 0))))
             (data (self (fold_left (fetch_step net) ds w)))
    = Some (stored_text
              (net (List.length (requested w) + i)%nat
                   (url_of (self w) (nth i ds (0, 0))))).
Proof.
  induction ds as [|md ds IH]; intros w i ND Hi; simpl in Hi; [lia|].
  inversion ND as [|? ? Hmd ND']; subst.
  destruct i as [|i]; simpl.
  - rewrite fold_get_other by exact Hmd.
    unfold fetch_step. simpl. rewrite after_fetch_data, Nat.add_0_r.
    apply dict_get_set.
  - rewrite IH by (trivial; lia).
    rewrite fetch_step_requested, length_app, fetch_step_url. simpl.
    do 3 f_equal. lia.
Qed.

Lemma fold_errors_prefix net ds :
  forall w, exists more,
    errors (self (fold_left (fetch_step net) ds w)) = errors (self w) ++ more.
Proof.
  induction ds as [|md ds IH]; intros w; simpl.
  - exists []. now rewrite app_nil_r.
  - destruct (IH (fetch_step net w md)) as [more ->].
    unfold fetch_step. simpl.
    destruct (after_fetch_counters
                (net (List.length (requested w)) (url_of (self w) md))
                (date_key_of (fst md) (snd md)) (self w))
      as [(_ & -> & _) | (_ & -> & _)].
    + now exists more.
    + rewrite <- app_assoc. now eexists.
Qed.

End MoreRun.

(** X3: a run of the loop that returns, on any object, fresh or not,
    has sent the 365 requests of the calendar in order; each calendar
    key then maps to the text of its own request of this run, entries
    under other keys are neither changed nor removed, the errors
    recorded before are kept in front, the two counters together have
    grown by 365, and the delay was one that [time.sleep] accepts. *)
Theorem rerun_overwrites_calendar_keys {RT : PyRuntime} {PF : Platform}
  (net : network) (w w' : world) :
  fetch_all_365_days net w = Ok w' ->
  requested w' = requested w ++ map (url_of (self w)) nonleap_calendar
  /\ (forall i, (i < 365)%nat ->
        dict_get (nth i calendar_keys []) (data (self w'))
        = Some (stored_text
                  (net (List.length (requested w) + i)%nat
                       (url_of (self w) (nth i nonleap_calendar (0, 0))))))
  /\ (forall key, ~ In key calendar_keys ->
                  dict_get key (data (self w')) = dict_get key (data (self w)))
  /\ (exists more, errors (self w') = errors (self w) ++ more)
  /\ success_count (self w') + Z.of_nat (List.length (errors (self w')))
     = success_count (self w) + Z.of_nat (List.length (errors (self w)))
       + 365
  /\ time_sleep (delay (self w)) = Ok tt.
Proof.
  intros H. pose proof (fetch_all_sleeps net w w' H) as T.
  apply fetch_all_returns in H. subst w'.
  split; [apply fold_requested|].
  split; [|split; [|split; [|split]]].
  - intros i Hi. rewrite (calendar_keys_nth i Hi).
    apply fold_get_nth; [exact calendar_keys_nodup | exact Hi].
  - intros key N. now apply fold_get_other.
  - apply fold_errors_prefix.
  - rewrite fold_counters. reflexivity.
  - exact T.
Qed.

Lemma rerun_overwrites_calendar_keys_witness :
  fetch_all_365_days (RT := sample_runtime) (PF := sample_platform)
    net_down store_jan1
  = Ok (fold_left (fetch_step (RT := sample_runtime) net_down)
                  nonleap_calendar store_jan1)
  /\ dict_get (lit "01-01")
       (data (self (fold_left (fetch_step (RT := sample_runtime) net_down)
                              nonleap_calendar store_jan1))) = Some []
  /\ dict_get (lit "xx")
       (data (self (fold_left (fetch_step (RT := sample_runtime) net_down)
                              nonleap_calendar store_jan1)))
     = Some (lit "kept").
Proof.
  assert (H : fetch_all_365_days (RT := sample_runtime) (PF := sample_platform)
                net_down store_jan1
              = Ok (fold_left (fetch_step (RT := sample_runtime) net_down)
                              nonleap_calendar store_jan1))
    by (vm_compute; reflexivity).
  destruct (rerun_overwrites_calendar_keys (RT := sample_runtime)
              (PF := sample_platform) net_down store_jan1 _ H)
    as (_ & Cal & Other & _).
  split; [exact H|]. split.
  - exact (Cal 0%nat ltac:(lia)).
  - rewrite Other; [reflexivity|].
    apply not_in_check. vm_compute. reflexivity.
Defined.

(* ================================================================== *)
(** * The counters in closed form                                      *)
(* ================================================================== *)

(* ================================================================== *)
(** * The counters in closed form                                      *)
(* ================================================================== *)

Lemma firstn_snoc {A} (l : list A) (d : A) (k : nat) :
  (k < List.length l)%nat -> firstn (S k) l = firstn k l ++ [nth k l d].
Proof.
  revert k. induction l as [|x l IH]; intros k Hk; simpl in Hk; [lia|].
  destruct k as [|k]; trivial.
  change (firstn (S (S k)) (x :: l)) with (x :: firstn (S k) l).
  rewrite IH by lia. reflexivity.
Qed.

Lemma skipn_cons_nth {A} (l : list A) (d : A) (k : nat) :
  (k < List.length l)%nat -> skipn k l = nth k l d :: skipn (S k) l.
Proof.
  revert k. induction l as [|x l IH]; intros k Hk; simpl in Hk; [lia|].
  destruct k as [|k]; trivial.
  change (skipn (S k) (x :: l)) with (skipn k l).
  rewrite IH by lia. reflexivity.
Qed.

Lemma failed_indices_succ (net : network) (f : AnniversaryFetcher) (k : nat) :
  failed_indices net f (S k)
  = failed_indices net f k
    ++ (if request_fails (outcome_at net f k) then [k] else []).
Proof.
  unfold failed_indices. rewrite seq_S, filter_app. reflexivity.
Qed.

Lemma firstn_calendar : firstn 365 nonleap_calendar = nonleap_calendar.
Proof. vm_compute. reflexivity. Qed.
Section Counters.
Context {RT : PyRuntime}.
Variable net : network.


Lemma world_at_succ (k : nat) :
  (k < 365)%nat ->
  world_at net (S k) = fetch_step net (world_at net k) (nth k nonleap_calendar (0, 0)).
Proof.
  intros Hk. unfold world_at.
  rewrite (firstn_snoc _ (0, 0)) by exact Hk.
  now rewrite fold_left_app.
Qed.

Lemma world_at_requested (k : nat) :
  (k <= 365)%nat -> List.length (requested (world_at net k)) = k.
Proof.
  intros Hk. unfold world_at. rewrite fold_requested. simpl.
  rewrite length_map, length_firstn, nonleap_calendar_length. lia.
Qed.

Lemma world_at_url (k : nat) md :
  url_of (self (world_at net k)) md = url_of init md.
Proof. unfold url_of, world_at. now rewrite fold_base_url. Qed.

Lemma world_at_outcome (k : nat) :
  (k < 365)%nat ->
  net (List.length (requested (world_at net k)))
      (url_of (self (world_at net k)) (nth k nonleap_calendar (0, 0)))
  = outcome_at net init k.
Proof.
  intros Hk. rewrite world_at_requested by lia.
  now rewrite world_at_url.
Qed.

Lemma world_at_counters (k : nat) :
  (k <= 365)%nat ->
  errors (self (world_at net k))
  = map (failure_description net init) (failed_indices net init k)
  /\ success_count (self (world_at net k))
     = Z.of_nat k - Z.of_nat (List.length (failed_indices net init k)).
Proof.
  induction k as [|k IH]; intros Hk.
  - split; reflexivity.
  - destruct IH as [He Hs]; [lia|].
    rewrite world_at_succ by lia. unfold fetch_step. cbn [self].
    rewrite world_at_outcome by lia.
    rewrite failed_indices_succ, Nat2Z.inj_succ.
    destruct (after_fetch_counters (outcome_at net init k)
                (date_key_of (fst (nth k nonleap_calendar (0, 0)))
                             (snd (nth k nonleap_calendar (0, 0))))
                (self (world_at net k)))
      as [(-> & -> & ->) | (-> & -> & ->)].
    + rewrite !app_nil_r. split; [exact He | lia].
    + rewrite map_app, length_app, He. simpl. split; [|lia].
      unfold failure_description at 3.
      now rewrite (calendar_keys_nth k) by lia.
Qed.

Lemma world_at_end :
  world_at net 365 = fold_left (fetch_step net) nonleap_calendar start.
Proof. unfold world_at. now rewrite firstn_calendar. Qed.

Lemma run_values :
  dict_values (entries_from net init 0 nonleap_calendar)
  = map (fun i => stored_text (outcome_at net init i)) (seq 0 365).
Proof.
  apply (nth_ext _ _ [] []).
  - unfold dict_values. rewrite !length_map, length_seq.
    rewrite <- (length_map fst).
    change (map fst (entries_from net init 0 nonleap_calendar))
      with (dict_keys (entries_from net init 0 nonleap_calendar)).
    now rewrite entries_from_keys, length_map.
  - intros i Hi. unfold dict_values in *.
    assert (Hi' : (i < 365)%nat).
    { rewrite length_map in Hi. rewrite <- (length_map fst) in Hi.
      change (map fst (entries_from net init 0 nonleap_calendar))
        with (dict_keys (entries_from net init 0 nonleap_calendar)) in Hi.
      now rewrite entries_from_keys, length_map in Hi. }
    transitivity (snd (nth i (entries_from net init 0 nonleap_calendar)
                           (@nil N, @nil N))).
    { apply (map_nth snd _ (@nil N, @nil N)). }
    rewrite entries_from_nth by exact Hi'. cbn [snd].
    rewrite (nth_indep _ [] (stored_text (outcome_at net init 365)))
      by (now rewrite length_map, length_seq).
    rewrite (map_nth (fun i => stored_text (outcome_at net init i))
                     (seq 0 365) 365%nat i).
    rewrite seq_nth by exact Hi'. reflexivity.
Qed.

End Counters.

Lemma filter_complement_bound {A B} (p : B -> bool) (q : A -> bool)
  (g : A -> B) (l : list A) :
  (forall x, q x = true -> p (g x) = false) ->
  (List.length (filter p (map g l)) + List.length (filter q l)
   <= List.length l)%nat.
Proof.
  intros H. induction l as [|x l IH]; simpl; [lia|].
  destruct (q x) eqn:Q.
  - rewrite (H x Q). simpl. lia.
  - destruct (p (g x)); simpl; lia.
Qed.

Lemma run_counters {RT : PyRuntime} (net : network) :
  errors (self (fold_left (fetch_step net) nonleap_calendar start))
  = map (failure_description net init) (failed_indices net init 365)
  /\ success_count (self (fold_left (fetch_step net) nonleap_calendar start))
     = 365 - Z.of_nat (List.length (failed_indices net init 365)).
Proof.
  rewrite <- world_at_end. change 365 with (Z.of_nat 365).
  apply world_at_counters. apply le_n.
Qed.

Lemma run_fold_data {RT : PyRuntime} (net : network) :
  data (self (fold_left (fetch_step net) nonleap_calendar start))
  = entries_from net init 0 nonleap_calendar.
Proof. rewrite fold_data; [reflexivity | exact calendar_keys_nodup]. Qed.

Lemma entries_from_length {RT : PyRuntime} net f n ds :
  List.length (entries_from net f n ds) = List.length ds.
Proof.
  rewrite <- (length_map fst).
  change (map fst (entries_from net f n ds))
    with (dict_keys (entries_from net f n ds)).
  now rewrite entries_from_keys, length_map.
Qed.

(** X4: after a run that has returned on a fresh object the error list
    holds, in calendar order, the description of every date whose
    request failed, made of its key, a colon and the message of the
    exception, and nothing else; the success counter is the number of
    the other dates. *)
Theorem errors_are_the_failed_dates {RT : PyRuntime} {PF : Platform}
  (net : network) (w : world) :
  fetch_all_365_days net start = Ok w ->
  errors (self w)
  = map (failure_description net init) (failed_indices net init 365)
  /\ success_count (self w)
     = 365 - Z.of_nat (List.length (failed_indices net init 365))
  /\ (forall i, failure_description net init i
                = nth i (map mm_dd nonleap_calendar) [] ++ lit ": "
                  ++ failure_message (outcome_at net init i)).
Proof.
  intros H. apply fetch_all_returns in H. subst w.
  destruct (run_counters net) as [He Hs].
  split; [exact He|]. split; [exact Hs|].
  intros i. unfold failure_description. now rewrite calendar_keys_mm_dd.
Qed.

Lemma errors_are_the_failed_dates_witness :
  fetch_all_365_days (RT := sample_runtime) (PF := sample_platform)
    net_ok start = Ok world_ok
  /\ errors (self world_ok) = []
  /\ success_count (self world_ok) = 365.
Proof.
  assert (H : fetch_all_365_days (RT := sample_runtime) (PF := sample_platform)
                net_ok start = Ok world_ok) by (vm_compute; reflexivity).
  destruct (errors_are_the_failed_dates (RT := sample_runtime)
              (PF := sample_platform) net_ok world_ok H) as (He & Hs & _).
  split; [exact H|]. split.
  - rewrite He. vm_compute. reflexivity.
  - rewrite Hs. vm_compute. reflexivity.
Defined.

(** X5: after a run that has returned on a fresh object
    [print_statistics] reports 365 days, and the number of days it
    counts as having data, those whose text is not blank, is at most the
    success counter: a failed date always counts as without data, and so
    does a successful one whose text is blank. *)
Theorem statistics_after_run {RT : PyRuntime} {PF : Platform} (net : network)
  (w : world) :
  fetch_all_365_days net start = Ok w ->
  Z.of_nat (List.length (filter has_data (dict_values (data (self w)))))
  <= success_count (self w)
  /\ nth 1 (fst (print_statistics (self w))) []
     = [32207; 26085; 25968; 58; 32]%N ++ lit "365" ++ [26085%N]
  /\ nth 2 (fst (print_statistics (self w))) []
     = [12487; 12540; 12479; 21462; 24471; 25104; 21151; 58; 32]%N
       ++ str_of_int
            (Z.of_nat (List.length
               (filter has_data (dict_values (data (self w))))))
       ++ [26085%N]
  /\ List.length (fst (print_statistics (self w))) = 5%nat
  /\ snd (print_statistics (self w)) = Ok tt.
Proof.
  intros H. pose proof (run_length net w H) as L.
  apply fetch_all_returns in H.
  destruct (run_counters net) as [_ Hs].
  pose proof (run_fold_data net) as D.
  rewrite <- H in Hs, D. clear H.
  split; [|split; [|split; [|split]]].
  - rewrite Hs, D, run_values.
    pose proof (filter_complement_bound has_data
                  (fun i => request_fails (outcome_at net init i))
                  (fun i => stored_text (outcome_at net init i))
                  (seq 0 365)) as B.
    rewrite length_seq in B. unfold failed_indices.
    assert (P : forall i, request_fails (outcome_at net init i) = true ->
                          has_data (stored_text (outcome_at net init i)) = false).
    { intros i F. now rewrite (stored_text_failed _ F). }
    specialize (B P). lia.
  - unfold print_statistics. rewrite L.
    change (Z.of_nat 365 =? 0) with false. reflexivity.
  - unfold print_statistics. rewrite L.
    change (Z.of_nat 365 =? 0) with false. reflexivity.
  - unfold print_statistics. rewrite L.
    change (Z.of_nat 365 =? 0) with false. reflexivity.
  - now rewrite print_statistics_snd, L.
Qed.

Lemma statistics_after_run_witness :
  fetch_all_365_days (RT := sample_runtime) (PF := sample_platform)
    net_down start = Ok world_down
  /\ List.length (fst (print_statistics (RT := sample_runtime)
                         (self world_down))) = 5%nat.
Proof.
  assert (H : fetch_all_365_days (RT := sample_runtime) (PF := sample_platform)
                net_down start = Ok world_down) by (vm_compute; reflexivity).
  split; [exact H|].
  exact (proj1 (proj2 (proj2 (proj2
           (statistics_after_run (RT := sample_runtime) (PF := sample_platform)
              net_down world_down H))))).
Defined.

(* ================================================================== *)
(** * Events of a fetch and of the loop                                *)
(* ================================================================== *)

Lemma pacing_app (a b : list event) : pacing (a ++ b) = pacing a ++ pacing b.
Proof. apply filter_app. Qed.

Lemma pacing_prints {A} (f : A -> pystr) (l : list A) :
  filter (fun e => negb (is_print e)) (map (fun x => Print (f x)) l) = [].
Proof. induction l; trivial. Qed.

Lemma pacing_printed (lines : list pystr) : pacing (map Print lines) = [].
Proof. apply (pacing_prints (fun x => x)). Qed.

Section Console.
Context {RT : PyRuntime} {PF : Platform}.

Lemma pacing_extract (r : Response) :
  pacing (snd (extract_anniversary_text_io r)) = [].
Proof.
  unfold extract_anniversary_text_io.
  destruct (extract_try r) as [s | []]; reflexivity.
Qed.

Lemma pacing_diagnostic (o : net_result) : pacing (diagnostic o) = [].
Proof.
  unfold diagnostic. destruct o as [msg | r]; trivial.
  destruct (request_fails (NetResponse r)); [reflexivity | apply pacing_extract].
Qed.

Lemma pacing_fetch_events o key target :
  pacing (fetch_events o key target) = [Get target].
Proof.
  unfold fetch_events.
  change (Get target :: ?l) with ([Get target] ++ l).
  now rewrite !pacing_app, pacing_diagnostic.
Qed.

Lemma pacing_iteration net i w md :
  pacing (iteration_events net i w md)
  = Get (url_of (self w) md) :: (if i <? 364 then [Sleep] else []).
Proof.
  unfold iteration_events. rewrite !pacing_app, pacing_fetch_events.
  destruct ((i + 1) mod 30 =? 0); destruct (i <? 364); reflexivity.
Qed.

Lemma pacing_trace net :
  forall ds k w,
    (k + List.length ds = 365)%nat ->
    pacing (trace_of net (map Z.of_nat (seq k (List.length ds))) ds w)
    = intersperse Sleep (map (fun md => Get (url_of (self w) md)) ds).
Proof.
  induction ds as [|md ds IH]; intros k w Hk; trivial.
  cbn [List.length seq map trace_of].
  rewrite pacing_app, pacing_iteration, (IH (S k)) by (simpl in Hk; lia).
  rewrite (map_ext _ (fun md => Get (url_of (self w) md)))
    by (intros x; now rewrite fetch_step_url).
  destruct ds as [|md' ds].
  - simpl in Hk.
    destruct (Z.ltb_spec (Z.of_nat k) 364); [lia | reflexivity].
  - simpl in Hk.
    destruct (Z.ltb_spec (Z.of_nat k) 364); [reflexivity | lia].
Qed.

(** The events of a run that returns. *)
Lemma run_events net w w' :
  fetch_all_365_days net w = Ok w' ->
  exists minutes,
    estimated_minutes (delay (self w)) = Ok minutes
    /\ caused (fetch_all_365_days_io net w)
       = map Print (banner_lines (self w) minutes)
         ++ trace_of net (range 365) nonleap_calendar w
         ++ map Print (summary_lines (self w')).
Proof.
  intros H. pose proof (fetch_all_returns net w w' H) as E.
  apply fetch_all_value in H as [H _].
  apply fetch_all_io_ok in H as (minutes & M & _ & C & _).
  exists minutes. split; [exact M|]. rewrite C, <- E. reflexivity.
Qed.

Lemma loop_sleeps_pacing net w w' :
  fetch_all_365_days net w = Ok w' ->
  pacing (caused (fetch_all_365_days_io net w))
  = intersperse Sleep (map (fun md => Get (url_of (self w) md)) nonleap_calendar).
Proof.
  intros H. destruct (run_events net w w' H) as (minutes & _ & ->).
  rewrite !pacing_app, !pacing_printed, app_nil_r. cbn [app].
  apply (pacing_trace net nonleap_calendar 0 w). reflexivity.
Qed.

End Console.

Lemma sleeps_of_pacing (l : list event) :
  filter is_sleep l = filter is_sleep (pacing l).
Proof. induction l as [|[line | | target] l IH]; simpl; congruence. Qed.

Lemma sleeps_interspersed {A} (u : A -> pystr) (ds : list A) :
  List.length (filter is_sleep (intersperse Sleep (map (fun md => Get (u md)) ds)))
  = Nat.pred (List.length ds).
Proof.
  induction ds as [|md [|md' ds] IH]; trivial.
  change (List.length (filter is_sleep
            (intersperse Sleep (map (fun md => Get (u md)) (md' :: ds))))
          = Nat.pred (List.length (md' :: ds))) in IH.
  cbn [map intersperse filter is_sleep List.length Nat.pred] in *.
  now rewrite IH.
Qed.

(** X6: a run of the loop that returns has sent the 365 requests of the
    calendar and slept exactly once between two consecutive requests,
    364 times in all: never before the first request or after the last
    one, and a failed request is followed by the same single sleep as a
    successful one; its delay is one that [time.sleep] accepts. *)
Theorem loop_sleeps_between_requests {RT : PyRuntime} {PF : Platform}
  (net : network) (w w' : world) :
  fetch_all_365_days net w = Ok w' ->
  pacing (caused (fetch_all_365_days_io net w))
  = intersperse Sleep (map (fun md => Get (url_of (self w) md)) nonleap_calendar)
  /\ List.length (filter is_sleep (caused (fetch_all_365_days_io net w)))
     = 364%nat
  /\ time_sleep (delay (self w)) = Ok tt.
Proof.
  intros H. pose proof (loop_sleeps_pacing net w w' H) as P.
  split; [exact P|]. split; [|exact (fetch_all_sleeps net w w' H)].
  rewrite sleeps_of_pacing, P, sleeps_interspersed. reflexivity.
Qed.

Lemma loop_sleeps_between_requests_witness :
  fetch_all_365_days (RT := sample_runtime) (PF := sample_platform)
    net_down start = Ok world_down
  /\ List.length (filter is_sleep
                    (caused (fetch_all_365_days_io (RT := sample_runtime)
                               (PF := sample_platform) net_down start)))
     = 364%nat.
Proof.
  assert (H : fetch_all_365_days (RT := sample_runtime) (PF := sample_platform)
                net_down start = Ok world_down) by (vm_compute; reflexivity).
  split; [exact H|].
  exact (proj1 (proj2 (loop_sleeps_between_requests (RT := sample_runtime)
                         (PF := sample_platform) net_down start world_down H))).
Defined.



(* ================================================================== *)
(** * The lines printed by a run                                       *)
(* ================================================================== *)

Lemma starts_with_app (p s : pystr) : starts_with p (p ++ s) = true.
Proof. induction p as [|c p IH]; simpl; [|rewrite N.eqb_refl]; trivial. Qed.

Lemma filter_none {A} (p : A -> bool) (l : list A) :
  (forall x, In x l -> p x = false) -> filter p l = [].
Proof.
  induction l as [|x l IH]; intros H; simpl; trivial.
  rewrite (H x (or_introl eq_refl)). apply IH. intros y Hy. apply H. now right.
Qed.

Lemma flat_map_ext_in {A B} (f g : A -> list B) (l : list A) :
  (forall x, In x l -> f x = g x) -> flat_map f l = flat_map g l.
Proof.
  induction l as [|x l IH]; intros H; simpl; trivial.
  rewrite (H x (or_introl eq_refl)), IH; trivial.
  intros y Hy. apply H. now right.
Qed.

Lemma flat_map_nil {A B} (f : A -> list B) (l : list A) :
  (forall x, f x = []) -> flat_map f l = [].
Proof. intros H. induction l as [|x l IH]; simpl; [|rewrite H, IH]; trivial. Qed.

Lemma filter_all {A} (p : A -> bool) (l : list A) :
  (forall x, In x l -> p x = true) -> filter p l = l.
Proof.
  induction l as [|x l IH]; intros H; simpl; trivial.
  rewrite (H x (or_introl eq_refl)), IH; trivial.
  intros y Hy. apply H. now right.
Qed.

Section Lines.
Context {RT : PyRuntime} {PF : Platform}.
Variable net : network.

(** A prefix that starts with none of the marks of the lines of a
    fetch. *)
Variable c : N.
Variable p : pystr.
Hypothesis not_ok : c <> 10003%N.
Hypothesis not_fail : c <> 10007%N.
Hypothesis not_extract : c <> 12487%N.

Let P (line : pystr) : bool := starts_with (c :: p) line.

Lemma first_char_differs (c' : N) (s : pystr) : c <> c' -> P (c' :: s) = false.
Proof.
  intros H. unfold P. simpl.
  destruct (N.eqb_spec c c'); [contradiction | reflexivity].
Qed.

Lemma filter_extract_lines (r : Response) :
  filter P (printed_lines (snd (extract_anniversary_text_io r))) = [].
Proof.
  unfold extract_anniversary_text_io.
  destruct (extract_try r) as [s | []]; cbn [snd printed_lines flat_map app];
    trivial;
    unfold Msg.extract_error; cbn [app filter];
    now rewrite first_char_differs.
Qed.

Lemma filter_fetch_lines o key target :
  filter P (printed_lines (fetch_events o key target)) = [].
Proof.
  unfold fetch_events.
  change (Get target :: ?l) with ([Get target] ++ l).
  rewrite !printed_lines_app, !filter_app.
  assert (D : filter P (printed_lines (diagnostic o)) = []).
  { unfold diagnostic. destruct o as [msg | r]; trivial.
    destruct (request_fails (NetResponse r)); trivial.
    apply filter_extract_lines. }
  rewrite D. cbn [printed_lines flat_map app filter].
  unfold fetch_line, Msg.ok_mark, Msg.fail_mark.
  destruct (request_fails o); cbn [app]; now rewrite first_char_differs.
Qed.

Lemma filter_iteration_lines i w md :
  filter P (printed_lines (iteration_events net i w md))
  = filter P (printed_lines
                (if (i + 1) mod 30 =? 0
                 then progress_events (i + 1) (self (fetch_step net w md))
                 else [])).
Proof.
  unfold iteration_events.
  rewrite !printed_lines_app, !filter_app, filter_fetch_lines.
  destruct (i <? 364); cbn [printed_lines flat_map app filter];
    now rewrite app_nil_r.
Qed.

Lemma filter_trace_lines :
  forall n k,
    (k + n = 365)%nat ->
    filter P (printed_lines
                (trace_of net (map Z.of_nat (seq k n))
                          (skipn k nonleap_calendar) (world_at net k)))
    = flat_map
        (fun i => filter P
           (printed_lines
              (if (Z.of_nat i + 1) mod 30 =? 0
               then progress_events (Z.of_nat i + 1) (self (world_at net (S i)))
               else [])))
        (seq k n).
Proof.
  induction n as [|n IH]; intros k Hk.
  - simpl. reflexivity.
  - rewrite (skipn_cons_nth _ (0, 0) k)
      by (rewrite nonleap_calendar_length; lia).
    cbn [seq map trace_of flat_map].
    rewrite printed_lines_app, filter_app, filter_iteration_lines.
    rewrite <- world_at_succ by lia.
    rewrite IH by lia. reflexivity.
Qed.

End Lines.

Section Progress.
Context {RT : PyRuntime} {PF : Platform}.
Variable net : network.

Lemma progress_events_lines (i : nat) :
  (i < 365)%nat ->
  printed_lines (progress_events (Z.of_nat i + 1) (self (world_at net (S i))))
  = [progress_line (Z.of_nat i + 1); counts_line net (S i)].
Proof.
  intros Hi. unfold progress_events, tally_line, counts_line, failures_in.
  destruct (world_at_counters net (S i)) as [-> ->]; [lia|].
  rewrite length_map. reflexivity.
Qed.

(** The lines of a run that returns from a fresh object. *)
Lemma run_lines (w : world) :
  fetch_all_365_days net start = Ok w ->
  exists minutes,
    estimated_minutes (delay init) = Ok minutes
    /\ printed_lines (caused (fetch_all_365_days_io net start))
       = banner_lines init minutes
         ++ printed_lines (trace_of net (map Z.of_nat (seq 0 365))
                                    (skipn 0 nonleap_calendar) (world_at net 0))
         ++ summary_lines (self w)
    /\ errors (self w)
       = map (failure_description net init) (failed_indices net init 365)
    /\ success_count (self w)
       = 365 - Z.of_nat (List.length (failed_indices net init 365)).
Proof.
  intros H. destruct (run_events net start w H) as (minutes & M & ->).
  exists minutes. split; [exact M|]. split.
  - now rewrite !printed_lines_app, !printed_lines_print.
  - apply fetch_all_returns in H. subst w. apply run_counters.
Qed.

End Progress.

(** X7: during a run that returns from a fresh object the progress
    block is printed twelve times, after 30, 60, ... and 360 dates and
    not after the 365th; the block after n dates shows n, and counts of
    successes and errors that add up to n, the errors being the requests
    that failed among the first n. *)
Theorem progress_every_thirty_dates {RT : PyRuntime} {PF : Platform}
  (net : network) (w : world) :
  fetch_all_365_days net start = Ok w ->
  filter (starts_with Msg.progress_head)
         (printed_lines (caused (fetch_all_365_days_io net start)))
  = map (fun k => progress_line (30 * Z.of_nat k)) (seq 1 12)
  /\ filter (starts_with Msg.success_label)
            (printed_lines (caused (fetch_all_365_days_io net start)))
     = map (fun k => counts_line net (30 * k)) (seq 1 12)
       ++ [Msg.success_label ++ str_of_int (365 - failures_in net 365)
           ++ Msg.of_365].
Proof.
  intros H. unfold failures_in.
  destruct (run_lines net w H) as (minutes & _ & -> & He & Hs).
  unfold summary_lines. rewrite !filter_app.
  rewrite Hs, He, length_map.
  split.
  - unfold Msg.progress_head at 1 2 3.
    rewrite (filter_trace_lines net 10%N) by (discriminate || reflexivity).
    rewrite (flat_map_ext_in _
               (fun i => if (Z.of_nat i + 1) mod 30 =? 0
                         then [progress_line (Z.of_nat i + 1)] else [])).
    + assert (S1 : forall l : list pystr,
                 filter (starts_with Msg.progress_head)
                        (map (fun error => Msg.bullet ++ error) l) = []).
      { intros l. apply filter_none. intros x Hx.
        apply in_map_iff in Hx as [e [<- _]]. reflexivity. }
      assert (S2 : filter (starts_with Msg.progress_head)
                     (match map (failure_description net init)
                              (failed_indices net init 365) with
                      | [] => []
                      | _ :: _ =>
                          Msg.details_head
                          :: map (fun error => Msg.bullet ++ error)
                               (slice_to
                                  (map (failure_description net init)
                                       (failed_indices net init 365)) 3)
                      end) = []).
      { destruct (map _ _); trivial. cbn [filter].
        change (starts_with Msg.progress_head _) with false at 1.
        apply S1. }
      fold Msg.progress_head. rewrite S2.
      change (filter (starts_with Msg.progress_head)
                     (banner_lines init minutes))
        with (@nil pystr).
      cbn [app filter].
      change (starts_with Msg.progress_head Msg.done_head) with false.
      change (starts_with Msg.progress_head (Msg.success_label ++ _))
        with false.
      change (starts_with Msg.progress_head (Msg.error_label ++ _))
        with false.
      cbv iota. rewrite app_nil_r.
      generalize (@progress_line PF). intros h.
      vm_compute. reflexivity.
    + intros i Hi. apply in_seq in Hi.
      destruct ((Z.of_nat i + 1) mod 30 =? 0); [|reflexivity].
      rewrite progress_events_lines by lia. reflexivity.
  - unfold Msg.success_label at 1 2 3.
    rewrite (filter_trace_lines net 25104%N) by (discriminate || reflexivity).
    rewrite (flat_map_ext_in _
               (fun i => if (Z.of_nat i + 1) mod 30 =? 0
                         then [counts_line net (S i)] else [])).
    + assert (S1 : forall l : list pystr,
                 filter (starts_with Msg.success_label)
                        (map (fun error => Msg.bullet ++ error) l) = []).
      { intros l. apply filter_none. intros x Hx.
        apply in_map_iff in Hx as [e [<- _]]. reflexivity. }
      assert (S2 : filter (starts_with Msg.success_label)
                     (match map (failure_description net init)
                              (failed_indices net init 365) with
                      | [] => []
                      | _ :: _ =>
                          Msg.details_head
                          :: map (fun error => Msg.bullet ++ error)
                               (slice_to
                                  (map (failure_description net init)
                                       (failed_indices net init 365)) 3)
                      end) = []).
      { destruct (map _ _); trivial. cbn [filter].
        change (starts_with Msg.success_label _) with false at 1.
        apply S1. }
      fold Msg.success_label. rewrite S2.
      change (filter (starts_with Msg.success_label)
                     (banner_lines init minutes))
        with (@nil pystr).
      cbn [app filter].
      change (starts_with Msg.success_label Msg.done_head) with false.
      rewrite starts_with_app.
      change (starts_with Msg.success_label (Msg.error_label ++ _))
        with false.
      cbv iota.
      apply (f_equal (fun l => l ++ [Msg.success_label ++ _])).
      generalize (counts_line net). intros h.
      vm_compute. reflexivity.
    + intros i Hi. apply in_seq in Hi.
      destruct ((Z.of_nat i + 1) mod 30 =? 0); [|reflexivity].
      rewrite progress_events_lines by lia. reflexivity.
Qed.

Lemma progress_every_thirty_dates_witness :
  fetch_all_365_days (RT := sample_runtime) (PF := sample_platform)
    net_down start = Ok world_down
  /\ List.length
       (filter (starts_with Msg.progress_head)
          (printed_lines (caused (fetch_all_365_days_io (RT := sample_runtime)
                                    (PF := sample_platform) net_down start))))
     = 12%nat.
Proof.
  assert (H : fetch_all_365_days (RT := sample_runtime) (PF := sample_platform)
                net_down start = Ok world_down) by (vm_compute; reflexivity).
  split; [exact H|].
  rewrite (proj1 (progress_every_thirty_dates (RT := sample_runtime)
                    (PF := sample_platform) net_down world_down H)).
  reflexivity.
Defined.

(** X8: at its end a run that returns from a fresh object prints, as
    details, the descriptions of the first three dates that failed, in
    calendar order, each after two spaces, a hyphen and a space; it
    prints no such line when no date failed, and never more than
    three. *)
Theorem summary_lists_first_three_failures
  {RT : PyRuntime} {PF : Platform} (net : network) (w : world) :
  fetch_all_365_days net start = Ok w ->
  filter (starts_with Msg.bullet)
         (printed_lines (caused (fetch_all_365_days_io net start)))
  = map (fun i => Msg.bullet ++ failure_description net init i)
        (firstn 3 (failed_indices net init 365)).
Proof.
  intros H.
  destruct (run_lines net w H) as (minutes & _ & -> & He & _).
  unfold summary_lines. rewrite !filter_app. rewrite He.
  unfold Msg.bullet at 1 2 3.
  rewrite (filter_trace_lines net 32%N) by (discriminate || reflexivity).
  rewrite flat_map_nil
    by (intros i; now destruct ((Z.of_nat i + 1) mod 30 =? 0)).
  fold Msg.bullet.
  change (filter (starts_with Msg.bullet) (banner_lines init minutes))
    with (@nil pystr).
  cbn [app filter].
  change (starts_with Msg.bullet Msg.done_head) with false.
  change (starts_with Msg.bullet (Msg.success_label ++ _)) with false.
  change (starts_with Msg.bullet (Msg.error_label ++ _)) with false.
  cbv iota.
  destruct (failed_indices net init 365) as [|i l]; [reflexivity|].
  cbn [map filter].
  change (starts_with Msg.bullet Msg.details_head) with false. cbv iota.
  rewrite filter_all.
  - unfold slice_to. change (0 <=? 3) with true. cbv iota.
    change (Z.to_nat 3) with 3%nat.
    change (failure_description net init i
            :: map (failure_description net init) l)
      with (map (failure_description net init) (i :: l)).
    now rewrite firstn_map, map_map.
  - intros x Hx. apply in_map_iff in Hx as [e [<- _]].
    apply starts_with_app.
Qed.

Lemma summary_lists_first_three_failures_witness :
  fetch_all_365_days (RT := sample_runtime) (PF := sample_platform)
    net_down start = Ok world_down
  /\ filter (starts_with Msg.bullet)
       (printed_lines (caused (fetch_all_365_days_io (RT := sample_runtime)
                                 (PF := sample_platform) net_down start)))
     = [Msg.bullet ++ lit "01-01: timed out";
        Msg.bullet ++ lit "01-02: timed out";
        Msg.bullet ++ lit "01-03: timed out"].
Proof.
  assert (H : fetch_all_365_days (RT := sample_runtime) (PF := sample_platform)
                net_down start = Ok world_down) by (vm_compute; reflexivity).
  split; [exact H|].
  rewrite (summary_lists_first_three_failures (RT := sample_runtime)
             (PF := sample_platform) net_down world_down H).
  vm_compute. reflexivity.
Defined.
Lemma preview_of_length (anniversary_text : pystr) :
  (List.length (preview_of anniversary_text) <= 53)%nat.
Proof.
  unfold preview_of, PyStr.len.
  destruct (Z.ltb_spec 50 (Z.of_nat (List.length anniversary_text))).
  - rewrite length_app, length_firstn.
    change (List.length (lit "...")) with 3%nat.
    pose proof (Nat.le_min_l 50 (List.length anniversary_text)). lia.
  - lia.
Qed.

(** X9: a call of [fetch_single_date] that returns has sent its one
    request, to the base URL followed by a slash and the four digits
    MMDD, and then printed one line for the date: a check mark, the key
    and the stored text cut to 50 characters plus three dots when it is
    longer, or a cross and the very description it appended to the error
    list.  A call that raises has sent the same request and printed no
    line for the date. *)
Theorem fetch_prints_one_line {RT : PyRuntime} (net : network)
  (m d : Z) (w w' : world) (ok : bool) :
  fetch_single_date net m d w = Ok (w', ok) ->
  (exists diagnostics line,
      caused (fetch_single_date_io net m d w)
      = Get (base_url (self w) ++ lit "/" ++ fmt_02d m ++ fmt_02d d)
        :: diagnostics ++ [Print line]
      /\ pacing diagnostics = []
      /\ line = (if ok
                 then Msg.ok_mark ++ date_key_of m d ++ lit ": "
                      ++ preview_of (getitem (data (self w')) (date_key_of m d))
                 else Msg.fail_mark ++ last (errors (self w')) [])
      /\ printable line = true
      /\ (List.length (preview_of (getitem (data (self w')) (date_key_of m d)))
          <= 53)%nat)
  /\ (forall w0,
         raises (fetch_single_date net m d w0) = true ->
         exists diagnostics,
           caused (fetch_single_date_io net m d w0)
           = Get (base_url (self w0) ++ lit "/" ++ fmt_02d m ++ fmt_02d d)
             :: diagnostics
           /\ pacing diagnostics = []
           /\ printed_lines diagnostics
              = printed_lines
                  (diagnostic (net (List.length (requested w0))
                                   (url_of (self w0) (m, d))))).
Proof.
  intros H. split.
  - apply fetch_single_date_returns in H as (P & -> & ->).
    rewrite fetch_single_date_io_eq, P. cbn [caused].
    set (o := net _ _) in *.
    assert (G : getitem (data (self (fetch_step net w (m, d)))) (date_key_of m d)
                = stored_text o).
    { unfold fetch_step, getitem. cbn [self fst snd]. fold o.
      now rewrite after_fetch_data, dict_get_set. }
    exists (diagnostic o), (fetch_line o (date_key_of m d)).
    split; [reflexivity|]. split; [apply pacing_diagnostic|].
    split; [|split; [exact P | apply preview_of_length]].
    unfold fetch_line. destruct (request_fails o) eqn:F; cbn [negb].
    + unfold fetch_step, after_fetch. cbn [self fst snd]. fold o. rewrite F.
      cbn [errors set_data append_error]. now rewrite last_last.
    + now rewrite G.
  - intros w0 R. unfold fetch_single_date, returned in R.
    rewrite fetch_single_date_io_eq in *.
    destruct (printable _); cbn [value raises] in R; [discriminate|].
    cbn [caused]. eexists. split; [reflexivity|].
    split; [apply pacing_diagnostic | reflexivity].
Qed.

Lemma fetch_prints_one_line_witness :
  fetch_single_date (RT := sample_runtime) net_down 1 1 start
  = Ok (fetch_step (RT := sample_runtime) net_down start (1, 1), false)
  /\ printed_lines (caused (fetch_single_date_io (RT := sample_runtime)
                              net_down 1 1 start))
     = [Msg.fail_mark ++ lit "01-01: timed out"].
Proof.
  assert (H : fetch_single_date (RT := sample_runtime) net_down 1 1 start
              = Ok (fetch_step (RT := sample_runtime) net_down start (1, 1),
                    false)) by (vm_compute; reflexivity).
  split; [exact H|].
  destruct (proj1 (fetch_prints_one_line (RT := sample_runtime) net_down 1 1
                     start _ _ H)) as (diagnostics & line & C & _ & L & _).
  vm_compute. reflexivity.
Defined.

(** X10: the extractor prints a diagnostic, the label followed by the
    message of the exception, exactly when [response.json()] raises
    something other than a JSONDecodeError; the text it returns is the
    same with or without the diagnostic. *)
Theorem extract_diagnostic_only_for_other_errors {RT : PyRuntime}
  (response : Response) :
  fst (extract_anniversary_text_io response)
  = extract_anniversary_text response
  /\ snd (extract_anniversary_text_io response)
     = match json response with
       | Ok _ => []
       | Raise (JSONDecodeError _) => []
       | Raise e => [Print (Msg.extract_error ++ exn_message e)]
       end.
Proof.
  split; [apply extract_io_fst|].
  unfold extract_anniversary_text_io.
  destruct (json response) as [v | e] eqn:J.
  - destruct (extract_try response) as [s | e'] eqn:T; trivial.
    apply extract_try_raise in T. congruence.
  - rewrite (proj2 (extract_try_raise response e) J).
    now destruct e.
Qed.

(* ================================================================== *)
(** * [main]                                                           *)
(* ================================================================== *)

Lemma export_file (saved failed filename content : pystr) (io : io_outcome) :
  file (export_to saved failed filename content io)
  = if io_worked io then write_utf8 content else NotWritten.
Proof.
  unfold export_to, write_utf8.
  destruct io as [e|]; cbn [io_worked file]; trivial.
  destruct (printable content); reflexivity.
Qed.

Lemma export_interrupted (saved failed filename content : pystr)
  (io : io_outcome) (e : exn) :
  file (export_to saved failed filename content io) = Interrupted e ->
  e = UnicodeEncodeError
  /\ finished (export_to saved failed filename content io) = Raise e
  /\ reported (export_to saved failed filename content io) = []
  /\ io = None /\ printable content = false.
Proof.
  unfold export_to.
  destruct io as [msg|]; cbn [file]; [discriminate|].
  destruct (printable content); cbn [file finished reported]; [discriminate|].
  intros [= <-]. repeat split.
Qed.

(** X11: a run of [main] that reaches its end has completed the loop on
    a fresh object with the delay of one second, has called both
    exporters, each file being written in full exactly when the file
    system lets it be written, a refusal for one leaving the other as it
    is; the only requests and sleeps of the program are those of the
    loop, and its last line names the JSON file.  When the CSV file
    cannot be encoded, [main] ends with the UnicodeEncodeError of
    [save_to_csv] and never calls [save_to_json]. *)
Theorem main_reaching_its_end {RT : PyRuntime} {PF : Platform}
  (net : network) (csv_io json_io : io_outcome) :
  ended (main net csv_io json_io) = Ok tt ->
  (exists w,
      fetch_all_365_days net start = Ok w
      /\ csv_file (main net csv_io json_io)
         = Some (if io_worked csv_io then Written (csv_content (self w))
                 else NotWritten)
      /\ json_file (main net csv_io json_io)
         = Some (if io_worked json_io
                 then Written (json_dump_indent2 (sorted_data (self w)))
                 else NotWritten)
      /\ csv_file (main net csv_io json_io)
         = Some (save_to_csv (io_worked csv_io) (self w))
      /\ json_file (main net csv_io json_io)
         = Some (save_to_json (io_worked json_io) (self w)))
  /\ pacing (events (main net csv_io json_io))
     = intersperse Sleep (map (fun md => Get (url_of init md)) nonleap_calendar)
  /\ last (events (main net csv_io json_io)) Sleep = Print Msg.main_json
  /\ (forall net' csv_io' json_io' e,
         csv_file (main net' csv_io' json_io') = Some (Interrupted e) ->
         e = UnicodeEncodeError
         /\ ended (main net' csv_io' json_io') = Raise UnicodeEncodeError
         /\ json_file (main net' csv_io' json_io') = None).
Proof.
  intros H.
  apply main_ok in H as (w & R & _ & _ & F1 & F2 & C & J & E).
  split; [|split; [|split]].
  - exists w. split; [exact R|].
    assert (Fc : file (save_to_csv_io csv_io (self w))
                 = save_to_csv (io_worked csv_io) (self w))
      by apply export_file.
    assert (Fj : file (save_to_json_io json_io (self w))
                 = save_to_json (io_worked json_io) (self w))
      by apply export_file.
    rewrite C, J, Fc, Fj.
    assert (Wc : save_to_csv (io_worked csv_io) (self w)
                 = if io_worked csv_io then Written (csv_content (self w))
                   else NotWritten).
    { destruct csv_io as [msg|]; [reflexivity|].
      cbn [io_worked save_to_csv]. unfold write_utf8.
      unfold save_to_csv_io, export_to in F1.
      destruct (printable (csv_content (self w)));
        cbn [finished] in F1; [reflexivity | discriminate]. }
    assert (Wj : save_to_json (io_worked json_io) (self w)
                 = if io_worked json_io
                   then Written (json_dump_indent2 (sorted_data (self w)))
                   else NotWritten).
    { destruct json_io as [msg|]; [reflexivity|].
      cbn [io_worked save_to_json]. unfold write_utf8.
      unfold save_to_json_io, export_to in F2.
      destruct (printable (json_dump_indent2 (sorted_data (self w))));
        cbn [finished] in F2; [reflexivity | discriminate]. }
    rewrite <- Wc, <- Wj. repeat split.
  - rewrite E. change [Print Msg.main_title; Print Msg.main_note]
      with (map Print [Msg.main_title; Msg.main_note]).
    rewrite !pacing_app, !pacing_printed, (loop_sleeps_pacing net start w R).
    cbn [app]. now rewrite app_nil_r.
  - rewrite E. rewrite !app_assoc.
    change (map Print main_closing)
      with ([Print Msg.main_done; Print Msg.main_files; Print Msg.main_csv]
            ++ [Print Msg.main_json]).
    rewrite !app_assoc. apply last_last.
  - intros net' csv_io' json_io' e. unfold main.
    destruct (value (main_fetch_and_report net' start)) as [[] | e0];
      cbn [csv_file]; [|discriminate].
    set (f := self (after (main_fetch_and_report net' start))).
    clearbody f.
    destruct (finished (save_to_csv_io csv_io' f)) as [[] | e1] eqn:F1'.
    + destruct (finished (save_to_json_io json_io' f)) as [[] | e2];
        cbn [csv_file]; intros [= I];
        apply export_interrupted in I as (_ & Fin & _);
        unfold save_to_csv_io in F1'; congruence.
    + cbn [csv_file ended json_file]. intros [= I].
      apply export_interrupted in I as (-> & Fin & _).
      unfold save_to_csv_io in F1'. rewrite Fin in F1'.
      injection F1' as <-. repeat split.
Qed.

Lemma main_reaching_its_end_witness :
  ended (main (RT := sample_runtime) (PF := sample_platform)
           net_ok None (Some (lit "disk full"))) = Ok tt
  /\ csv_file (main (RT := sample_runtime) (PF := sample_platform)
                 net_ok None (Some (lit "disk full")))
     = Some (Written (csv_content (self world_ok)))
  /\ json_file (main (RT := sample_runtime) (PF := sample_platform)
                  net_ok None (Some (lit "disk full")))
     = Some NotWritten
  /\ ended (main (RT := sample_runtime) (PF := sample_platform)
              net_late_surrogate None None) = Raise UnicodeEncodeError
  /\ json_file (main (RT := sample_runtime) (PF := sample_platform)
                  net_late_surrogate None None) = None.
Proof.
  assert (H : ended (main (RT := sample_runtime) (PF := sample_platform)
                       net_ok None (Some (lit "disk full"))) = Ok tt)
    by (vm_compute; reflexivity).
  destruct (main_reaching_its_end (RT := sample_runtime)
              (PF := sample_platform) net_ok None (Some (lit "disk full")) H)
    as ((w & R & C & J & _) & _ & _ & I).
  assert (Hw : fetch_all_365_days (RT := sample_runtime)
                 (PF := sample_platform) net_ok start = Ok world_ok)
    by (vm_compute; reflexivity).
  rewrite Hw in R. injection R as <-.
  split; [exact H|]. split; [exact C|]. split; [exact J|].
  assert (Hi : csv_file (main (RT := sample_runtime) (PF := sample_platform)
                           net_late_surrogate None None)
               = Some (Interrupted UnicodeEncodeError))
    by (vm_compute; reflexivity).
  destruct (I net_late_surrogate None None _ Hi) as (_ & En & Js).
  split; [exact En | exact Js].
Defined.

(* ================================================================== *)
(** * Line structure of the two files                                  *)
(* ================================================================== *)

Lemma list_sum_perm (l l' : list nat) :
  Permutation l l' -> list_sum l = list_sum l'.
Proof.
  induction 1; simpl; try lia.
Qed.

Lemma line_count_rows_sum (rows : list (list pystr)) :
  Csv.line_count (concat (map Csv.writerow rows))
  = (List.length rows
     + list_sum (map (fun r => list_sum (map Csv.line_count r)) rows))%nat.
Proof.
  induction rows as [|r rows IH]; trivial.
  cbn [map concat List.length list_sum fold_right].
  rewrite line_count_app, line_count_writerow, IH.
  unfold list_sum. lia.
Qed.

Lemma printable_app (a b : pystr) :
  printable (a ++ b) = printable a && printable b.
Proof. apply forallb_app. Qed.

Lemma write_field_printable (field : pystr) :
  printable (Csv.write_field field) = printable field.
Proof.
  unfold Csv.write_field.
  assert (B : printable
                (flat_map (fun c => if (c =? Csv.quotechar)%N then [c; c] else [c])
                          field)
              = printable field).
  { induction field as [|c field IH]; trivial.
    cbn [flat_map]. rewrite printable_app, IH.
    change (printable (c :: field))
      with (utf8_encodable c && printable field).
    f_equal. destruct (c =? Csv.quotechar)%N; cbn [printable forallb];
      destruct (utf8_encodable c); reflexivity. }
  destruct (existsb Csv.special field); trivial.
  rewrite !printable_app, B. cbn. now rewrite andb_true_r.
Qed.

Lemma join_printable (sep : pystr) (parts : list pystr) :
  printable sep = true -> printable (join sep parts) = forallb printable parts.
Proof.
  intros S. induction parts as [|x parts IH]; trivial.
  destruct parts as [|y parts].
  - cbn [join forallb]. now rewrite andb_true_r.
  - change (join sep (x :: y :: parts)) with (x ++ sep ++ join sep (y :: parts)).
    rewrite !printable_app, S, IH. reflexivity.
Qed.

Lemma writerow_printable (fields : list pystr) :
  printable (Csv.writerow fields) = forallb printable fields.
Proof.
  unfold Csv.writerow. rewrite printable_app.
  change (printable Csv.lineterminator) with true. rewrite andb_true_r.
  assert (J : printable (join [Csv.delimiter] (map Csv.write_field fields))
              = forallb printable fields).
  { rewrite join_printable by reflexivity.
    induction fields as [|f fields IH]; trivial.
    cbn [map forallb]. now rewrite write_field_printable, IH. }
  rewrite <- J.
  destruct fields as [|f fields]; trivial.
  now destruct (join [Csv.delimiter] (map Csv.write_field (f :: fields))).
Qed.

(** X12: when [save_to_csv] writes its file, for any store, the file
    has one line per row, the header included, plus one line for every
    line feed inside a key or a text; it writes the file exactly when
    the file system lets it and no key or text holds a surrogate. *)
Theorem csv_lines_count (f : AnniversaryFetcher) (csv : pystr) :
  dict_wf (data f) ->
  save_to_csv true f = Written csv ->
  Csv.line_count csv
  = (S (List.length (data f)) + line_feeds_in (data f))%nat
  /\ List.length (csv_rows f) = S (List.length (data f))
  /\ csv = concat (map Csv.writerow (csv_rows f))
  /\ forallb (fun kv => printable (fst kv) && printable (snd kv)) (data f)
     = true.
Proof.
  intros W Hcsv. unfold save_to_csv in Hcsv.
  apply write_utf8_written in Hcsv as [-> Pr].
  assert (R : csv_rows f
              = [lit "date"; lit "name"]
                :: map (fun kv => [fst kv; snd kv])
                       (sorted tuple_ltb (dict_items (data f)))).
  { unfold csv_rows. rewrite (sorted_items_by_key _ W), map_map. reflexivity. }
  assert (L : List.length (sorted tuple_ltb (dict_items (data f)))
              = List.length (data f)).
  { symmetry. apply Permutation_length, sorted_perm. }
  split; [|split; [|split]].
  - unfold csv_content. rewrite line_count_rows_sum, R.
    cbn [map List.length list_sum fold_right].
    rewrite length_map, L, map_map.
    change (Csv.line_count (lit "date") + (Csv.line_count (lit "name") + 0))%nat
      with 0%nat.
    unfold line_feeds_in.
    rewrite (list_sum_perm
               (map (fun kv => (Csv.line_count (fst kv)
                                + Csv.line_count (snd kv))%nat) (data f))
               (map (fun kv => (Csv.line_count (fst kv)
                                + Csv.line_count (snd kv))%nat)
                    (sorted tuple_ltb (dict_items (data f)))))
      by (apply Permutation_map, sorted_perm).
    unfold list_sum. cbn [plus]. do 2 f_equal. f_equal.
    apply map_ext. intros kv. cbn [map fold_right]. lia.
  - rewrite R. cbn [List.length]. now rewrite length_map, L.
  - reflexivity.
  - apply forallb_forall. intros kv Hin.
    unfold csv_content in Pr. rewrite R in Pr. cbn [map concat] in Pr.
    unfold printable in Pr. rewrite forallb_app in Pr.
    apply andb_true_iff in Pr as [_ Pr].
    assert (Hs : In kv (sorted tuple_ltb (dict_items (data f)))).
    { apply (Permutation_in kv (sorted_perm _ tuple_ltb _)). exact Hin. }
    clear - Pr Hs.
    induction (sorted tuple_ltb (dict_items (data f))) as [|x l IH];
      [destruct Hs|].
    cbn [map concat] in Pr. rewrite forallb_app in Pr.
    apply andb_true_iff in Pr as [Px Pl].
    destruct Hs as [-> | Hs]; [|now apply IH].
    clear - Px. rewrite writerow_printable in Px.
    cbn [forallb] in Px. now rewrite andb_true_r in Px.
Qed.

Lemma csv_lines_count_witness :
  save_to_csv true store_a = Written (csv_content store_a)
  /\ Csv.line_count (csv_content store_a) = 3%nat.
Proof.
  assert (W : dict_wf (data store_a))
    by (apply all_distinct_sound; vm_compute; reflexivity).
  assert (H : save_to_csv true store_a = Written (csv_content store_a))
    by (vm_compute; reflexivity).
  split; [exact H|].
  rewrite (proj1 (csv_lines_count store_a _ W H)). reflexivity.
Defined.

Section JsonLines.
Context {RT : PyRuntime}.

Lemma hexdigit_printable (n : N) : (32 <= hexdigit n)%N.
Proof.
  unfold hexdigit.
  destruct (nth_in_or_default (N.to_nat n) (lit "0123456789abcdef") 48%N)
    as [Hin | ->]; [|lia].
  revert Hin. generalize (nth (N.to_nat n) (lit "0123456789abcdef") 48%N).
  intros c Hin. simpl in Hin.
  repeat (destruct Hin as [<- | Hin]; [lia|]). destruct Hin.
Qed.

Lemma json_escape_printable (c : N) :
  Forall (fun x => (32 <= x)%N) (json_escape c).
Proof.
  unfold json_escape.
  repeat match goal with
         | |- context [(c =? ?b)%N] =>
             destruct (N.eqb_spec c b);
             [vm_compute lit; repeat constructor; lia|]
         end.
  destruct (N.ltb_spec c 32).
  - vm_compute lit. repeat constructor; try lia; apply hexdigit_printable.
  - repeat constructor. exact H.
Qed.

Lemma json_string_printable (s : pystr) :
  Forall (fun x => (32 <= x)%N) (json_string s).
Proof.
  unfold json_string. apply Forall_app. split; [repeat constructor; lia|].
  apply Forall_app. split; [|repeat constructor; lia].
  induction s as [|c s IH]; simpl; [constructor|].
  apply Forall_app. split; [apply json_escape_printable | exact IH].
Qed.

Lemma printable_no_line_feed (s : pystr) :
  Forall (fun x => (32 <= x)%N) s -> Csv.line_count s = 0%nat.
Proof.
  induction 1 as [|c s Hc _ IH]; trivial.
  unfold Csv.line_count in *. cbn [filter].
  destruct (N.eqb_spec Csv.LF c) as [E | _]; [|exact IH].
  unfold Csv.LF in E. lia.
Qed.

Lemma line_count_join_sep (sep : pystr) (parts : list pystr) :
  (forall x, In x parts -> Csv.line_count x = 0%nat) ->
  Csv.line_count (join sep parts)
  = (Nat.pred (List.length parts) * Csv.line_count sep)%nat.
Proof.
  induction parts as [|x parts IH]; intros H; trivial.
  destruct parts as [|y parts].
  - simpl. rewrite H by now left. reflexivity.
  - change (join sep (x :: y :: parts))
      with (x ++ sep ++ join sep (y :: parts)).
    rewrite !line_count_app, IH by (intros z Hz; apply H; now right).
    rewrite H by now left. simpl. lia.
Qed.

Lemma json_dump_lines (d : dict pystr) :
  Csv.line_count (json_dump_indent2 d)
  = match d with [] => 0%nat | _ => S (List.length d) end.
Proof.
  destruct d as [|kv d]; trivial.
  unfold json_dump_indent2.
  rewrite !line_count_app, line_count_join_sep.
  - rewrite length_map.
    change (Csv.line_count (lit "," ++ [Csv.LF] ++ lit "  ")) with 1%nat.
    change (Csv.line_count (lit "{")) with 0%nat.
    change (Csv.line_count [Csv.LF]) with 1%nat.
    change (Csv.line_count (lit "  ")) with 0%nat.
    change (Csv.line_count (lit "}")) with 0%nat.
    simpl List.length. simpl Nat.pred. lia.
  - intros x Hx. apply in_map_iff in Hx as [e [<- _]].
    rewrite !line_count_app.
    rewrite !(printable_no_line_feed _ (json_string_printable _)).
    reflexivity.
Qed.

End JsonLines.

(** X13: when [save_to_json] writes its file, the file has no line
    break inside a key or a text: every string is written with all its
    characters at or above the space, control characters being escaped,
    so the file has one line feed per entry plus one, whatever the texts
    contain, and none for an empty store. *)
Theorem json_lines_count {RT : PyRuntime} (f : AnniversaryFetcher)
  (json : pystr) :
  dict_wf (data f) ->
  save_to_json true f = Written json ->
  (forall s, Forall (fun c => (32 <= c)%N) (json_string s))
  /\ Csv.line_count json
     = match data f with [] => 0%nat | _ => S (List.length (data f)) end.
Proof.
  intros W Hjson. unfold save_to_json in Hjson.
  apply write_utf8_written in Hjson as [-> _].
  split; [apply json_string_printable|].
  rewrite json_dump_lines, (sorted_data_items _ W).
  pose proof (Permutation_length (sorted_perm _ tuple_ltb (dict_items (data f))))
    as L.
  unfold dict_items in *.
  destruct (data f) as [|kv d] eqn:D.
  - reflexivity.
  - destruct (sorted tuple_ltb (kv :: d)) as [|x l]; [discriminate|].
    now rewrite L.
Qed.

Lemma json_lines_count_witness :
  save_to_json (RT := sample_runtime) true
    (with_data [(lit "01-01", [97; 10; 98]%N)])
  = Written (json_dump_indent2 (RT := sample_runtime)
               (sorted_data (with_data [(lit "01-01", [97; 10; 98]%N)])))
  /\ Csv.line_count
       (json_dump_indent2 (RT := sample_runtime)
          (sorted_data (with_data [(lit "01-01", [97; 10; 98]%N)])))
     = 2%nat.
Proof.
  assert (W : dict_wf (data (with_data [(lit "01-01", [97; 10; 98]%N)])))
    by (apply all_distinct_sound; vm_compute; reflexivity).
  assert (H : save_to_json (RT := sample_runtime) true
                (with_data [(lit "01-01", [97; 10; 98]%N)])
              = Written (json_dump_indent2 (RT := sample_runtime)
                           (sorted_data
                              (with_data [(lit "01-01", [97; 10; 98]%N)]))))
    by (vm_compute; reflexivity).
  split; [exact H|].
  rewrite (proj2 (json_lines_count (RT := sample_runtime) _ _ W H)).
  reflexivity.
Defined.

(* ================================================================== *)
(** * Bounds of the sample listing                                     *)
(* ================================================================== *)

Lemma print_lines_snd (lines : list pystr) :
  snd (print_lines lines) = Ok tt <-> forallb printable lines = true.
Proof.
  induction lines as [|line lines IH]; cbn [print_lines forallb].
  - now split.
  - destruct (printable line); cbn [snd andb]; [exact IH|].
    split; discriminate.
Qed.

(** X14: a call of [show_sample] that returns has listed as many
    entries as the count asks for when the store has them and all of
    them otherwise; a negative count leaves out that many entries from
    the end instead, and no argument means ten.  The call returns
    exactly when its heading and the lines of those entries can be
    printed. *)
Theorem show_sample_entry_count (f : AnniversaryFetcher) (count : option Z)
  (lines : list pystr) :
  show_sample count f = (lines, Ok tt) ->
  List.length (tl lines)
  = match count with
    | None => Nat.min 10 (List.length (data f))
    | Some c =>
        if 0 <=? c then Nat.min (Z.to_nat c) (List.length (data f))
        else (List.length (data f) - Z.to_nat (- c))%nat
    end
  /\ forallb printable lines = true
  /\ (forall f' count',
         snd (show_sample count' f') = Ok tt
         <-> forallb printable
               (sample_heading (match count' with
                                | Some c => c
                                | None => show_sample_default_count
                                end)
                :: map sample_line
                     (slice_to (sorted tuple_ltb (dict_items (data f')))
                               (match count' with
                                | Some c => c
                                | None => show_sample_default_count
                                end))) = true).
Proof.
  intros H.
  pose proof (Permutation_length (sorted_perm _ tuple_ltb (dict_items (data f))))
    as L.
  unfold show_sample in H. apply print_lines_ok in H as [-> Pr].
  split; [|split; [exact Pr|]].
  - cbn [tl]. rewrite length_map. unfold slice_to.
    destruct count as [c|].
    + destruct (0 <=? c); rewrite length_firstn, <- L; unfold dict_items; lia.
    + unfold show_sample_default_count. change (0 <=? 10) with true. cbv iota.
      rewrite length_firstn, <- L. reflexivity.
  - intros f' count'. unfold show_sample. apply print_lines_snd.
Qed.

Lemma show_sample_entry_count_witness :
  show_sample None store_a
  = ([sample_heading 10; lit "01-01: a"; lit "02-01: b"], Ok tt)
  /\ List.length (tl [sample_heading 10; lit "01-01: a"; lit "02-01: b"])
     = 2%nat.
Proof.
  assert (H : show_sample None store_a
              = ([sample_heading 10; lit "01-01: a"; lit "02-01: b"], Ok tt))
    by (vm_compute; reflexivity).
  split; [exact H|].
  rewrite (proj1 (show_sample_entry_count store_a None _ H)). reflexivity.
Defined.

(* ================================================================== *)
(** * Further properties of the extractor                              *)
(* ================================================================== *)

(** X15: when the parsed object has the key [events], the text is built
    from the value of that key alone, also when that value is an empty
    array or null and other candidate keys hold names: presence decides,
    not content. *)
Theorem events_key_takes_priority {RT : PyRuntime} (response : Response)
  (entries : dict pyval) (value : pyval) :
  json response = Ok (PDict entries) ->
  dict_get (lit "events") entries = Some value ->
  extract_anniversary_text response
  = Ok (match value with
        | PList items => stringify_and_join items
        | _ => py_str value
        end).
Proof.
  intros J E. rewrite extract_total. unfold extract_try. rewrite J.
  cbn [bind]. unfold candidate_keys. cbn [scan_keys]. rewrite E.
  now destruct value.
Qed.

Lemma events_key_takes_priority_witness :
  extract_anniversary_text (RT := sample_runtime) response_empty_events = Ok [].
Proof.
  exact (events_key_takes_priority (RT := sample_runtime)
           response_empty_events _ (PList []) eq_refl eq_refl).
Defined.

(** X16: for a body that does not parse as JSON, the text returned is
    the body without the white space at its two ends: the body is that
    text between two runs of white space, and the text neither begins
    nor ends with a white space character; white space inside is
    kept. *)
Theorem unparsed_body_is_trimmed {RT : PyRuntime} (response : Response)
  (e : exn) :
  json response = Raise e ->
  exists result lead trail,
    extract_anniversary_text response = Ok result
    /\ text response = lead ++ result ++ trail
    /\ forallb isspace lead = true
    /\ forallb isspace trail = true
    /\ isspace (hd 0%N result) = false
    /\ isspace (last result 0%N) = false.
Proof.
  intros J. apply extract_try_raise in J.
  rewrite extract_total, J. unfold strip.
  destruct (lstrip_split (text response)) as [lead [E1 W1]].
  destruct (rstrip_split (lstrip (text response))) as [trail [E2 W2]].
  exists (rstrip (lstrip (text response))), lead, trail.
  split; [reflexivity|]. split; [now rewrite <- E2|].
  split; [exact W1|]. split; [exact W2|].
  split; [apply rstrip_head, lstrip_head | apply rstrip_last].
Qed.

Lemma unparsed_body_is_trimmed_witness :
  extract_anniversary_text (RT := sample_runtime)
    (plain_response 200 "OK" (lit "  hello world ")
       (Raise (JSONDecodeError [])))
  = Ok (lit "hello world").
Proof.
  destruct (unparsed_body_is_trimmed (RT := sample_runtime)
              (plain_response 200 "OK" (lit "  hello world ")
                 (Raise (JSONDecodeError []))) _ eq_refl)
    as (result & lead & trail & H & _).
  rewrite H. vm_compute in H. injection H as <-. reflexivity.
Defined.

(* ================================================================== *)
(** * Keys of valid dates                                              *)
(* ================================================================== *)

Lemma month_day_grid_in (m d : Z) :
  1 <= m <= 12 -> 1 <= d <= 31 -> In (m, d) month_day_grid.
Proof.
  intros Hm Hd. unfold month_day_grid. apply in_flat_map.
  exists (Z.to_nat m). split; [apply in_seq; lia|].
  apply in_map_iff. exists (Z.to_nat d). split.
  - f_equal; lia.
  - apply in_seq. lia.
Qed.

Lemma nodup_map_injective {A B} (f : A -> B) (l : list A) :
  NoDup (map f l) ->
  forall x y, In x l -> In y l -> f x = f y -> x = y.
Proof.
  induction l as [|a l IH]; intros ND x y Hx Hy E; [destruct Hx|].
  simpl in ND. inversion ND as [|? ? Ha ND']; subst.
  destruct Hx as [-> | Hx], Hy as [-> | Hy]; trivial.
  - destruct Ha. rewrite E. now apply in_map.
  - destruct Ha. rewrite <- E. now apply in_map.
  - now apply IH.
Qed.

(** X17: for a month from 1 to 12 and a day from 1 to 31 the date key
    has the shape MM-DD, its digits are those of the request target, and
    it identifies the date: two such dates with the same key are the
    same date. *)
Theorem date_key_identifies_date (m d m' d' : Z) :
  1 <= m <= 12 -> 1 <= d <= 31 -> 1 <= m' <= 12 -> 1 <= d' <= 31 ->
  is_mm_dd (date_key_of m d) = true
  /\ date_key_of m d = two_digits m ++ lit "-" ++ two_digits d
  /\ fmt_02d m ++ fmt_02d d = two_digits m ++ two_digits d
  /\ (date_key_of m d = date_key_of m' d' -> m = m' /\ d = d').
Proof.
  intros Hm Hd Hm' Hd'.
  pose proof (month_day_grid_in m d Hm Hd) as I.
  pose proof (month_day_grid_in m' d' Hm' Hd') as I'.
  assert (A : forallb (fun md =>
                is_mm_dd (date_key_of (fst md) (snd md))
                && PyStr.eqb (date_key_of (fst md) (snd md))
                     (two_digits (fst md) ++ lit "-" ++ two_digits (snd md))
                && PyStr.eqb (fmt_02d (fst md) ++ fmt_02d (snd md))
                     (two_digits (fst md) ++ two_digits (snd md)))
                month_day_grid = true) by (vm_compute; reflexivity).
  rewrite forallb_forall in A. specialize (A _ I). cbn [fst snd] in A.
  apply andb_true_iff in A as [A A3]. apply andb_true_iff in A as [A1 A2].
  apply eqb_eq in A2, A3.
  split; [exact A1|]. split; [exact A2|]. split; [exact A3|].
  intros E.
  assert (ND : NoDup (map (fun md => date_key_of (fst md) (snd md))
                          month_day_grid))
    by (apply all_distinct_sound; vm_compute; reflexivity).
  pose proof (nodup_map_injective _ _ ND (m, d) (m', d') I I' E) as P.
  now injection P.
Qed.

Lemma date_key_identifies_date_witness :
  is_mm_dd (date_key_of 2 28) = true
  /\ (date_key_of 2 28 = date_key_of 2 28 -> 2 = 2 /\ 28 = 28).
Proof.
  destruct (date_key_identifies_date 2 28 2 28
              ltac:(lia) ltac:(lia) ltac:(lia) ltac:(lia))
    as (A & _ & _ & B).
  split; [exact A | exact B].
Defined.

(* ================================================================== *)
(** * A success without data                                           *)
(* ================================================================== *)

Lemma lit_printable (s : String.string) : printable (lit s) = true.
Proof.
  unfold printable, lit. apply forallb_forall. intros c Hin.
  apply in_map_iff in Hin as [a [<- _]].
  unfold utf8_encodable. pose proof (N_ascii_bounded a) as B.
  destruct (N.leb_spec 0xD800 (N_of_ascii a)); [lia | reflexivity].
Qed.

Lemma date_key_printable (m d : Z) : printable (date_key_of m d) = true.
Proof.
  assert (F : forall n, printable (fmt_02d n) = true).
  { intros n. unfold fmt_02d. rewrite !printable_app.
    unfold str_of_int. rewrite lit_printable, andb_true_r.
    assert (R : forall k, printable (repeat 48%N k) = true)
      by (induction k; trivial).
    rewrite R, andb_true_r. destruct (n <? 0); [apply lit_printable | reflexivity]. }
  unfold date_key_of. now rewrite !printable_app, !F, lit_printable.
Qed.

(** X18: when the response is accepted and its array has no truthy
    element, an empty array included, the call still counts a success
    but stores the empty text, which the statistics count as a day
    without data. *)
Theorem falsy_array_is_success_without_data {RT : PyRuntime} (net : network)
  (m d : Z) (w : world) (r : Response) (items : list pyval) :
  net (List.length (requested w)) (url_of (self w) (m, d)) = NetResponse r ->
  request_fails (NetResponse r) = false ->
  json r = Ok (PList items) ->
  forallb (fun item => negb (truthy item)) items = true ->
  exists w',
    fetch_single_date net m d w = Ok (w', true)
    /\ dict_get (date_key_of m d) (data (self w')) = Some []
    /\ success_count (self w') = success_count (self w) + 1
    /\ errors (self w') = errors (self w)
    /\ has_data [] = false.
Proof.
  intros E F J A.
  assert (T : stored_text (NetResponse r) = []).
  { unfold stored_text. rewrite F, extract_total. unfold extract_try.
    rewrite J. cbn [bind].
    assert (N : filter truthy items = []).
    { apply filter_none. intros x Hx. rewrite forallb_forall in A.
      specialize (A x Hx). now destruct (truthy x). }
    now rewrite N. }
  eexists. rewrite fetch_single_date_printable.
  - rewrite E, F. split; [reflexivity|].
    unfold fetch_step, after_fetch. rewrite E, F.
    cbn [self data errors success_count incr_success set_data fst snd].
    rewrite T. split; [apply dict_get_set|]. repeat split.
  - rewrite E. unfold fetch_line. rewrite F, T.
    change (preview_of []) with (@nil N).
    rewrite !printable_app, date_key_printable, lit_printable. reflexivity.
Qed.

Lemma falsy_array_is_success_without_data_witness :
  exists w',
    fetch_single_date (RT := sample_runtime) net_falsy 1 1 start = Ok (w', true)
    /\ data (self w') = [(lit "01-01", [])]
    /\ success_count (self w') = 1.
Proof.
  destruct (falsy_array_is_success_without_data (RT := sample_runtime)
              net_falsy 1 1 start _ _ eq_refl eq_refl eq_refl eq_refl)
    as (w' & H & _ & S & _).
  exists w'. split; [exact H|]. split; [|exact S].
  vm_compute in H. injection H as <-. reflexivity.
Defined.

(* ================================================================== *)
(** * When a run returns                                               *)
(* ================================================================== *)




Section PlainNetwork.
Context {RT : PyRuntime} {PF : Platform}.
Variable net : network.

(** The texts the network returns can be printed: for each date of the
    calendar, the line of its fetch holds no surrogate. *)
Hypothesis plain_lines :
  forall i, (i < 365)%nat ->
    printable (fetch_line (outcome_at net init i) (nth i calendar_keys []))
    = true.

(** The numbers the runtime and the platform format are plain text, and
    the platform can sleep for one second. *)
Hypothesis plain_percentages : forall done, printable (progress_1f done) = true.
Hypothesis plain_delay : printable (float_repr (delay init)) = true.
Hypothesis one_second_accepted : sleep_too_long (delay init) = false.










End PlainNetwork.


